(** * base-knowledge: document store, chunk store, similarity search and
      the ingestion pipeline

    A shallow embedding of
      - [shared/models/document.py]              (the two tables),
      - [shared/repository/document_repository.py] (the repository),
      - [document-service/services/document_processor.py] (the pipeline),
      - [document-service/routes/documents.py]   (the update route),
    followed by the properties of the specification stated over it.

    Python code that runs against a SQLAlchemy [Session] is written in a
    state-and-exception monad; the state survives a raised exception, as
    it does in Python, so that an [except] block sees what the [try]
    block left behind. *)

From stdpp Require Import base decidable option list gmap strings sorting pretty.
From Stdlib Require Import ZArith Lia.

Local Open Scope string_scope.
Local Open Scope Z_scope.

(** ** Exceptions and the state-and-exception monad *)

Inductive exn : Type :=
| HTTPException (status_code : Z) (detail : string)
| StatementError (msg : string)
| IntegrityError (msg : string)
| PendingRollbackError (original : string)
| FileNotFoundError (path : string)
| KeyError (key : string)
| ExternalError (msg : string).

(** [str(e)].  For [HTTPException] this is Starlette's
    ["{status_code}: {detail}"]. *)
Definition str (e : exn) : string :=
  match e with
  | HTTPException status_code detail => pretty status_code +:+ ": " +:+ detail
  | StatementError msg => msg
  | IntegrityError msg => msg
  | PendingRollbackError original =>
      "This Session's transaction has been rolled back due to a previous "
      +:+ "exception during flush. To begin a new transaction with this "
      +:+ "Session, first issue Session.rollback(). Original exception was: "
      +:+ original
  | FileNotFoundError path => "[Errno 2] No such file or directory: " +:+ path
  | KeyError key => key
  | ExternalError msg => msg
  end.

Inductive result (A : Type) : Type :=
| Ok (a : A)
| Raise (e : exn).
Arguments Ok {A} a.
Arguments Raise {A} e.

Definition M (S A : Type) : Type := S → result A * S.

Definition ret {S A} (a : A) : M S A := λ s, (Ok a, s).
Definition raise {S A} (e : exn) : M S A := λ s, (Raise e, s).
Definition bind {S A B} (m : M S A) (k : A → M S B) : M S B :=
  λ s, match m s with
       | (Ok a, s') => k a s'
       | (Raise e, s') => (Raise e, s')
       end.
Definition gets {S A} (f : S → A) : M S A := λ s, (Ok (f s), s).
Definition modify {S} (f : S → S) : M S unit := λ s, (Ok tt, f s).

Notation "'let*' x ':=' c 'in' k" := (bind c (λ x, k))
  (at level 10, x pattern, c at level 100, k at level 200, only parsing).
Notation "c1 '>>' c2" := (bind c1 (λ _, c2))
  (at level 100, c2 at level 200, right associativity, only parsing).

(** [try: body except Exception as e: handler(e)] *)
Definition try_except {S A} (body : M S A) (handler : exn → M S A) : M S A :=
  λ s, match body s with
       | (Ok a, s') => (Ok a, s')
       | (Raise e, s') => handler e s'
       end.

(** [try: body finally: cleanup] *)
Definition try_finally {S A} (body : M S A) (cleanup : M S unit) : M S A :=
  λ s, match body s with
       | (r, s') =>
           match cleanup s' with
           | (Ok _, s'') => (r, s'')
           | (Raise e, s'') => (Raise e, s'')
           end
       end.

(** Lift a collaborator's outcome into the monad. *)
Definition call {S A} (r : result A) : M S A := λ s, (r, s).

(** ** The data model ([shared/models/document.py]) *)

Inductive DocumentStatus : Type := PROCESSING | COMPLETED | FAILED.

Global Instance DocumentStatus_eq_dec : EqDecision DocumentStatus.
Proof. solve_decision. Defined.

(** [DocumentStatus(str, enum.Enum)]: the [.value] of a member. *)
Definition status_value (s : DocumentStatus) : string :=
  match s with
  | PROCESSING => "processing"
  | COMPLETED => "completed"
  | FAILED => "failed"
  end.

(** JSON columns: an object from keys to lists of strings, which is what
    the chunker's metadata ([doc_items], [headings]) needs. *)
Abbreviation Json := (list (string * list string)).

(** Timestamps are seconds on the database clock. *)
Record Document : Type := mkDocument {
  id : option Z;
  filename : string;
  file_extension : string;
  file_size : Z;
  status : DocumentStatus;
  error_message : option string;
  markdown_content : option string;
  markdown_length : option Z;
  num_chunks : Z;
  chunk_size : Z;
  embedding_model : string;
  embedding_dimension : Z;
  created_at : option Z;
  updated_at : option Z;
  completed_at : option Z;
  doc_metadata : Json
}.

Global Instance Document_eq_dec : EqDecision Document.
Proof. solve_decision. Defined.

(** Attribute assignments on a loaded [Document]. *)
Definition set_id v (d : Document) : Document :=
  mkDocument v (filename d) (file_extension d) (file_size d) (status d)
    (error_message d) (markdown_content d) (markdown_length d) (num_chunks d)
    (chunk_size d) (embedding_model d) (embedding_dimension d) (created_at d)
    (updated_at d) (completed_at d) (doc_metadata d).
Definition set_filename v (d : Document) : Document :=
  mkDocument (id d) v (file_extension d) (file_size d) (status d)
    (error_message d) (markdown_content d) (markdown_length d) (num_chunks d)
    (chunk_size d) (embedding_model d) (embedding_dimension d) (created_at d)
    (updated_at d) (completed_at d) (doc_metadata d).
Definition set_status v (d : Document) : Document :=
  mkDocument (id d) (filename d) (file_extension d) (file_size d) v
    (error_message d) (markdown_content d) (markdown_length d) (num_chunks d)
    (chunk_size d) (embedding_model d) (embedding_dimension d) (created_at d)
    (updated_at d) (completed_at d) (doc_metadata d).
Definition set_error_message v (d : Document) : Document :=
  mkDocument (id d) (filename d) (file_extension d) (file_size d) (status d)
    v (markdown_content d) (markdown_length d) (num_chunks d)
    (chunk_size d) (embedding_model d) (embedding_dimension d) (created_at d)
    (updated_at d) (completed_at d) (doc_metadata d).
Definition set_markdown_content v (d : Document) : Document :=
  mkDocument (id d) (filename d) (file_extension d) (file_size d) (status d)
    (error_message d) v (markdown_length d) (num_chunks d)
    (chunk_size d) (embedding_model d) (embedding_dimension d) (created_at d)
    (updated_at d) (completed_at d) (doc_metadata d).
Definition set_markdown_length v (d : Document) : Document :=
  mkDocument (id d) (filename d) (file_extension d) (file_size d) (status d)
    (error_message d) (markdown_content d) v (num_chunks d)
    (chunk_size d) (embedding_model d) (embedding_dimension d) (created_at d)
    (updated_at d) (completed_at d) (doc_metadata d).
Definition set_num_chunks v (d : Document) : Document :=
  mkDocument (id d) (filename d) (file_extension d) (file_size d) (status d)
    (error_message d) (markdown_content d) (markdown_length d) v
    (chunk_size d) (embedding_model d) (embedding_dimension d) (created_at d)
    (updated_at d) (completed_at d) (doc_metadata d).
Definition set_created_at v (d : Document) : Document :=
  mkDocument (id d) (filename d) (file_extension d) (file_size d) (status d)
    (error_message d) (markdown_content d) (markdown_length d) (num_chunks d)
    (chunk_size d) (embedding_model d) (embedding_dimension d) v
    (updated_at d) (completed_at d) (doc_metadata d).
Definition set_updated_at v (d : Document) : Document :=
  mkDocument (id d) (filename d) (file_extension d) (file_size d) (status d)
    (error_message d) (markdown_content d) (markdown_length d) (num_chunks d)
    (chunk_size d) (embedding_model d) (embedding_dimension d) (created_at d)
    v (completed_at d) (doc_metadata d).
Definition set_completed_at v (d : Document) : Document :=
  mkDocument (id d) (filename d) (file_extension d) (file_size d) (status d)
    (error_message d) (markdown_content d) (markdown_length d) (num_chunks d)
    (chunk_size d) (embedding_model d) (embedding_dimension d) (created_at d)
    (updated_at d) v (doc_metadata d).

(** The float8 values of embeddings and distances are kept abstract: the
    store needs pgvector's [cosine_distance] operator (SQL [<=>]) and the
    order PostgreSQL sorts float8 by. *)
Class Float8 : Type := {
  float : Type;
  cosine_distance : list float → list float → float;
  float_le : float → float → bool
}.

(** What [ORDER BY] relies on: float8 values are totally preordered. *)
Class Float8Order (FL : Float8) : Prop := {
  float_le_total : ∀ x y : float, float_le x y = true ∨ float_le y x = true;
  float_le_trans : ∀ x y z : float,
    float_le x y = true → float_le y z = true → float_le x z = true
}.

(** [Vector(1536)] *)
Definition VECTOR_DIM : nat := 1536.

Section Store.
Context `{FL : Float8}.

Record DocumentChunk : Type := mkDocumentChunk {
  chunk_pk : option Z;                    (* column [id] *)
  document_id : Z;
  chunk_index : Z;
  text : string;
  text_length : Z;
  embedding : option (list float);
  chunk_metadata : Json;
  chunk_created_at : option Z             (* column [created_at] *)
}.

(** The two tables, with their primary-key sequences.  A document row is
    keyed by its [id]; the chunk rows are kept in insertion order. *)
Record Database : Type := mkDatabase {
  documents : gmap Z Document;
  chunks : list DocumentChunk;
  next_document_id : Z;
  next_chunk_id : Z
}.

(** ** The SQLAlchemy session

    [SessionLocal = sessionmaker(autocommit=False, autoflush=False, ...)].
    A session works inside a transaction: [pending] is the database as the
    transaction sees it, [committed] what other sessions see.  After a
    failed flush or bulk save SQLAlchemy rolls the transaction back and
    keeps the exception; until [Session.rollback()] is issued, every
    further use of the session raises [PendingRollbackError]. *)
Record Session : Type := mkSession {
  committed : Database;
  pending : Database;
  rollback_exception : option string;
  now : Z
}.

Definition SessionLocal (database : Database) (clock : Z) : Session :=
  mkSession database database None clock.

Definition set_pending (p : Database) (s : Session) : Session :=
  mkSession (committed s) p (rollback_exception s) (now s).

Definition assert_active : M Session unit :=
  λ s, match rollback_exception s with
       | Some original => (Raise (PendingRollbackError original), s)
       | None => (Ok tt, s)
       end.

(** [db.query(Document).filter(Document.id == document_id).first()] *)
Definition query_document_first (document_id : Z) : M Session (option Document) :=
  assert_active >> gets (λ s, documents (pending s) !! document_id).

(** Attribute assignment on the loaded row with primary key [document_id]:
    the session tracks the object, the UPDATE is sent at commit. *)
Definition assign (document_id : Z) (f : Document → Document) : M Session unit :=
  modify (λ s, set_pending
    (mkDatabase (alter f document_id (documents (pending s)))
       (chunks (pending s)) (next_document_id (pending s))
       (next_chunk_id (pending s))) s).

(** The UPDATE of a changed document row: [updated_at] has
    [onupdate=func.now()].  An unchanged row gets no UPDATE; a new row
    gets none either ([updated_at] has no default). *)
Definition onupdate (clock : Z) (d0 d : Document) : Document :=
  if decide (d = d0) then d else set_updated_at (Some clock) d.

Definition flush_document (old : gmap Z Document) (clock : Z)
    (i : Z) (d : Document) : option Document :=
  match old !! i with
  | Some d0 => Some (onupdate clock d0 d)
  | None => Some d
  end.

Definition flush (s : Session) : Database :=
  mkDatabase
    (map_imap (flush_document (documents (committed s)) (now s))
       (documents (pending s)))
    (chunks (pending s)) (next_document_id (pending s))
    (next_chunk_id (pending s)).

(** [db.commit()] *)
Definition commit : M Session unit :=
  assert_active >>
  modify (λ s, mkSession (flush s) (flush s) (rollback_exception s) (now s)).

(** [db.refresh(document)] *)
Definition refresh (document_id : Z) : M Session (option Document) :=
  query_document_first document_id.

(** The columns of [documents] have types: [filename] is [String(255)],
    [file_extension] [String(10)], [embedding_model] [String(100)], and
    [file_size], [markdown_length], [num_chunks], [chunk_size] and
    [embedding_dimension] are [Integer], 32 bits in PostgreSQL.  An INSERT
    with a value that does not fit its column is rejected. *)
Definition fits_Integer (n : Z) : Prop := -2147483648 ≤ n ≤ 2147483647.

Global Instance fits_Integer_dec (n : Z) : Decision (fits_Integer n).
Proof. unfold fits_Integer. apply _. Defined.

Definition fits_optional_Integer (n : option Z) : Prop :=
  match n with
  | Some n => fits_Integer n
  | None => True
  end.

Global Instance fits_optional_Integer_dec (n : option Z) :
  Decision (fits_optional_Integer n).
Proof. destruct n; apply _. Defined.

Definition check_document (d : Document) : option exn :=
  if decide (255 < String.length (filename d))%nat
  then Some (StatementError "value too long for type character varying(255)")
  else if decide (10 < String.length (file_extension d))%nat
  then Some (StatementError "value too long for type character varying(10)")
  else if decide (100 < String.length (embedding_model d))%nat
  then Some (StatementError "value too long for type character varying(100)")
  else if decide (fits_Integer (file_size d)
                  ∧ fits_optional_Integer (markdown_length d)
                  ∧ fits_Integer (num_chunks d)
                  ∧ fits_Integer (chunk_size d)
                  ∧ fits_Integer (embedding_dimension d))
  then None
  else Some (StatementError "integer out of range").

(** [db.add(document)] for a new document, with the INSERT that the flush
    of the following [db.commit()] sends: it draws the [id] from the
    sequence and [created_at] from [server_default=func.now()].  When the
    row is rejected the transaction is rolled back and the session keeps
    the exception. *)
Definition add_document (d : Document) : M Session Z :=
  λ s, match check_document d with
       | Some e =>
           (Raise e, mkSession (committed s) (committed s) (Some (str e)) (now s))
       | None =>
           let p := pending s in
           let i := next_document_id p in
           let row := set_created_at (Some (now s)) (set_id (Some i) d) in
           (Ok i, set_pending (mkDatabase (<[i := row]> (documents p)) (chunks p)
                                 (i + 1) (next_chunk_id p)) s)
       end.

(** [db.delete(document)]: the relationship [chunks] has
    [cascade="all, delete-orphan"] and the foreign key has
    [ondelete="CASCADE"], so the chunks of the document go with it. *)
Definition delete_document_row (i : Z) : M Session unit :=
  modify (λ s, let p := pending s in
    set_pending (mkDatabase (delete i (documents p))
       (filter (λ c, document_id c ≠ i) (chunks p))
       (next_document_id p) (next_chunk_id p)) s).

(** One INSERT into [document_chunks].  pgvector checks the dimension of
    the bound value against [Vector(1536)]; the database checks the
    foreign key [document_id -> documents.id]. *)
Definition check_chunk (p : Database) (c : DocumentChunk) : option exn :=
  match embedding c with
  | Some v =>
      if decide (length v = VECTOR_DIM) then
        match documents p !! document_id c with
        | Some _ => None
        | None => Some (IntegrityError "insert on document_chunks violates foreign key constraint")
        end
      else Some (StatementError ("expected 1536 dimensions, not " +:+ pretty (length v)))
  | None =>
      match documents p !! document_id c with
      | Some _ => None
      | None => Some (IntegrityError "insert on document_chunks violates foreign key constraint")
      end
  end.

(** The row an INSERT stores: the [id] comes from the sequence,
    [created_at] from [server_default=func.now()]. *)
Definition stored_row (pk clock : Z) (c : DocumentChunk) : DocumentChunk :=
  mkDocumentChunk (Some pk) (document_id c) (chunk_index c) (text c)
    (text_length c) (embedding c) (chunk_metadata c) (Some clock).

Definition insert_chunk (c : DocumentChunk) : M Session DocumentChunk :=
  λ s, let p := pending s in
       match check_chunk p c with
       | Some e => (Raise e, s)
       | None =>
           let row := stored_row (next_chunk_id p) (now s) c in
           (Ok row, set_pending (mkDatabase (documents p) (chunks p ++ [row])
                                   (next_document_id p) (next_chunk_id p + 1)) s)
       end.

Fixpoint insert_chunks (cs : list DocumentChunk) : M Session (list DocumentChunk) :=
  match cs with
  | [] => ret []
  | c :: cs' =>
      let* row := insert_chunk c in
      let* rows := insert_chunks cs' in
      ret (row :: rows)
  end.

(** [db.bulk_save_objects(chunks, return_defaults=True)]: the rows are
    inserted one after the other inside the session's transaction; when an
    INSERT fails the transaction is rolled back and the session keeps the
    exception. *)
Definition bulk_save_objects (cs : list DocumentChunk) : M Session (list DocumentChunk) :=
  assert_active >>
  λ s, match insert_chunks cs s with
       | (Ok rows, s') => (Ok rows, s')
       | (Raise e, s') =>
           (Raise e, mkSession (committed s') (committed s') (Some (str e)) (now s'))
       end.

End Store.

(** Column references as the queries write them. *)
Abbreviation DocumentChunk_document_id := document_id.
Abbreviation DocumentChunk_chunk_index := chunk_index.
Abbreviation DocumentChunk_embedding := embedding.

(** A keyword argument with a default value: left out, or passed. *)
Inductive kwarg (A : Type) : Type :=
| Omitted
| Passed (a : A).
Arguments Omitted {A}.
Arguments Passed {A} a.

Definition kwarg_value {A} (default : A) (k : kwarg A) : A :=
  match k with
  | Omitted => default
  | Passed a => a
  end.

(** Python's truth value of an [Optional[int]]: [None] and [0] are false. *)
Definition truthy (x : option Z) : bool :=
  match x with
  | None => false
  | Some n => negb (Z.eqb n 0)
  end.

(** [len(s)] *)
Definition len (s : string) : Z := Z.of_nat (String.length s).

(** ** The repository ([shared/repository/document_repository.py]) *)

Section Repository.
Context `{FL : Float8}.

(** The dictionaries [create_chunks_batch] receives; [embedding] and
    [chunk_metadata] are read with [dict.get] and may be missing. *)
Record ChunkData : Type := mkChunkData {
  data_chunk_index : Z;
  data_text : string;
  data_embedding : option (list float);
  data_chunk_metadata : option Json
}.

Definition create_document (filename file_extension : string)
    (file_size chunk_size : Z) (doc_metadata : option Json)
    : M Session (Z * Document) :=
  let document :=
    mkDocument None filename file_extension file_size PROCESSING None None None
      0 chunk_size "text-embedding-3-small" 1536 None None None
      (default [] doc_metadata) in
  let* document_id := add_document document in
  commit >>
  let* row := refresh document_id in
  match row with
  | Some document => ret (document_id, document)
  | None => raise (ExternalError "Could not refresh instance")
  end.

Definition get_document (document_id : Z) : M Session (option Document) :=
  query_document_first document_id.

Definition update_document_status (document_id : Z) (status : DocumentStatus)
    (error_message : option string) : M Session (option Document) :=
  let* document := get_document document_id in
  match document with
  | Some _ =>
      assign document_id (set_status status) >>
      assign document_id (set_error_message error_message) >>
      (if decide (status = COMPLETED)
       then let* utcnow := gets now in
            assign document_id (set_completed_at (Some utcnow))
       else ret tt) >>
      commit >>
      refresh document_id
  | None => ret None
  end.

Definition update_document_content (document_id : Z) (markdown_content : string)
    (markdown_length num_chunks : Z) : M Session (option Document) :=
  let* document := get_document document_id in
  match document with
  | Some _ =>
      assign document_id (set_markdown_content (Some markdown_content)) >>
      assign document_id (set_markdown_length (Some markdown_length)) >>
      assign document_id (set_num_chunks num_chunks) >>
      commit >>
      refresh document_id
  | None => ret None
  end.

Definition delete_document (document_id : Z) : M Session bool :=
  let* document := get_document document_id in
  match document with
  | Some _ =>
      delete_document_row document_id >>
      commit >>
      ret true
  | None => ret false
  end.

(** [DocumentChunk(document_id=document_id, chunk_index=data["chunk_index"], ...)] *)
Definition new_chunk (document_id : Z) (data : ChunkData) : DocumentChunk :=
  mkDocumentChunk None document_id (data_chunk_index data) (data_text data)
    (len (data_text data)) (data_embedding data)
    (default [] (data_chunk_metadata data)) None.

Definition create_chunks_batch (document_id : Z) (chunks_data : list ChunkData)
    : M Session (list DocumentChunk) :=
  let chunks := new_chunk document_id <$> chunks_data in
  let* saved := bulk_save_objects chunks in
  commit >>
  ret saved.

(** [asc(DocumentChunk.chunk_index)] *)
Definition asc_chunk_index (c1 c2 : DocumentChunk) : Prop :=
  DocumentChunk_chunk_index c1 ≤ DocumentChunk_chunk_index c2.

Global Instance asc_chunk_index_dec : RelDecision asc_chunk_index.
Proof. intros c1 c2. unfold asc_chunk_index. apply _. Defined.

(** [skip] and [limit] are counts (SQL's OFFSET and LIMIT), hence natural
    numbers here. *)
Definition get_chunks_by_document (document_id : Z) (skip limit : nat)
    : M Session (list DocumentChunk) :=
  assert_active >>
  gets (λ s,
    take limit (drop skip (merge_sort asc_chunk_index
      (filter (λ c, DocumentChunk_document_id c = document_id)
         (chunks (pending s)))))).

(** The rows of [db.query(DocumentChunk, cosine_distance(...).label("distance"))]:
    a chunk without embedding has the distance NULL. *)
Definition with_distance (query_embedding : list float) (c : DocumentChunk)
    : DocumentChunk * option float :=
  (c, (λ v, cosine_distance v query_embedding) <$> DocumentChunk_embedding c).

(** [asc("distance")]: PostgreSQL sorts NULL after every value. *)
Definition distance_le (x y : option float) : bool :=
  match x, y with
  | Some a, Some b => float_le a b
  | _, None => true
  | None, Some _ => false
  end.

Definition asc_distance (r1 r2 : DocumentChunk * option float) : Prop :=
  distance_le r1.2 r2.2 = true.

Global Instance asc_distance_dec : RelDecision asc_distance.
Proof. intros r1 r2. unfold asc_distance. apply _. Defined.

(** The bound query vector has the column's type [Vector(1536)]: pgvector
    rejects another dimension when the statement is executed. *)
Definition bind_vector (v : list float) : M Session unit :=
  if decide (length v = VECTOR_DIM) then ret tt
  else raise (StatementError ("expected 1536 dimensions, not " +:+ pretty (length v))).

(** The candidate rows: the query before [order_by] and [limit]. *)
Definition similar_chunks_query (embedding : list float) (document_id : option Z)
    (p : Database) : list (DocumentChunk * option float) :=
  let query := with_distance embedding <$> chunks p in
  if truthy document_id
  then filter (λ r, Some (DocumentChunk_document_id r.1) = document_id) query
  else query.

(** [limit: int = 10] is a keyword argument with a default;
    [document_id: Optional[int] = None] is tested with [if document_id:].

    [ORDER BY distance LIMIT limit] is written as PostgreSQL defines it,
    which is what a sequential scan computes.  When the planner answers the
    query from the HNSW index that [init_db] creates, the rows are a part
    of these: the index is approximate, returns at most [hnsw.ef_search]
    rows, holds no row without embedding, and the filter is applied to
    what it returns.  What is proved of the rows below, that they are
    candidates paired with their distance, in ascending order and at most
    [limit], holds of such a part too; how many rows come back does not. *)
Definition search_similar_chunks (embedding : list float) (limit : kwarg nat)
    (document_id : option Z) : M Session (list (DocumentChunk * option float)) :=
  let limit := kwarg_value 10%nat limit in
  assert_active >>
  bind_vector embedding >>
  gets (λ s,
    take limit (merge_sort asc_distance
      (similar_chunks_query embedding document_id (pending s)))).

(** [DocumentAgent._retrieve_context], the search it runs. *)
Definition retrieve_context_search (query_embedding : list float)
    : M Session (list (DocumentChunk * option float)) :=
  search_similar_chunks query_embedding (Passed 5%nat) None.

End Repository.

(** ** The update route ([document-service/routes/documents.py]) *)

Record UpdateDocumentRequest : Type := mkUpdateDocumentRequest {
  request_filename : option string
}.

Record UpdateDocumentResponse : Type := mkUpdateDocumentResponse {
  message : string;
  response_document_id : Z;
  updated_fields : list (string * string)
}.

Section Routes.
Context `{FL : Float8}.

Definition update_document (document_id : Z) (update_data : UpdateDocumentRequest)
    : M Session UpdateDocumentResponse :=
  let* document := get_document document_id in
  match document with
  | None => raise (HTTPException 404 "Document not found")
  | Some _ =>
      let* updated_fields :=
        match request_filename update_data with
        | Some new_filename =>
            assign document_id (set_filename new_filename) >>
            ret [("filename", new_filename)]
        | None => ret []
        end in
      match updated_fields with
      | _ :: _ =>
          commit >>
          refresh document_id >>
          ret (mkUpdateDocumentResponse "Document updated successfully"
                 document_id updated_fields)
      | [] =>
          ret (mkUpdateDocumentResponse "No fields to update" document_id [])
      end
  end.

End Routes.

(** ** The ingestion pipeline
       ([document-service/services/document_processor.py]) *)

(** What Docling's chunker yields for one chunk. *)
Record DoclingChunk : Type := mkDoclingChunk {
  docling_text : string;
  docling_doc_items : list string;
  docling_headings : list string
}.

(** The dictionaries built by [hybrid_chunk_document]. *)
Record Chunk : Type := mkChunk {
  chunk_text : string;
  chunk_meta : Json
}.

Section Pipeline.
Context `{FL : Float8}.

(** The dictionaries built by [generate_embeddings]. *)
Record EmbeddingData : Type := mkEmbeddingData {
  chunk_id : Z;
  embedding_text : string;
  embedding_metadata : Json;
  embedding_vector : list float;
  embedding_vector_dimension : Z
}.

Record ChunkPreview : Type := mkChunkPreview {
  preview_text : string;
  preview_metadata : Json
}.

Record DocumentProcessingResponse : Type := mkDocumentProcessingResponse {
  response_status : string;
  response_filename : string;
  response_markdown_length : Z;
  response_num_chunks : Z;
  max_tokens_per_chunk : Z;
  response_embedding_model : string;
  response_embedding_dimension : Z;
  chunking_method : string;
  tokenizer : string;
  markdown_preview : string;
  chunks_preview : list ChunkPreview;
  embeddings : list EmbeddingData
}.

(** An entry of [jobs_storage]. *)
Record Job : Type := mkJob {
  job_document_id : Z;
  job_status : string;
  job_filename : string;
  job_created_at : Z;
  job_completed_at : option Z;
  job_error : option string;
  job_result : option DocumentProcessingResponse
}.

Definition set_job_status v (j : Job) : Job :=
  mkJob (job_document_id j) v (job_filename j) (job_created_at j)
    (job_completed_at j) (job_error j) (job_result j).
Definition set_job_completed_at v (j : Job) : Job :=
  mkJob (job_document_id j) (job_status j) (job_filename j) (job_created_at j)
    v (job_error j) (job_result j).
Definition set_job_error v (j : Job) : Job :=
  mkJob (job_document_id j) (job_status j) (job_filename j) (job_created_at j)
    (job_completed_at j) v (job_result j).
Definition set_job_result v (j : Job) : Job :=
  mkJob (job_document_id j) (job_status j) (job_filename j) (job_created_at j)
    (job_completed_at j) (job_error j) v.

(** What a background task works on: its own session, the file system
    (the set of existing paths), the shared job dictionary, the wall
    clock. *)
Record TaskState : Type := mkTaskState {
  db : Session;
  filesystem : gset string;
  jobs : gmap string Job;
  clock : Z
}.

Definition with_db {A} (m : M Session A) : M TaskState A :=
  λ st, match m (db st) with
        | (r, s') => (r, mkTaskState s' (filesystem st) (jobs st) (clock st))
        end.

(** [os.unlink(path)] *)
Definition os_unlink (path : string) : M TaskState unit :=
  λ st, if decide (path ∈ filesystem st)
        then (Ok tt, mkTaskState (db st) (filesystem st ∖ {[path]}) (jobs st) (clock st))
        else (Raise (FileNotFoundError path), st).

(** [jobs_storage[job_id][key] = value] *)
Definition job_setitem (job_id : string) (f : Job → Job) : M TaskState unit :=
  λ st, match jobs st !! job_id with
        | Some j => (Ok tt, mkTaskState (db st) (filesystem st)
                              (<[job_id := f j]> (jobs st)) (clock st))
        | None => (Raise (KeyError job_id), st)
        end.

(** [db.close()]: the connection is released, an open transaction is
    rolled back. *)
Definition close : M Session unit :=
  modify (λ s, mkSession (committed s) (committed s) None (now s)).

(** The dictionary [hybrid_chunk_document] builds for one chunk. *)
Definition chunk_data (chunk : DoclingChunk) : Chunk :=
  mkChunk (docling_text chunk)
    [("doc_items", docling_doc_items chunk); ("headings", docling_headings chunk)].

(** The loop of [generate_embeddings]:
    [for idx, (chunk, embedding_vector) in enumerate(zip(chunks, embedding_vectors))]. *)
Definition embeddings_data_of (chunks : list Chunk)
    (embedding_vectors : list (list float)) : list EmbeddingData :=
  imap (λ idx cv, mkEmbeddingData (Z.of_nat idx) (chunk_text cv.1)
                    (chunk_meta cv.1) cv.2 (Z.of_nat (length cv.2)))
    (zip chunks embedding_vectors).

(** The list comprehension that prepares the batch for the repository. *)
Definition chunks_data_of (embeddings_data : list EmbeddingData) : list ChunkData :=
  (λ data, mkChunkData (chunk_id data) (embedding_text data)
             (Some (embedding_vector data)) (Some (embedding_metadata data)))
  <$> embeddings_data.

(** [s[:n] + "..." if len(s) > n else s] *)
Definition preview (n : nat) (s : string) : string :=
  if decide (Z.of_nat n < len s) then String.substring 0 n s +:+ "..." else s.

Definition EMBEDDING_MODEL : string := "text-embedding-3-small".
Definition EMBEDDING_DIMENSION : Z := 1536.

(** The [DocumentProcessingResponse] a successful task stores in its job. *)
Definition processing_response (filename markdown_content : string)
    (chunks : list Chunk) (chunk_size : Z) (embeddings_data : list EmbeddingData)
    : DocumentProcessingResponse :=
  mkDocumentProcessingResponse "success" filename (len markdown_content)
    (Z.of_nat (length chunks)) chunk_size EMBEDDING_MODEL
    (match embeddings_data with
     | data :: _ => embedding_vector_dimension data
     | [] => EMBEDDING_DIMENSION
     end)
    "HybridChunker" "sentence-transformers/all-MiniLM-L6-v2"
    (preview 500 markdown_content)
    ((λ c, mkChunkPreview (preview 200 (chunk_text c)) (chunk_meta c))
       <$> take 2 chunks)
    embeddings_data.

(** The external collaborators: Docling's converter and chunker, the
    embeddings client. *)
Variable DoclingDocument : Type.
Variable converter_convert : string → result DoclingDocument.
Variable export_to_markdown : DoclingDocument → string.
Variable chunker_chunk : DoclingDocument → Z → result (list DoclingChunk).
Variable embed_documents : list string → result (list (list float)).

Definition convert_document (file_path : string) : M TaskState DoclingDocument :=
  try_except (call (converter_convert file_path))
    (λ e, raise (HTTPException 500 ("Document conversion failed: " +:+ str e))).

Definition hybrid_chunk_document (doc : DoclingDocument) (max_tokens : Z)
    : M TaskState (list Chunk) :=
  try_except
    (let* chunk_iter := call (chunker_chunk doc max_tokens) in
     ret (chunk_data <$> chunk_iter))
    (λ e, raise (HTTPException 500 ("Text chunking failed: " +:+ str e))).

Definition generate_embeddings (chunks : list Chunk) : M TaskState (list EmbeddingData) :=
  try_except
    (let chunk_texts := chunk_text <$> chunks in
     let* embedding_vectors := call (embed_documents chunk_texts) in
     ret (embeddings_data_of chunks embedding_vectors))
    (λ e, raise (HTTPException 500 ("Embedding generation failed: " +:+ str e))).

Definition process_document_task_try (job_id : string) (document_id : Z)
    (tmp_file_path filename : string) (chunk_size : Z) : M TaskState unit :=
  let* doc := convert_document tmp_file_path in
  let markdown_content := export_to_markdown doc in
  let* chunks := hybrid_chunk_document doc chunk_size in
  let* embeddings_data := generate_embeddings chunks in
  with_db (update_document_content document_id markdown_content
             (len markdown_content) (Z.of_nat (length chunks))) >>
  let chunks_data := chunks_data_of embeddings_data in
  with_db (create_chunks_batch document_id chunks_data) >>
  with_db (update_document_status document_id COMPLETED None) >>
  os_unlink tmp_file_path >>
  let result :=
    processing_response filename markdown_content chunks chunk_size embeddings_data in
  job_setitem job_id (set_job_status "completed") >>
  (let* t := gets clock in job_setitem job_id (set_job_completed_at (Some t))) >>
  job_setitem job_id (set_job_result (Some result)).

Definition process_document_task_except (job_id : string) (document_id : Z)
    (tmp_file_path : string) (e : exn) : M TaskState unit :=
  with_db (update_document_status document_id FAILED (Some (str e))) >>
  try_except (os_unlink tmp_file_path) (λ _, ret tt) >>
  job_setitem job_id (set_job_status "failed") >>
  (let* t := gets clock in job_setitem job_id (set_job_completed_at (Some t))) >>
  job_setitem job_id (set_job_error (Some (str e))).

(** The world a task starts in and leaves behind: the database as every
    session sees it, the file system, the job dictionary. *)
Record World : Type := mkWorld {
  database : Database;
  files : gset string;
  jobs_storage : gmap string Job;
  time : Z
}.

Definition process_document_task (job_id : string) (document_id : Z)
    (tmp_file_path filename : string) (chunk_size : Z) (w : World)
    : result unit * World :=
  let st0 := mkTaskState (SessionLocal (database w) (time w)) (files w)
               (jobs_storage w) (time w) in
  match
    try_finally
      (try_except
         (process_document_task_try job_id document_id tmp_file_path filename chunk_size)
         (process_document_task_except job_id document_id tmp_file_path))
      (with_db close) st0
  with
  | (r, st) => (r, mkWorld (committed (db st)) (filesystem st) (jobs st) (clock st))
  end.

End Pipeline.

(** ** A concrete float8 instance for running the code

    Embeddings with integer components.  On unit vectors the cosine
    distance is [1 - a.b], which is what the instance computes; the example
    embeddings below are signed basis vectors of dimension 1536, so the
    distances are exact. *)

Definition dot (a b : list Z) : Z := foldr Z.add 0 (zip_with Z.mul a b).

Definition unit_vectors : Float8 :=
  {| float := Z;
     cosine_distance := λ a b, 1 - dot a b;
     float_le := Z.leb |}.

(** [basis sign i]: the vector with [sign] at position [i], 0 elsewhere. *)
Definition basis (sign : Z) (i : nat) : list Z :=
  replicate i 0 ++ [sign] ++ replicate (VECTOR_DIM - S i) 0.

Definition example_document (i : Z) (name : string) : Document :=
  mkDocument (Some i) name ".pdf" 1000 PROCESSING None None None 0 512
    "text-embedding-3-small" 1536 (Some 0) None None [].

Definition example_chunk (pk doc idx : Z) (t : string) (e : option (list Z))
    : @DocumentChunk unit_vectors :=
  @mkDocumentChunk unit_vectors (Some pk) doc idx t (len t) e [] (Some 0).

(** Two documents and seven chunks; the fourth chunk of document 1 has no
    embedding yet. *)
Definition example_database : @Database unit_vectors :=
  mkDatabase
    (<[1 := example_document 1 "a.pdf"]> (<[2 := example_document 2 "b.pdf"]> ∅))
    [example_chunk 1 1 0 "alpha" (Some (basis 1 0));
     example_chunk 2 1 1 "beta" (Some (basis 1 1));
     example_chunk 3 1 2 "gamma" (Some (basis (-1) 0));
     example_chunk 4 1 3 "delta" None;
     example_chunk 5 2 0 "epsilon" (Some (basis 1 0));
     example_chunk 6 2 1 "zeta" (Some (basis 1 2));
     example_chunk 7 2 2 "eta" (Some (basis (-1) 1))]
    3 8.

(** Collaborators for running the pipeline: a converter and a chunker
    that always succeed, and three embedders. *)
Definition example_convert (path : string) : result string :=
  Ok "# Notes".

Definition example_chunks : list DoclingChunk :=
  [mkDoclingChunk "first part" ["#/texts/0"] ["Notes"];
   mkDoclingChunk "second part" ["#/texts/1"] ["Notes"]].

Definition example_chunker (doc : string) (max_tokens : Z) : result (list DoclingChunk) :=
  Ok example_chunks.

(** One vector of the right dimension per text. *)
Definition embed_unit (texts : list string) : result (list (list Z)) :=
  Ok ((λ _, basis 1 0) <$> texts).

(** The provider fails. *)
Definition embed_rate_limited (texts : list string) : result (list (list Z)) :=
  Raise (ExternalError "rate limit exceeded").

(** The provider answers with vectors of another model's dimension. *)
Definition embed_short (texts : list string) : result (list (list Z)) :=
  Ok ((λ _, [1; 0; 0]) <$> texts).

Definition example_path : string := "/tmp/tmpq3x1.pdf".

(** The world right after an upload of [c.pdf]: the document was created
    by [create_document], its temporary file and its job entry exist. *)
Definition example_world : @World unit_vectors :=
  mkWorld
    (committed (create_document (FL := unit_vectors) "c.pdf" ".pdf" 1000 512 None
                  (SessionLocal example_database 9)).2)
    {[example_path]}
    {["job-1" := @mkJob unit_vectors 3 "processing" "c.pdf" 9 None None None]}
    10.

(** Document 3 as the upload created it, and as a successful run leaves it. *)
Definition example_uploaded : Document :=
  mkDocument (Some 3) "c.pdf" ".pdf" 1000 PROCESSING None None None 0 512
    "text-embedding-3-small" 1536 (Some 9) None None [].

Definition example_completed : Document :=
  mkDocument (Some 3) "c.pdf" ".pdf" 1000 COMPLETED None (Some "# Notes") (Some 7)
    2 512 "text-embedding-3-small" 1536 (Some 9) (Some 10) (Some 10) [].

Definition example_job : @Job unit_vectors :=
  @mkJob unit_vectors 3 "processing" "c.pdf" 9 None None None.

Definition example_task (embed : list string → result (list (list Z)))
    : result unit * @World unit_vectors :=
  process_document_task (FL := unit_vectors) string example_convert (λ doc, doc)
    example_chunker embed "job-1" 3 example_path "c.pdf" 512 example_world.

(** ** The rest of the repository
       ([shared/repository/document_repository.py]) *)

Abbreviation Document_status := status.
Abbreviation Document_created_at := created_at.
Abbreviation DocumentChunk_id := chunk_pk.

(** [DocumentStatus(value)]: the member with that value, [ValueError]
    when there is none. *)
Definition DocumentStatus_of_value (value : string) : option DocumentStatus :=
  if decide (value = "processing") then Some PROCESSING
  else if decide (value = "completed") then Some COMPLETED
  else if decide (value = "failed") then Some FAILED
  else None.

(** Python's truth value of a string: false when empty. *)
Definition truthy_str (s : string) : bool :=
  match s with
  | EmptyString => false
  | String _ _ => true
  end.

(** The truth value of an [Optional[DocumentStatus]]: the enumeration
    mixes in [str], so a member is as true as its value. *)
Definition truthy_status (x : option DocumentStatus) : bool :=
  match x with
  | None => false
  | Some s => truthy_str (status_value s)
  end.

Section RepositoryRest.
Context `{FL : Float8}.

Definition get_document_with_chunks (document_id : Z) : M Session (option Document) :=
  query_document_first document_id.

(** [desc(Document.created_at)]: PostgreSQL sorts NULL first when
    descending. *)
Definition desc_created_at (d1 d2 : Document) : Prop :=
  match Document_created_at d1, Document_created_at d2 with
  | None, _ => True
  | Some _, None => False
  | Some t1, Some t2 => t2 ≤ t1
  end.

Global Instance desc_created_at_dec : RelDecision desc_created_at.
Proof.
  intros d1 d2. unfold desc_created_at.
  destruct (Document_created_at d1), (Document_created_at d2); apply _.
Defined.

(** [db.query(Document)], filtered by [status] when one is given. *)
Definition documents_query (status : option DocumentStatus) (p : Database)
    : list Document :=
  let query := (map_to_list (documents p)).*2 in
  if truthy_status status
  then filter (λ d, Some (Document_status d) = status) query
  else query.

Definition get_all_documents (skip limit : nat) (status : option DocumentStatus)
    : M Session (list Document) :=
  assert_active >>
  gets (λ s,
    take limit (drop skip (merge_sort desc_created_at
      (documents_query status (pending s))))).

Definition get_document_count (status : option DocumentStatus) : M Session Z :=
  assert_active >>
  gets (λ s, Z.of_nat (length (documents_query status (pending s)))).

(** [db.query(DocumentChunk)], filtered by [document_id] when one is
    given; the test is [if document_id:]. *)
Definition chunks_query (document_id : option Z) (p : Database) : list DocumentChunk :=
  if truthy document_id
  then filter (λ c, Some (DocumentChunk_document_id c) = document_id) (chunks p)
  else chunks p.

Definition get_chunk_count (document_id : option Z) : M Session Z :=
  assert_active >>
  gets (λ s, Z.of_nat (length (chunks_query document_id (pending s)))).

(** [db.add(chunk)] followed by the flush of [db.commit()]: the INSERT goes
    out with that flush, and nothing happens between the two here, so it
    is written where the object is added.  A failed flush rolls the
    transaction back and leaves the exception in the session. *)
Definition add_chunk (c : DocumentChunk) : M Session DocumentChunk :=
  assert_active >>
  λ s, match insert_chunk c s with
       | (Ok row, s') => (Ok row, s')
       | (Raise e, s') =>
           (Raise e, mkSession (committed s') (committed s') (Some (str e)) (now s'))
       end.

(** [db.query(DocumentChunk).filter(DocumentChunk.id == chunk_id).first()] *)
Definition query_chunk_first (chunk_id : Z) : M Session (option DocumentChunk) :=
  assert_active >>
  gets (λ s, head (filter (λ c, DocumentChunk_id c = Some chunk_id)
                     (chunks (pending s)))).

(** [db.refresh(chunk)]: fails when the row is gone. *)
Definition refresh_chunk (c : DocumentChunk) : M Session DocumentChunk :=
  match DocumentChunk_id c with
  | Some chunk_id =>
      let* row := query_chunk_first chunk_id in
      match row with
      | Some row => ret row
      | None => raise (ExternalError "Could not refresh instance")
      end
  | None => raise (ExternalError "Could not refresh instance")
  end.

Definition create_chunk (document_id chunk_index : Z) (text : string)
    (embedding : list float) (chunk_metadata : option Json)
    : M Session DocumentChunk :=
  let chunk :=
    mkDocumentChunk None document_id chunk_index text (len text) (Some embedding)
      (default [] chunk_metadata) None in
  let* chunk := add_chunk chunk in
  commit >>
  refresh_chunk chunk.

Definition get_chunk (chunk_id : Z) : M Session (option DocumentChunk) :=
  query_chunk_first chunk_id.

(** [db.delete(chunk)] *)
Definition delete_chunk_row (chunk_id : Z) : M Session unit :=
  modify (λ s, let p := pending s in
    set_pending (mkDatabase (documents p)
       (filter (λ c, DocumentChunk_id c ≠ Some chunk_id) (chunks p))
       (next_document_id p) (next_chunk_id p)) s).

Definition delete_chunk (chunk_id : Z) : M Session bool :=
  let* chunk := get_chunk chunk_id in
  match chunk with
  | Some _ =>
      delete_chunk_row chunk_id >>
      commit >>
      ret true
  | None => ret false
  end.

(** [db.query(DocumentChunk).filter(...).delete()]: one DELETE statement,
    which returns the number of rows it removed. *)
Definition query_delete_chunks (document_id : Z) : M Session Z :=
  assert_active >>
  λ s, let p := pending s in
       (Ok (Z.of_nat (length (filter (λ c, DocumentChunk_document_id c = document_id)
                                (chunks p)))),
        set_pending (mkDatabase (documents p)
           (filter (λ c, DocumentChunk_document_id c ≠ document_id) (chunks p))
           (next_document_id p) (next_chunk_id p)) s).

Definition delete_chunks_by_document (document_id : Z) : M Session Z :=
  let* count := query_delete_chunks document_id in
  commit >>
  ret count.

End RepositoryRest.

(** ** The other document routes ([document-service/routes/documents.py])

    The routes of the source are called [get_document], [list_documents],
    [delete_document] and [get_document_chunks]; the two whose names the
    repository already uses carry the suffix [_endpoint] here.  FastAPI
    validates [skip] and [limit] ([ge], [le]) before a route runs. *)

Record DocumentResponse : Type := mkDocumentResponse {
  document_response_id : Z;
  document_response_filename : string;
  document_response_status : string;
  document_response_file_size : Z;
  document_response_num_chunks : Z;
  document_response_chunk_size : Z;
  document_response_embedding_model : string;
  document_response_created_at : Z;
  document_response_completed_at : option Z;
  document_response_markdown_preview : option string;
  document_response_error_message : option string
}.

Record DocumentListItem : Type := mkDocumentListItem {
  item_id : Z;
  item_filename : string;
  item_status : string;
  item_file_size : Z;
  item_num_chunks : Z;
  item_created_at : Z;
  item_completed_at : option Z
}.

Record DocumentListResponse : Type := mkDocumentListResponse {
  list_total : Z;                         (* field [total] *)
  list_skip : nat;                        (* field [skip] *)
  list_limit : nat;                       (* field [limit] *)
  list_items : list DocumentListItem      (* field [documents] *)
}.

Record DocumentChunkResponse : Type := mkDocumentChunkResponse {
  chunk_response_id : Z;
  chunk_response_chunk_index : Z;
  chunk_response_text : string;
  chunk_response_text_length : Z;
  chunk_response_metadata : Json;
  chunk_response_created_at : Z
}.

Record ChunksListResponse : Type := mkChunksListResponse {
  chunks_response_document_id : Z;
  chunks_response_total_chunks : Z;
  chunks_response_skip : nat;
  chunks_response_limit : nat;
  chunks_response_chunks : list DocumentChunkResponse
}.

Record DeleteResponse : Type := mkDeleteResponse {
  delete_message : string;
  delete_document_id : Z
}.

(** A value the response needs ([document.id] for an [int] field,
    [created_at.isoformat()]): [None] makes the construction of the
    response raise. *)
Definition not_none {S A} (what : string) (x : option A) : M S A :=
  match x with
  | Some a => ret a
  | None => raise (ExternalError what)
  end.

(** [[f(x) for x in xs]] where [f] may raise. *)
Fixpoint for_each {S A B} (f : A → M S B) (xs : list A) : M S (list B) :=
  match xs with
  | [] => ret []
  | x :: xs' =>
      let* y := f x in
      let* ys := for_each f xs' in
      ret (y :: ys)
  end.

Section DocumentRoutes.
Context `{FL : Float8}.

Definition get_document_endpoint (document_id : Z) : M Session DocumentResponse :=
  let* document := get_document document_id in
  match document with
  | None => raise (HTTPException 404 "Document not found")
  | Some document =>
      let* document_pk := not_none "id: none is not an allowed value" (id document) in
      let* created := not_none "'NoneType' object has no attribute 'isoformat'"
                        (created_at document) in
      ret (mkDocumentResponse document_pk (filename document)
             (status_value (status document)) (file_size document)
             (num_chunks document) (chunk_size document) (embedding_model document)
             created (completed_at document)
             (preview 500 <$> markdown_content document) (error_message document))
  end.

Definition document_list_item (doc : Document) : M Session DocumentListItem :=
  let* document_pk := not_none "id: none is not an allowed value" (id doc) in
  let* created := not_none "'NoneType' object has no attribute 'isoformat'"
                    (created_at doc) in
  ret (mkDocumentListItem document_pk (filename doc) (status_value (status doc))
         (file_size doc) (num_chunks doc) created (completed_at doc)).

Definition list_documents (skip limit : nat) (status : option string)
    : M Session DocumentListResponse :=
  let* status_filter :=
    match status with
    | Some value =>
        if truthy_str value then
          match DocumentStatus_of_value value with
          | Some member => ret (Some member)
          | None =>
              raise (HTTPException 400
                       "Invalid status. Must be one of: processing, completed, failed")
          end
        else ret None
    | None => ret None
    end in
  let* documents := get_all_documents skip limit status_filter in
  let* total_count := get_document_count status_filter in
  let* items := for_each document_list_item documents in
  ret (mkDocumentListResponse total_count skip limit items).

Definition delete_document_endpoint (document_id : Z) : M Session DeleteResponse :=
  let* found := get_document document_id in
  match found with
  | None => raise (HTTPException 404 "Document not found")
  | Some _ =>
      let* deleted := delete_document document_id in
      if deleted : bool
      then ret (mkDeleteResponse "Document deleted successfully" document_id)
      else raise (HTTPException 500 "Failed to delete document")
  end.

Definition document_chunk_response (chunk : DocumentChunk)
    : M Session DocumentChunkResponse :=
  let* chunk_pk := not_none "id: none is not an allowed value" (DocumentChunk_id chunk) in
  let* created := not_none "'NoneType' object has no attribute 'isoformat'"
                    (chunk_created_at chunk) in
  ret (mkDocumentChunkResponse chunk_pk (chunk_index chunk) (preview 200 (text chunk))
         (text_length chunk) (chunk_metadata chunk) created).

Definition get_document_chunks (document_id : Z) (skip limit : nat)
    : M Session ChunksListResponse :=
  let* document := get_document document_id in
  match document with
  | None => raise (HTTPException 404 "Document not found")
  | Some _ =>
      let* chunks := get_chunks_by_document document_id skip limit in
      let* total_count := get_chunk_count (Some document_id) in
      let* page := for_each document_chunk_response chunks in
      ret (mkChunksListResponse document_id total_count skip limit page)
  end.

End DocumentRoutes.

(** ** The upload route ([document-service/routes/upload.py]) *)

Definition ALLOWED_EXTENSIONS : list string := [".pdf"; ".docx"].

(** The uploaded file: its name and [len(content)]. *)
Record UploadFile : Type := mkUploadFile {
  upload_filename : string;
  upload_size : Z
}.

(** The body of the JSON response. *)
Record UploadResponse : Type := mkUploadResponse {
  upload_job_id : string;
  upload_document_id : Z;
  upload_status : string;
  upload_message : string;
  check_status_url : string;
  document_url : string
}.

(** The call [background_tasks.add_task(process_document_task, ...)]
    registers. *)
Record BackgroundTask : Type := mkBackgroundTask {
  task_job_id : string;
  task_document_id : Z;
  task_tmp_file_path : string;
  task_filename : string;
  task_chunk_size : Z
}.

Section Upload.
Context `{FL : Float8}.

(** What the route takes from its environment:
    [Path(filename).suffix.lower()], [os.getenv("OPENAI_API_KEY")], the name
    [tempfile.NamedTemporaryFile(delete=False, suffix=...)] picks, and
    [str(uuid.uuid4())]. *)
Variable suffix_lower : string → string.
Variable OPENAI_API_KEY : option string.
Variable temporary_name : string → string.
Variable uuid4 : string.

(** Writing the upload into the new temporary file. *)
Definition write_file (path : string) : M TaskState unit :=
  modify (λ st, mkTaskState (db st) ({[path]} ∪ filesystem st) (jobs st) (clock st)).

(** [jobs_storage[job_id] = {...}] *)
Definition jobs_new (job_id : string) (j : Job) : M TaskState unit :=
  modify (λ st, mkTaskState (db st) (filesystem st) (<[job_id := j]> (jobs st)) (clock st)).

Definition upload_document_try (file : UploadFile) (chunk_size : Z)
    (file_extension : string) : M TaskState (UploadResponse * BackgroundTask) :=
  let tmp_file_path := temporary_name file_extension in
  write_file tmp_file_path >>
  let* created := with_db (create_document (upload_filename file) file_extension
                             (upload_size file) chunk_size None) in
  let document_id := created.1 in
  let job_id := uuid4 in
  (let* t := gets clock in
   jobs_new job_id (mkJob document_id "processing" (upload_filename file) t
                      None None None)) >>
  ret (mkUploadResponse job_id document_id "processing"
         "Document processing started in background"
         ("/jobs/" +:+ job_id) ("/documents/" +:+ pretty document_id),
       mkBackgroundTask job_id document_id tmp_file_path (upload_filename file)
         chunk_size).

(** [except HTTPException: raise] and [except Exception as e:], which
    removes the temporary file. *)
Definition upload_document_except (file_extension : string) (e : exn)
    : M TaskState (UploadResponse * BackgroundTask) :=
  match e with
  | HTTPException _ _ => raise e
  | _ =>
      try_except (os_unlink (temporary_name file_extension)) (λ _, ret tt) >>
      raise (HTTPException 500 ("Processing failed: " +:+ str e))
  end.

(** The detail of the first error joins a set, whose order Python does not
    fix; one order is written here. *)
Definition upload_document (file : UploadFile) (chunk_size : Z) (w : World)
    : result (UploadResponse * BackgroundTask) * World :=
  let file_extension := suffix_lower (upload_filename file) in
  if decide (file_extension ∈ ALLOWED_EXTENSIONS) then
    if truthy_str (default EmptyString OPENAI_API_KEY) then
      let st0 := mkTaskState (SessionLocal (database w) (time w)) (files w)
                   (jobs_storage w) (time w) in
      match
        try_finally
          (try_except (upload_document_try file chunk_size file_extension)
             (upload_document_except file_extension))
          (with_db close) st0
      with
      | (r, st) => (r, mkWorld (committed (db st)) (filesystem st) (jobs st) (clock st))
      end
    else
      (Raise (HTTPException 500
                "OpenAI API key not configured. Please set OPENAI_API_KEY in .env file"),
       w)
  else
    (Raise (HTTPException 400
              "Unsupported file format. Allowed formats: .pdf, .docx"), w).

End Upload.

(** ** The retrieval step of the chat agent
       ([chat-service/agents/document_agent.py]) *)

Section DocumentAgent.
Context `{FL : Float8}.

(** An entry of [state["context"]]. *)
Record ContextItem : Type := mkContextItem {
  context_text : string;
  context_document_id : Z;
  context_chunk_index : Z;
  context_similarity : float;
  context_metadata : Json
}.

Inductive BaseMessage : Type :=
| HumanMessage (content : string)
| AIMessage (content : string).

(** [AgentState] of [agents/schema.py]. *)
Record AgentState : Type := mkAgentState {
  state_messages : list BaseMessage;
  state_query : string;
  state_context : list ContextItem;
  state_analysis : string;
  state_final_response : string;
  state_next_action : string
}.

Definition set_state_context v (state : AgentState) : AgentState :=
  mkAgentState (state_messages state) (state_query state) v (state_analysis state)
    (state_final_response state) (state_next_action state).
Definition set_state_next_action v (state : AgentState) : AgentState :=
  mkAgentState (state_messages state) (state_query state) (state_context state)
    (state_analysis state) (state_final_response state) v.

(** The embeddings client, and [1 - x] on floats. *)
Variable embed_query : string → result (list float).
Variable one_minus : float → float.

(** The dictionary built for one row; [float(distance)] raises
    [TypeError] for the distance [None] of a chunk without embedding. *)
Definition context_item (row : DocumentChunk * option float) : M Session ContextItem :=
  match row.2 with
  | Some distance =>
      ret (mkContextItem (text row.1) (DocumentChunk_document_id row.1)
             (DocumentChunk_chunk_index row.1) (one_minus distance)
             (chunk_metadata row.1))
  | None =>
      raise (ExternalError
               "float() argument must be a string or a real number, not 'NoneType'")
  end.

(** The [try] block of [_retrieve_context], in the session it opens. *)
Definition retrieve_context_try (state : AgentState) : M Session AgentState :=
  let* query_embedding := call (embed_query (state_query state)) in
  let* results := retrieve_context_search query_embedding in
  let* context := for_each context_item results in
  close >>
  ret (set_state_next_action "analyze" (set_state_context context state)).

Definition _retrieve_context (state : AgentState) : M Session AgentState :=
  try_except (retrieve_context_try state)
    (λ _, ret (set_state_next_action "respond" (set_state_context [] state))).

(** [END] of LangGraph. *)
Definition END : string := "__end__".

Definition _route_next (state : AgentState) : string :=
  let next_action := state_next_action state in
  if decide (next_action = "analyze") then "analyze"
  else if decide (next_action = "respond") then "respond"
  else END.

End DocumentAgent.

(** ** Definitions used to state the properties *)

Section StatementDefinitions.
Context `{FL : Float8}.

(** The attribute assignments of [update_document_status]. *)
Definition status_assignments (st : DocumentStatus) (msg : option string)
    (t : Z) (d : Document) : Document :=
  let d := set_error_message msg (set_status st d) in
  if decide (st = COMPLETED) then set_completed_at (Some t) d else d.

Definition put_document (i : Z) (d : Document) (p : Database) : Database :=
  mkDatabase (<[i := d]> (documents p)) (chunks p) (next_document_id p)
    (next_chunk_id p).

(** The attribute assignments of [update_document_content]. *)
Definition content_assignments (content : string) (length_ n : Z)
    (d : Document) : Document :=
  set_num_chunks n (set_markdown_length (Some length_)
    (set_markdown_content (Some content) d)).

(** The rows a run of INSERTs stores, the sequence starting at [pk]. *)
Fixpoint saved_rows (pk clock : Z) (cs : list DocumentChunk) : list DocumentChunk :=
  match cs with
  | [] => []
  | c :: cs' => stored_row pk clock c :: saved_rows (pk + 1) clock cs'
  end.

Definition add_chunks (rows : list DocumentChunk) (p : Database) : Database :=
  mkDatabase (documents p) (chunks p ++ rows) (next_document_id p)
    (next_chunk_id p + Z.of_nat (length rows)).

(** The chunks of one document, as stored. *)
Definition chunks_of (document_id : Z) (p : Database) : list DocumentChunk :=
  filter (λ c, DocumentChunk_document_id c = document_id) (chunks p).

(** A stored row carries what the batch item said. *)
Definition persists (document_id : Z) (data : ChunkData) (row : DocumentChunk) : Prop :=
  is_Some (chunk_pk row)
  ∧ DocumentChunk_document_id row = document_id
  ∧ chunk_index row = data_chunk_index data
  ∧ text row = data_text data
  ∧ text_length row = len (data_text data)
  ∧ embedding row = data_embedding data
  ∧ chunk_metadata row = default [] (data_chunk_metadata data).


(** Two documents that agree on every column but [status],
    [error_message], [completed_at] and [updated_at]. *)
Definition same_but_status_columns (d d' : Document) : Prop :=
  id d' = id d
  ∧ filename d' = filename d
  ∧ file_extension d' = file_extension d
  ∧ file_size d' = file_size d
  ∧ markdown_content d' = markdown_content d
  ∧ markdown_length d' = markdown_length d
  ∧ num_chunks d' = num_chunks d
  ∧ chunk_size d' = chunk_size d
  ∧ embedding_model d' = embedding_model d
  ∧ embedding_dimension d' = embedding_dimension d
  ∧ created_at d' = created_at d
  ∧ doc_metadata d' = doc_metadata d.

(** The status update as the specification words it: the error message
    is stored only when the new status is FAILED. *)
Definition stores_message_only_when_failed (p : Database) (t i : Z)
    (st : DocumentStatus) (msg : option string) : Prop :=
  ∀ d, documents p !! i = Some d →
    ∃ d' s, update_document_status i st msg (SessionLocal p t) = (Ok (Some d'), s)
      ∧ status d' = st
      ∧ completed_at d' = (if decide (st = COMPLETED) then Some t else completed_at d)
      ∧ error_message d' = (if decide (st = FAILED) then msg else None).

(** The search as the specification words it: a call that leaves the
    result count out returns at most 5 results. *)
Definition omitted_limit_is_5 (p : Database) (t : Z) (query : list float) : Prop :=
  ∀ results s,
    search_similar_chunks query Omitted None (SessionLocal p t) = (Ok results, s) →
    (length results ≤ 5)%nat.


(** What the failure handler writes into a job entry. *)
Definition failed_job (msg : string) (clk : Z) (j : Job) : Job :=
  set_job_error (Some msg) (set_job_completed_at (Some clk) (set_job_status "failed" j)).

(** What the task writes into a job entry on success. *)
Definition completed_job (result : DocumentProcessingResponse) (clk : Z) (j : Job) : Job :=
  set_job_result (Some result) (set_job_completed_at (Some clk) (set_job_status "completed" j)).

(** The exception [generate_embeddings] raises for a failure [e] of the
    embeddings client. *)
Definition embedding_failure (e : exn) : exn :=
  HTTPException 500 ("Embedding generation failed: " +:+ str e).

(** The batch the task hands to the repository for the chunker's output
    and the embedder's vectors. *)
Definition task_batch (chunk_iter : list DoclingChunk) (vectors : list (list float))
    : list ChunkData :=
  chunks_data_of (embeddings_data_of (chunk_data <$> chunk_iter) vectors).

(** The database after the three writes of the persistence step, for a
    document that was [d] before: the content update, ... *)
Definition content_written (t i : Z) (markdown : string) (n : Z) (d : Document) : Document :=
  onupdate t d (content_assignments markdown (len markdown) n d).

Definition after_content (t i : Z) (markdown : string) (n : Z) (d : Document)
    (p : Database) : Database :=
  put_document i (content_written t i markdown n d) p.

(** ... the batch insert, ... *)
Definition batch_rows (t i : Z) (batch : list ChunkData) (p : Database)
    : list DocumentChunk :=
  saved_rows (next_chunk_id p) t (new_chunk i <$> batch).

Definition after_batch (t i : Z) (markdown : string) (n : Z) (d : Document)
    (batch : list ChunkData) (p : Database) : Database :=
  add_chunks (batch_rows t i batch (after_content t i markdown n d p))
    (after_content t i markdown n d p).

(** ... and the status update to COMPLETED. *)
Definition completed (t i : Z) (markdown : string) (n : Z) (d : Document) : Document :=
  onupdate t (content_written t i markdown n d)
    (status_assignments COMPLETED None t (content_written t i markdown n d)).

Definition after_completed (t i : Z) (markdown : string) (n : Z) (d : Document)
    (batch : list ChunkData) (p : Database) : Database :=
  put_document i (completed t i markdown n d) (after_batch t i markdown n d batch p).

(** Strictly increasing [chunk_index]. *)
Definition index_lt (c1 c2 : DocumentChunk) : Prop :=
  DocumentChunk_chunk_index c1 < DocumentChunk_chunk_index c2.

End StatementDefinitions.

(** ** Definitions used to state the further properties *)

Section FurtherStatementDefinitions.
Context `{FL : Float8}.


(** The documents a listing ranges over: all of them, or those with the
    given status. *)
Definition documents_with (status : option DocumentStatus) (p : Database)
    : list Document :=
  match status with
  | None => (map_to_list (documents p)).*2
  | Some st => filter (λ d, Document_status d = st) (map_to_list (documents p)).*2
  end.

(** The constraints of the schema, as far as the two tables go: a document
    row carries its key as [id] and a creation time, and its key came from
    the sequence; a chunk row has a primary key from the sequence, a
    creation time, and a [document_id] that refers to a stored document;
    no two chunk rows share a primary key. *)
Definition document_row_ok (p : Database) (i : Z) (d : Document) : Prop :=
  id d = Some i ∧ is_Some (created_at d) ∧ i < next_document_id p.

Definition chunk_row_ok (p : Database) (c : DocumentChunk) : Prop :=
  (∃ pk, DocumentChunk_id c = Some pk ∧ pk < next_chunk_id p)
  ∧ is_Some (documents p !! DocumentChunk_document_id c)
  ∧ is_Some (chunk_created_at c).

Definition integrity (p : Database) : Prop :=
  (∀ i d, documents p !! i = Some d → document_row_ok p i d)
  ∧ Forall (chunk_row_ok p) (chunks p)
  ∧ NoDup (DocumentChunk_id <$> chunks p).

(** What a run for document [i] may change in the database: the row of
    document [i], and chunks of document [i] appended to the table. *)
Definition touches_only (i : Z) (p p' : Database) : Prop :=
  (∀ j, j ≠ i → documents p' !! j = documents p !! j)
  ∧ ∃ rows, chunks p' = (chunks p ++ rows)%list
            ∧ Forall (λ c, DocumentChunk_document_id c = i) rows.

(** A session between two repository calls: nothing is pending. *)
Definition settled (s : Session) : Prop := pending s = committed s.

(** What one step of a run for document [i] does to a settled session. *)
Definition session_step (i : Z) (s s' : Session) : Prop :=
  settled s →
  settled s'
  ∧ now s' = now s
  ∧ touches_only i (committed s) (committed s')
  ∧ (integrity (committed s) → integrity (committed s')).

(** ... and to the state of the task, for the job [job_id] and the file
    [path]: no other job entry changes and none appears or disappears, no
    file appears, and no file but [path] disappears. *)
Definition task_step (job_id : string) (i : Z) (path : string)
    (st st' : TaskState) : Prop :=
  session_step i (db st) (db st')
  ∧ (∀ k, k ≠ job_id → jobs st' !! k = jobs st !! k)
  ∧ (is_Some (jobs st' !! job_id) ↔ is_Some (jobs st !! job_id))
  ∧ filesystem st' ⊆ filesystem st
  ∧ filesystem st ∖ {[path]} ⊆ filesystem st'
  ∧ clock st' = clock st.

(** Every run of [m] takes a state to one related to it by [R]. *)
Definition follows {S A} (R : relation S) (m : M S A) : Prop :=
  ∀ s, R s (m s).2.

(** The values a new document row takes from the caller fit their
    columns: [String(255)], [String(10)] and [Integer]. *)
Definition fits_columns (filename file_extension : string)
    (file_size chunk_size : Z) : Prop :=
  (String.length filename ≤ 255)%nat
  ∧ (String.length file_extension ≤ 10)%nat
  ∧ fits_Integer file_size
  ∧ fits_Integer chunk_size.

(** The row [create_document] inserts. *)
Definition new_document_row (i t : Z) (filename file_extension : string)
    (file_size chunk_size : Z) (doc_metadata : option Json) : Document :=
  mkDocument (Some i) filename file_extension file_size PROCESSING None None None
    0 chunk_size "text-embedding-3-small" 1536 (Some t) None None
    (default [] doc_metadata).

Definition add_document_row (d : Document) (p : Database) : Database :=
  mkDatabase (<[next_document_id p := d]> (documents p)) (chunks p)
    (next_document_id p + 1) (next_chunk_id p).

(** The calls of [DocumentRepository] that write. *)
Inductive Write : Type :=
| CreateDocument (filename file_extension : string) (file_size chunk_size : Z)
    (doc_metadata : option Json)
| UpdateDocumentStatus (document_id : Z) (status : DocumentStatus)
    (error_message : option string)
| UpdateDocumentContent (document_id : Z) (markdown_content : string)
    (markdown_length num_chunks : Z)
| DeleteDocument (document_id : Z)
| CreateChunk (document_id chunk_index : Z) (text : string)
    (embedding : list float) (chunk_metadata : option Json)
| CreateChunksBatch (document_id : Z) (chunks_data : list ChunkData)
| DeleteChunk (chunk_id : Z)
| DeleteChunksByDocument (document_id : Z).

Definition run_write (call : Write) : M Session unit :=
  match call with
  | CreateDocument filename file_extension file_size chunk_size doc_metadata =>
      create_document filename file_extension file_size chunk_size doc_metadata >> ret tt
  | UpdateDocumentStatus document_id status error_message =>
      update_document_status document_id status error_message >> ret tt
  | UpdateDocumentContent document_id markdown_content markdown_length num_chunks =>
      update_document_content document_id markdown_content markdown_length num_chunks
      >> ret tt
  | DeleteDocument document_id => delete_document document_id >> ret tt
  | CreateChunk document_id chunk_index text embedding chunk_metadata =>
      create_chunk document_id chunk_index text embedding chunk_metadata >> ret tt
  | CreateChunksBatch document_id chunks_data =>
      create_chunks_batch document_id chunks_data >> ret tt
  | DeleteChunk chunk_id => delete_chunk chunk_id >> ret tt
  | DeleteChunksByDocument document_id => delete_chunks_by_document document_id >> ret tt
  end.

(** A request: one call in a session of its own ([get_db]), at the time
    [t]; what it leaves committed. *)
Definition after_write (p : Database) (request : Write * Z) : Database :=
  committed (run_write request.1 (SessionLocal p request.2)).2.

(** A document as an item of a listing, and a chunk as an item of the
    chunk listing. *)
Definition listed (d : Document) (item : DocumentListItem) : Prop :=
  id d = Some (item_id item)
  ∧ item_filename item = filename d
  ∧ item_status item = status_value (status d)
  ∧ item_file_size item = file_size d
  ∧ item_num_chunks item = num_chunks d
  ∧ created_at d = Some (item_created_at item)
  ∧ item_completed_at item = completed_at d.

Definition chunk_listed (c : DocumentChunk) (r : DocumentChunkResponse) : Prop :=
  DocumentChunk_id c = Some (chunk_response_id r)
  ∧ chunk_response_chunk_index r = chunk_index c
  ∧ chunk_response_text r = preview 200 (text c)
  ∧ chunk_response_text_length r = text_length c
  ∧ chunk_response_metadata r = chunk_metadata c
  ∧ chunk_created_at c = Some (chunk_response_created_at r).

(** The chunks a search may return, as the specification has them: all
    chunks, or the chunks of the document when one is given. *)
Definition eligible (scope : option Z) (p : Database) : list DocumentChunk :=
  match scope with
  | Some d => filter (λ c, DocumentChunk_document_id c = d) (chunks p)
  | None => chunks p
  end.

(** Every row pairs a chunk with the cosine distance between its embedding
    and the query (no distance for a chunk without embedding). *)
Definition paired_with_cosine_distance (query : list float)
    (results : list (DocumentChunk * option float)) : Prop :=
  Forall (λ r, r.2 = (λ v, cosine_distance v query) <$> DocumentChunk_embedding r.1)
    results.

(** Rows in non-decreasing distance, closest first; a row without
    distance comes after the rows that have one. *)
Definition non_decreasing_distance
    (results : list (DocumentChunk * option float)) : Prop :=
  ∀ (i j : nat) r1 r2,
    (i < j)%nat → results !! i = Some r1 → results !! j = Some r2 →
    match r1.2, r2.2 with
    | Some a, Some b => float_le a b = true
    | None, Some _ => False
    | _, None => True
    end.

(** The search as the claim on its ordering words it: the call returns
    (chunk, distance) rows in non-decreasing cosine distance, at most [k]
    of them and at most as many as there are eligible chunks. *)
Definition ordered_and_bounded (p : Database) (t : Z) (query : list float)
    (k : nat) (scope : option Z) : Prop :=
  ∃ results s,
    search_similar_chunks query (Passed k) scope (SessionLocal p t) = (Ok results, s)
    ∧ paired_with_cosine_distance query results
    ∧ non_decreasing_distance results
    ∧ (length results ≤ k)%nat
    ∧ (length results ≤ length (eligible scope p))%nat.

(** A row of the search as an entry of the agent's context. *)
Definition retrieved (one_minus : float → float)
    (row : DocumentChunk * option float) (item : ContextItem) : Prop :=
  context_text item = text row.1
  ∧ context_document_id item = DocumentChunk_document_id row.1
  ∧ context_chunk_index item = DocumentChunk_chunk_index row.1
  ∧ context_metadata item = chunk_metadata row.1
  ∧ ∃ distance, row.2 = Some distance ∧ context_similarity item = one_minus distance.

End FurtherStatementDefinitions.

(** ** Further examples *)

(** A store in which every chunk has an embedding. *)
Definition example_embedded : @Database unit_vectors :=
  mkDatabase (documents example_database)
    [example_chunk 1 1 0 "alpha" (Some (basis 1 0));
     example_chunk 2 1 1 "beta" (Some (basis 1 1));
     example_chunk 3 2 0 "gamma" (Some (basis (-1) 0))]
    3 4.

(** The state [chat] starts the graph with. *)
Definition example_state : @AgentState unit_vectors :=
  mkAgentState [HumanMessage "what is alpha?"] "what is alpha?" [] EmptyString
    EmptyString "retrieve".

(** The world before the upload of [c.pdf], and the environment of the
    route. *)
Definition example_before_upload : @World unit_vectors :=
  mkWorld example_database ∅ ∅ 9.

Definition example_upload : UploadFile := mkUploadFile "c.pdf" 1000.

Definition example_suffix (filename : string) : string := ".pdf".

Definition example_temporary_name (suffix : string) : string :=
  "/tmp/tmpq3x1" +:+ suffix.

(** A converter that cannot read the file. *)
Definition example_convert_fails (path : string) : result string :=
  Raise (ExternalError "not a PDF file").


Definition embed_query_rate_limited (query : string) : result (list Z) :=
  Raise (ExternalError "rate limit exceeded").

(** * Properties *)

(** ** The session: what a commit writes *)

Section SessionFacts.
Context `{FL : Float8}.

Lemma onupdate_same (t : Z) (d : Document) : onupdate t d d = d.
Proof. unfold onupdate. by rewrite decide_True. Qed.

Lemma flush_unchanged (m : gmap Z Document) (t : Z) :
  map_imap (flush_document m t) m = m.
Proof.
  apply map_eq. intros i. rewrite map_lookup_imap.
  destruct (m !! i) as [d|] eqn:E; simpl; [|done].
  unfold flush_document. by rewrite E, onupdate_same.
Qed.

Lemma flush_alter (m : gmap Z Document) (t i : Z) (f : Document → Document)
    (d : Document) :
  m !! i = Some d →
  map_imap (flush_document m t) (alter f i m) = <[i := onupdate t d (f d)]> m.
Proof.
  intros Hd. apply map_eq. intros j. rewrite map_lookup_imap.
  destruct (decide (i = j)) as [->|Hne].
  - rewrite lookup_alter_eq, lookup_insert_eq, Hd. simpl.
    unfold flush_document. by rewrite Hd.
  - rewrite lookup_alter_ne, lookup_insert_ne by done.
    destruct (m !! j) as [dj|] eqn:E; simpl; [|done].
    unfold flush_document. by rewrite E, onupdate_same.
Qed.

Lemma flush_delete (m : gmap Z Document) (t i : Z) :
  map_imap (flush_document m t) (delete i m) = delete i m.
Proof.
  apply map_eq. intros j. rewrite map_lookup_imap.
  destruct (decide (i = j)) as [->|Hne].
  - by rewrite lookup_delete_eq.
  - rewrite lookup_delete_ne by done.
    destruct (m !! j) as [dj|] eqn:E; simpl; [|done].
    unfold flush_document. by rewrite E, onupdate_same.
Qed.

Lemma Database_eta (p : Database) :
  mkDatabase (documents p) (chunks p) (next_document_id p) (next_chunk_id p) = p.
Proof. by destruct p. Qed.

(** A commit with nothing pending leaves a fresh session as it is. *)
Lemma commit_clean (p : Database) (t : Z) :
  commit (SessionLocal p t) = (Ok tt, SessionLocal p t).
Proof.
  unfold commit, bind, assert_active, modify, SessionLocal, flush. simpl.
  by rewrite flush_unchanged, Database_eta.
Qed.

Lemma get_document_run (p : Database) (t i : Z) :
  get_document i (SessionLocal p t) = (Ok (documents p !! i), SessionLocal p t).
Proof. reflexivity. Qed.

Lemma update_document_status_run (p : Database) (t i : Z)
    (st : DocumentStatus) (msg : option string) :
  update_document_status i st msg (SessionLocal p t) =
  match documents p !! i with
  | Some d =>
      let d' := onupdate t d (status_assignments st msg t d) in
      (Ok (Some d'), SessionLocal (put_document i d' p) t)
  | None => (Ok None, SessionLocal p t)
  end.
Proof.
  unfold update_document_status, bind. rewrite get_document_run.
  destruct (documents p !! i) as [d|] eqn:Hd; [|done].
  unfold assign, modify, set_pending, SessionLocal. simpl.
  assert (Hflush : ∀ f re,
    flush (mkSession p (mkDatabase (alter f i (documents p)) (chunks p)
             (next_document_id p) (next_chunk_id p)) re t)
    = put_document i (onupdate t d (f d)) p).
  { intros f re. unfold flush. simpl. by rewrite (flush_alter _ _ _ _ d Hd). }
  unfold status_assignments.
  destruct (decide (st = COMPLETED)) as [->|Hst]; simpl;
    unfold gets, assign, modify, set_pending; simpl;
    rewrite !alter_alter_eq, Hflush; unfold refresh, query_document_first,
      bind, assert_active, gets, SessionLocal, put_document; simpl;
    by rewrite lookup_insert_eq.
Qed.

Lemma status_assignments_stored (t : Z) (d : Document) (st : DocumentStatus)
    (msg : option string) :
  status (onupdate t d (status_assignments st msg t d)) = st
  ∧ error_message (onupdate t d (status_assignments st msg t d)) = msg.
Proof.
  unfold onupdate, status_assignments.
  destruct (decide (st = COMPLETED)); case_decide; done.
Qed.

Lemma update_document_content_run (p : Database) (t i : Z)
    (content : string) (length_ n : Z) :
  update_document_content i content length_ n (SessionLocal p t) =
  match documents p !! i with
  | Some d =>
      let d' := onupdate t d (content_assignments content length_ n d) in
      (Ok (Some d'), SessionLocal (put_document i d' p) t)
  | None => (Ok None, SessionLocal p t)
  end.
Proof.
  unfold update_document_content, bind. rewrite get_document_run.
  destruct (documents p !! i) as [d|] eqn:Hd; [|done].
  unfold assign, modify, set_pending, SessionLocal. simpl.
  unfold flush. simpl. rewrite !alter_alter_eq, (flush_alter _ _ _ _ d Hd).
  unfold refresh, query_document_first, bind, assert_active, gets. simpl.
  by rewrite lookup_insert_eq.
Qed.

Lemma delete_document_run (p : Database) (t i : Z) :
  delete_document i (SessionLocal p t) =
  match documents p !! i with
  | Some _ =>
      (Ok true,
       SessionLocal (mkDatabase (delete i (documents p))
                       (filter (λ c, DocumentChunk_document_id c ≠ i) (chunks p))
                       (next_document_id p) (next_chunk_id p)) t)
  | None => (Ok false, SessionLocal p t)
  end.
Proof.
  unfold delete_document, bind. rewrite get_document_run.
  destruct (documents p !! i) as [d|] eqn:Hd; [|done].
  unfold delete_document_row, modify, set_pending, SessionLocal. simpl.
  unfold flush. simpl. by rewrite flush_delete.
Qed.

Lemma get_chunks_by_document_run (p : Database) (t i : Z) (skip limit : nat) :
  get_chunks_by_document i skip limit (SessionLocal p t) =
  (Ok (take limit (drop skip (merge_sort asc_chunk_index (chunks_of i p)))),
   SessionLocal p t).
Proof. reflexivity. Qed.

(** *** Bulk insertion *)

Lemma check_chunk_documents (p p' : Database) (c : DocumentChunk) :
  documents p' = documents p → check_chunk p' c = check_chunk p c.
Proof. intros E. unfold check_chunk. by rewrite E. Qed.

Lemma length_saved_rows (pk t : Z) (cs : list DocumentChunk) :
  length (saved_rows pk t cs) = length cs.
Proof. revert pk. induction cs as [|c cs IH]; intros pk; simpl; [done|]. by rewrite IH. Qed.

Lemma insert_chunks_ok (cs : list DocumentChunk) :
  ∀ s, Forall (λ c, check_chunk (pending s) c = None) cs →
    insert_chunks cs s =
    (Ok (saved_rows (next_chunk_id (pending s)) (now s) cs),
     set_pending
       (add_chunks (saved_rows (next_chunk_id (pending s)) (now s) cs) (pending s)) s).
Proof.
  induction cs as [|c cs IH]; intros s Hall.
  - simpl. unfold ret, set_pending, add_chunks. simpl.
    rewrite app_nil_r, Z.add_0_r, Database_eta. by destruct s.
  - apply Forall_cons_1 in Hall as [Hc Hcs].
    simpl. unfold bind at 1. unfold insert_chunk. rewrite Hc.
    unfold bind at 1. rewrite IH.
    + unfold ret, set_pending, add_chunks. simpl. rewrite length_saved_rows.
      do 3 f_equal; [by rewrite <- app_assoc | lia].
    + eapply Forall_impl; [exact Hcs|]. intros c' Hc'. simpl in *.
      rewrite <- Hc'. by apply check_chunk_documents.
Qed.

Lemma insert_chunks_fail (cs : list DocumentChunk) :
  ∀ s, Exists (λ c, check_chunk (pending s) c ≠ None) cs →
    ∃ e s', insert_chunks cs s = (Raise e, s')
      ∧ committed s' = committed s ∧ now s' = now s
      ∧ Exists (λ c, check_chunk (pending s) c = Some e) cs.
Proof.
  induction cs as [|c cs IH]; intros s Hex.
  - by apply Exists_nil in Hex.
  - simpl. unfold bind at 1. unfold insert_chunk.
    destruct (check_chunk (pending s) c) as [e|] eqn:Hc.
    + exists e, s. split_and!; try done. by left.
    + apply Exists_cons in Hex as [Hex|Hex]; [done|].
      set (s1 := set_pending _ s).
      destruct (IH s1) as (e & s' & Hrun & Hcomm & Hnow & Hwhich).
      { eapply Exists_impl; [exact Hex|]. intros c' Hc'. simpl in *.
        intros Hn. apply Hc'. rewrite <- Hn. symmetry.
        by apply check_chunk_documents. }
      exists e, s'. unfold bind at 1. rewrite Hrun. split_and!; try done.
      right. eapply Exists_impl; [exact Hwhich|]. intros c' Hc'. simpl in *.
      rewrite <- Hc'. symmetry. by apply check_chunk_documents.
Qed.

Lemma create_chunks_batch_ok (p : Database) (t i : Z) (chunks_data : list ChunkData) :
  Forall (λ data, check_chunk p (new_chunk i data) = None) chunks_data →
  create_chunks_batch i chunks_data (SessionLocal p t) =
  (Ok (saved_rows (next_chunk_id p) t (new_chunk i <$> chunks_data)),
   SessionLocal
     (add_chunks (saved_rows (next_chunk_id p) t (new_chunk i <$> chunks_data)) p) t).
Proof.
  intros Hall. unfold create_chunks_batch, bulk_save_objects.
  unfold bind at 1. unfold bind at 1. simpl.
  rewrite insert_chunks_ok by (simpl; by apply Forall_fmap).
  simpl. unfold bind, commit, assert_active, modify, ret, bind. simpl.
  unfold flush. simpl. by rewrite flush_unchanged.
Qed.

Lemma create_chunks_batch_fail (p : Database) (t i : Z) (chunks_data : list ChunkData) :
  Exists (λ data, check_chunk p (new_chunk i data) ≠ None) chunks_data →
  ∃ e, create_chunks_batch i chunks_data (SessionLocal p t) =
         (Raise e, mkSession p p (Some (str e)) t)
       ∧ Exists (λ data, check_chunk p (new_chunk i data) = Some e) chunks_data.
Proof.
  intros Hex. unfold create_chunks_batch, bulk_save_objects.
  destruct (insert_chunks_fail (new_chunk i <$> chunks_data) (SessionLocal p t))
    as (e & s' & Hrun & Hcomm & Hnow & Hwhich).
  { simpl. by apply Exists_fmap. }
  exists e. split; [|by apply Exists_fmap in Hwhich].
  unfold bind at 1. unfold bind at 1. simpl. rewrite Hrun.
  simpl in *. by rewrite Hcomm, Hnow.
Qed.

End SessionFacts.

(** ** The chunk store: batch insertion *)

Section ChunkStoreClaims.
Context `{FL : Float8}.

Lemma saved_rows_persist (i pk t : Z) (chunks_data : list ChunkData) :
  Forall2 (persists i) chunks_data (saved_rows pk t (new_chunk i <$> chunks_data)).
Proof.
  revert pk. induction chunks_data as [|data l IH]; intros pk; simpl.
  - constructor.
  - constructor; [|apply IH]. unfold persists. simpl. split_and!; eauto.
Qed.

Lemma passes_or_fails (o : option exn) : {o = None} + {o ≠ None}.
Proof. destruct o; [right|left]; done. Qed.

(** C1.  [create_chunks_batch] is all-or-nothing.  Started in a fresh
    session on any database, for any document id and any batch: either it
    returns, every item of the batch passed the checks of its INSERT, and
    the committed chunk table is the old one followed by one stored row per
    item of the batch, committed together; or it raises, some item of the
    batch failed its INSERT with the raised error, and the database is
    exactly what it was (nothing is left pending in the session either). *)
Theorem create_chunks_batch_all_or_nothing (p : Database) (t document_id : Z)
    (chunks_data : list ChunkData) :
  match create_chunks_batch document_id chunks_data (SessionLocal p t) with
  | (Ok saved, s) =>
      Forall (λ data, check_chunk p (new_chunk document_id data) = None) chunks_data
      ∧ Forall2 (persists document_id) chunks_data saved
      ∧ committed s = add_chunks saved p
  | (Raise e, s) =>
      Exists (λ data, check_chunk p (new_chunk document_id data) = Some e) chunks_data
      ∧ committed s = p
      ∧ pending s = p
  end.
Proof.
  destruct (Forall_Exists_dec
              (λ data, check_chunk p (new_chunk document_id data) = None)
              (λ data, check_chunk p (new_chunk document_id data) ≠ None)
              (λ data, passes_or_fails (check_chunk p (new_chunk document_id data)))
              chunks_data) as [Hall|Hex].
  - rewrite create_chunks_batch_ok by done. split_and!; [done| |done].
    apply saved_rows_persist.
  - destruct (create_chunks_batch_fail p t document_id chunks_data Hex)
      as (e & -> & Hwhich). by split_and!.
Qed.

(** An embedding of the wrong length fails its INSERT. *)
Lemma wrong_length_fails_check (p : Database) (i : Z) (data : ChunkData)
    (v : list float) :
  data_embedding data = Some v → length v ≠ VECTOR_DIM →
  check_chunk p (new_chunk i data) ≠ None.
Proof.
  intros Hv Hlen. unfold check_chunk, new_chunk. simpl. rewrite Hv.
  by rewrite decide_False.
Qed.

(** So a batch with one such item leaves the database untouched. *)
Lemma wrong_length_rejects_batch (p : Database) (t i : Z)
    (chunks_data : list ChunkData) (data : ChunkData) (v : list float) :
  data ∈ chunks_data → data_embedding data = Some v → length v ≠ VECTOR_DIM →
  ∃ e s, create_chunks_batch i chunks_data (SessionLocal p t) = (Raise e, s)
    ∧ committed s = p.
Proof.
  intros Hin Hv Hlen.
  destruct (create_chunks_batch_fail p t i chunks_data) as (e & -> & _).
  - apply Exists_exists. exists data. split; [done|].
    by eapply wrong_length_fails_check.
  - by eexists _, _.
Qed.

End ChunkStoreClaims.

(** ** The document store *)

Section DocumentStoreClaims.
Context `{FL : Float8}.

Lemma onupdate_cases (t : Z) (d0 d : Document) :
  onupdate t d0 d = d ∨ onupdate t d0 d = set_updated_at (Some t) d.
Proof. unfold onupdate. case_decide; auto. Qed.

(** C7, as the code has it.  For an existing document, [update_document_status]
    returns the stored row, whose status is the given one, whose
    [completed_at] is stamped exactly when the new status is COMPLETED (and
    kept otherwise), and whose [error_message] is the given one whatever
    the status ([None] when it is left out).  The columns that are not
    status columns keep their value, the other documents and all chunks
    are untouched. *)
Theorem update_document_status_sets (p : Database) (t document_id : Z)
    (st : DocumentStatus) (msg : option string) (d : Document) :
  documents p !! document_id = Some d →
  ∃ d', update_document_status document_id st msg (SessionLocal p t)
          = (Ok (Some d'), SessionLocal (put_document document_id d' p) t)
    ∧ status d' = st
    ∧ completed_at d' = (if decide (st = COMPLETED) then Some t else completed_at d)
    ∧ error_message d' = msg
    ∧ same_but_status_columns d d'.
Proof.
  intros Hd. rewrite update_document_status_run, Hd. simpl.
  eexists. split; [reflexivity|].
  unfold status_assignments, same_but_status_columns.
  destruct (onupdate_cases t d
              (if decide (st = COMPLETED)
               then set_completed_at (Some t) (set_error_message msg (set_status st d))
               else set_error_message msg (set_status st d))) as [-> | ->];
    destruct (decide (st = COMPLETED)); simpl; by split_and!.
Qed.

(** C8.  [delete_document] returns [False] and changes nothing when no
    document has the id; otherwise it returns [True], and in the session
    it leaves behind [get_document] finds nothing and
    [get_chunks_by_document] returns the empty list for every page.  The
    other documents and their chunks stay. *)
Theorem delete_document_cascades (p : Database) (t document_id : Z) :
  match documents p !! document_id with
  | None =>
      delete_document document_id (SessionLocal p t) = (Ok false, SessionLocal p t)
  | Some _ =>
      ∃ p', delete_document document_id (SessionLocal p t)
              = (Ok true, SessionLocal p' t)
        ∧ get_document document_id (SessionLocal p' t) = (Ok None, SessionLocal p' t)
        ∧ (∀ skip limit, get_chunks_by_document document_id skip limit (SessionLocal p' t)
                         = (Ok [], SessionLocal p' t))
        ∧ documents p' = delete document_id (documents p)
        ∧ chunks p' = filter (λ c, DocumentChunk_document_id c ≠ document_id) (chunks p)
  end.
Proof.
  rewrite delete_document_run.
  destruct (documents p !! document_id) as [d|] eqn:Hd; [|done].
  eexists. split; [reflexivity|]. split_and!; try done.
  - rewrite get_document_run. simpl. by rewrite lookup_delete_eq.
  - intros skip limit. rewrite get_chunks_by_document_run.
    unfold chunks_of. simpl.
    assert (Hnone : filter (λ c, DocumentChunk_document_id c = document_id)
              (filter (λ c, DocumentChunk_document_id c ≠ document_id) (chunks p)) = []).
    { induction (chunks p) as [|c l IH]; [done|].
      rewrite (filter_cons (λ c, DocumentChunk_document_id c ≠ document_id)).
      case_decide; [|done]. rewrite filter_cons. by rewrite decide_False. }
    rewrite Hnone. cbn. by rewrite drop_nil, take_nil.
Qed.

End DocumentStoreClaims.

(** ** Similarity search *)

Section SearchClaims.
Context `{FL : Float8}.

Lemma search_similar_chunks_run (p : Database) (t : Z) (query : list float)
    (limit : kwarg nat) (document_id : option Z) :
  length query = VECTOR_DIM →
  search_similar_chunks query limit document_id (SessionLocal p t) =
  (Ok (take (kwarg_value 10%nat limit)
         (merge_sort asc_distance (similar_chunks_query query document_id p))),
   SessionLocal p t).
Proof.
  intros Hlen. unfold search_similar_chunks, bind, bind_vector. simpl.
  by rewrite decide_True.
Qed.

Lemma search_similar_chunks_wrong_dimension (p : Database) (t : Z)
    (query : list float) (limit : kwarg nat) (document_id : option Z) :
  length query ≠ VECTOR_DIM →
  ∃ e, search_similar_chunks query limit document_id (SessionLocal p t) =
       (Raise e, SessionLocal p t).
Proof.
  intros Hlen. unfold search_similar_chunks, bind, bind_vector. simpl.
  rewrite decide_False by done. by eexists.
Qed.

Lemma similar_chunks_query_elem (p : Database) (query : list float)
    (document_id : option Z) (r : DocumentChunk * option float) :
  r ∈ similar_chunks_query query document_id p →
  r = with_distance query r.1 ∧ r.1 ∈ chunks p.
Proof.
  unfold similar_chunks_query. intros Hr.
  assert (Hin : r ∈ with_distance query <$> chunks p).
  { destruct (truthy document_id); [|done].
    by apply list_elem_of_filter in Hr as [_ Hr]. }
  apply list_elem_of_fmap in Hin as (c & -> & Hc). by split.
Qed.

Lemma length_similar_chunks_query (p : Database) (query : list float)
    (document_id : option Z) :
  (length (similar_chunks_query query document_id p) ≤ length (chunks p))%nat.
Proof.
  unfold similar_chunks_query. destruct (truthy document_id).
  - etrans; [apply length_filter|]. by rewrite length_fmap.
  - by rewrite length_fmap.
Qed.


Lemma similar_chunks_query_scope (p : Database) (query : list float) (d : Z) :
  d ≠ 0 →
  similar_chunks_query query (Some d) p = with_distance query <$> chunks_of d p.
Proof.
  intros Hd. unfold similar_chunks_query, truthy, chunks_of.
  destruct (Z.eqb_spec d 0) as [|_]; [done|]. simpl.
  induction (chunks p) as [|c l IH]; [done|].
  rewrite fmap_cons, !filter_cons, IH. simpl.
  destruct (decide (DocumentChunk_document_id c = d)) as [->|Hne].
  - by rewrite decide_True.
  - rewrite decide_False; [done|congruence].
Qed.

(** A scope other than 0 is applied: the candidates belong to the
    document. *)
Lemma similar_chunks_query_scoped (p : Database) (query : list float)
    (d : Z) (r : DocumentChunk * option float) :
  d ≠ 0 →
  r ∈ similar_chunks_query query (Some d) p →
  DocumentChunk_document_id r.1 = d.
Proof.
  intros Hd. unfold similar_chunks_query, truthy.
  destruct (Z.eqb_spec d 0) as [|_]; [done|]. simpl.
  intros [Heq _]%list_elem_of_filter. congruence.
Qed.

Section Ordered.
Context `{!Float8Order FL}.

Global Instance asc_distance_total : Total asc_distance.
Proof.
  intros [c1 [a|]] [c2 [b|]]; unfold asc_distance; simpl; auto.
  apply float_le_total.
Qed.

Global Instance asc_distance_trans : Transitive asc_distance.
Proof.
  intros [c1 [a|]] [c2 [b|]] [c3 [c|]]; unfold asc_distance; simpl; try done.
  apply float_le_trans.
Qed.

End Ordered.

(** With a scope other than 0 the results belong to the document. *)
Lemma search_similar_chunks_scoped (p : Database) (t : Z) (query : list float)
    (limit : kwarg nat) (d : Z) (results : list (DocumentChunk * option float))
    (s : Session) :
  d ≠ 0 →
  search_similar_chunks query limit (Some d) (SessionLocal p t) = (Ok results, s) →
  Forall (λ r, DocumentChunk_document_id r.1 = d) results.
Proof.
  intros Hd Hrun. destruct (decide (length query = VECTOR_DIM)) as [Hlen|Hlen].
  - rewrite search_similar_chunks_run in Hrun by done.
    injection Hrun as <- _. apply Forall_forall. intros r Hr.
    apply (similar_chunks_query_scoped p query); [done|].
    eapply elem_of_submseteq; [exact Hr|].
    etrans; [apply sublist_submseteq, sublist_take|].
    by rewrite merge_sort_Permutation.
  - destruct (search_similar_chunks_wrong_dimension p t query limit (Some d) Hlen)
      as [e He]. congruence.
Qed.

(** C9, as the code has it.  A call that leaves the result count out uses
    10: it is the call with [limit=10] and returns at most 10 rows.  The
    retrieval step of the chat agent passes 5 itself and so gets at most 5
    rows. *)
Theorem search_similar_chunks_default_limit (p : Database) (t : Z)
    (query : list float) (document_id : option Z) :
  length query = VECTOR_DIM →
  ∃ results retrieved,
    search_similar_chunks query Omitted document_id (SessionLocal p t)
      = (Ok results, SessionLocal p t)
    ∧ search_similar_chunks query Omitted document_id (SessionLocal p t)
      = search_similar_chunks query (Passed 10%nat) document_id (SessionLocal p t)
    ∧ (length results ≤ 10)%nat
    ∧ retrieve_context_search query (SessionLocal p t)
      = (Ok retrieved, SessionLocal p t)
    ∧ (length retrieved ≤ 5)%nat.
Proof.
  intros Hlen. unfold retrieve_context_search.
  rewrite !search_similar_chunks_run by done. simpl.
  eexists _, _. split_and!; try reflexivity; rewrite length_take; lia.
Qed.

End SearchClaims.

(** ** The update route *)

Section RouteClaims.
Context `{FL : Float8}.

Lemma update_document_run (p : Database) (t i : Z) (update_data : UpdateDocumentRequest) :
  update_document i update_data (SessionLocal p t) =
  match documents p !! i with
  | None => (Raise (HTTPException 404 "Document not found"), SessionLocal p t)
  | Some d =>
      match request_filename update_data with
      | Some new_filename =>
          (Ok (mkUpdateDocumentResponse "Document updated successfully" i
                 [("filename", new_filename)]),
           SessionLocal (put_document i (onupdate t d (set_filename new_filename d)) p) t)
      | None => (Ok (mkUpdateDocumentResponse "No fields to update" i []), SessionLocal p t)
      end
  end.
Proof.
  unfold update_document, bind. rewrite get_document_run.
  destruct (documents p !! i) as [d|] eqn:Hd; [|done].
  destruct (request_filename update_data) as [f|]; [|done].
  unfold assign, modify, set_pending, SessionLocal. simpl.
  unfold flush. simpl. by rewrite (flush_alter _ _ _ _ d Hd).
Qed.


End RouteClaims.

(** *** The rows of a completed document *)

Section BatchRows.
Context `{FL : Float8}.

Lemma saved_rows_fmap {B} (f g : DocumentChunk → B) (pk t : Z)
    (cs : list DocumentChunk) :
  (∀ pk' c, f (stored_row pk' t c) = g c) →
  f <$> saved_rows pk t cs = g <$> cs.
Proof.
  intros Hfg. revert pk. induction cs as [|c cs IH]; intros pk; [done|].
  simpl. by rewrite Hfg, IH.
Qed.

Lemma batch_rows_chunk_index (t i : Z) (batch : list ChunkData) (p : Database) :
  chunk_index <$> batch_rows t i batch p = data_chunk_index <$> batch.
Proof.
  unfold batch_rows. rewrite (saved_rows_fmap _ chunk_index) by done.
  by rewrite <- list_fmap_compose.
Qed.

Lemma batch_rows_text (t i : Z) (batch : list ChunkData) (p : Database) :
  text <$> batch_rows t i batch p = data_text <$> batch.
Proof.
  unfold batch_rows. rewrite (saved_rows_fmap _ text) by done.
  by rewrite <- list_fmap_compose.
Qed.

Lemma batch_rows_embedding (t i : Z) (batch : list ChunkData) (p : Database) :
  embedding <$> batch_rows t i batch p = data_embedding <$> batch.
Proof.
  unfold batch_rows. rewrite (saved_rows_fmap _ embedding) by done.
  by rewrite <- list_fmap_compose.
Qed.

Lemma batch_rows_document_id (t i : Z) (batch : list ChunkData) (p : Database) :
  Forall (λ c, DocumentChunk_document_id c = i) (batch_rows t i batch p).
Proof.
  unfold batch_rows. generalize (next_chunk_id p).
  induction batch as [|data l IH]; intros pk; simpl; constructor; auto.
Qed.

Lemma length_batch_rows (t i : Z) (batch : list ChunkData) (p : Database) :
  length (batch_rows t i batch p) = length batch.
Proof. unfold batch_rows. by rewrite length_saved_rows, length_fmap. Qed.

Lemma length_task_batch (chunk_iter : list DoclingChunk) (vectors : list (list float)) :
  length (task_batch chunk_iter vectors)
  = Nat.min (length chunk_iter) (length vectors).
Proof.
  unfold task_batch, chunks_data_of, embeddings_data_of.
  by rewrite length_fmap, length_imap, length_zip, length_fmap.
Qed.

(** [enumerate] numbers the batch 0, 1, 2, ... *)
Lemma task_batch_chunk_index (chunk_iter : list DoclingChunk)
    (vectors : list (list float)) :
  data_chunk_index <$> task_batch chunk_iter vectors
  = Z.of_nat <$> seq 0 (Nat.min (length chunk_iter) (length vectors)).
Proof.
  unfold task_batch, chunks_data_of, embeddings_data_of.
  rewrite <- list_fmap_compose, fmap_imap.
  rewrite (imap_ext _ (λ idx _, Z.of_nat idx)) by done.
  by rewrite imap_seq_0, length_zip, length_fmap.
Qed.

Lemma task_batch_text (chunk_iter : list DoclingChunk) (vectors : list (list float)) :
  (length chunk_iter ≤ length vectors)%nat →
  data_text <$> task_batch chunk_iter vectors = docling_text <$> chunk_iter.
Proof.
  intros Hlen. unfold task_batch, chunks_data_of, embeddings_data_of.
  rewrite <- list_fmap_compose, fmap_imap.
  rewrite (imap_ext _ (const (λ cv : Chunk * list float, chunk_text cv.1))) by done.
  rewrite imap_const.
  trans (chunk_text <$> (zip (chunk_data <$> chunk_iter) vectors).*1).
  { by rewrite <- list_fmap_compose. }
  rewrite fst_zip by (by rewrite length_fmap).
  rewrite <- list_fmap_compose. by apply list_fmap_ext.
Qed.

Lemma task_batch_embedding (chunk_iter : list DoclingChunk)
    (vectors : list (list float)) :
  (length vectors ≤ length chunk_iter)%nat →
  data_embedding <$> task_batch chunk_iter vectors = Some <$> vectors.
Proof.
  intros Hlen. unfold task_batch, chunks_data_of, embeddings_data_of.
  rewrite <- list_fmap_compose, fmap_imap.
  rewrite (imap_ext _ (const (λ cv : Chunk * list float, Some cv.2))) by done.
  rewrite imap_const.
  trans (Some <$> (zip (chunk_data <$> chunk_iter) vectors).*2).
  { by rewrite <- list_fmap_compose. }
  by rewrite snd_zip by (by rewrite length_fmap).
Qed.

(** Rows whose indexes go up strictly are already in the order
    [ORDER BY chunk_index] gives. *)

Global Instance asc_chunk_index_total : Total asc_chunk_index.
Proof. intros c1 c2. unfold asc_chunk_index. lia. Qed.

Global Instance asc_chunk_index_trans : Transitive asc_chunk_index.
Proof. intros c1 c2 c3. unfold asc_chunk_index. lia. Qed.

Lemma index_lt_unique (l : list DocumentChunk) (c1 c2 : DocumentChunk) :
  StronglySorted index_lt l → c1 ∈ l → c2 ∈ l →
  chunk_index c1 = chunk_index c2 → c1 = c2.
Proof.
  induction 1 as [|c l Hl IH Hc]; intros H1 H2 Heq.
  - by apply elem_of_nil in H1.
  - rewrite Forall_forall in Hc. unfold index_lt in Hc.
    apply elem_of_cons in H1 as [->|H1]; apply elem_of_cons in H2 as [->|H2].
    + done.
    + specialize (Hc _ H2). lia.
    + specialize (Hc _ H1). lia.
    + by apply IH.
Qed.

Lemma merge_sort_sorted (l : list DocumentChunk) :
  StronglySorted index_lt l → merge_sort asc_chunk_index l = l.
Proof.
  intros Hl. apply StronglySorted_unique_strong with (R := asc_chunk_index).
  - intros c1 c2 H1 H2 H12 H21. apply (index_lt_unique l); [done| |done|].
    + by rewrite merge_sort_Permutation in H1.
    + unfold asc_chunk_index in *. lia.
  - apply StronglySorted_merge_sort; apply _.
  - clear -Hl. induction Hl as [|c l Hl IH Hc]; constructor; [done|].
    eapply Forall_impl; [exact Hc|]. unfold index_lt, asc_chunk_index. intros; lia.
  - apply merge_sort_Permutation.
Qed.

Lemma consecutive_index_lt (l : list DocumentChunk) (k m : nat) :
  chunk_index <$> l = Z.of_nat <$> seq k m → StronglySorted index_lt l.
Proof.
  revert k m. induction l as [|c l IH]; intros k m Heq; [constructor|].
  destruct m as [|m]; [done|].
  change (seq k (S m)) with (k :: seq (S k) m) in Heq.
  rewrite !fmap_cons in Heq. injection Heq as Hc Hl.
  constructor; [by eapply IH|].
  apply Forall_forall. intros c' Hc'. unfold index_lt.
  apply (list_elem_of_fmap_2 chunk_index) in Hc'. rewrite Hl in Hc'.
  apply list_elem_of_fmap in Hc' as (j & -> & Hj). apply elem_of_seq in Hj.
  rewrite Hc. lia.
Qed.

Lemma filter_all {A} (P : A → Prop) `{∀ x, Decision (P x)} (l : list A) :
  Forall P l → filter P l = l.
Proof.
  induction 1 as [|x l Hx Hl IH]; [done|].
  by rewrite filter_cons, decide_True, IH.
Qed.

End BatchRows.

(** ** The ingestion pipeline *)

Lemma bind_ok {S A B} (m : M S A) (k : A → M S B) (s s' : S) (a : A) :
  m s = (Ok a, s') → bind m k s = k a s'.
Proof. intros H. unfold bind. by rewrite H. Qed.

Lemma bind_raise {S A B} (m : M S A) (k : A → M S B) (s s' : S) (e : exn) :
  m s = (Raise e, s') → bind m k s = (Raise e, s').
Proof. intros H. unfold bind. by rewrite H. Qed.

Section HandlerFacts.
Context `{FL : Float8}.

Lemma with_db_run {A} (m : M Session A) (s s' : Session) (r : result A)
    (fs : gset string) (js : gmap string Job) (clk : Z) :
  m s = (r, s') →
  with_db m (mkTaskState s fs js clk) = (r, mkTaskState s' fs js clk).
Proof. intros H. unfold with_db. simpl. by rewrite H. Qed.

Lemma unlink_or_ignore (path : string) (s : Session) (fs : gset string)
    (js : gmap string Job) (clk : Z) :
  try_except (os_unlink path) (λ _, ret tt) (mkTaskState s fs js clk) =
  (Ok tt, mkTaskState s (fs ∖ {[path]}) js clk).
Proof.
  unfold try_except, os_unlink. simpl.
  destruct (decide (path ∈ fs)) as [Hin|Hout]; [done|].
  unfold ret. do 2 f_equal. symmetry. apply difference_disjoint_L.
  by apply disjoint_singleton_r.
Qed.

Lemma job_updates_run (job_id : string) (f h : Job → Job) (g : Z → Job → Job) (s : Session)
    (fs : gset string) (js : gmap string Job) (clk : Z) (j : Job) :
  js !! job_id = Some j →
  (job_setitem job_id f >>
   (let* t := gets clock in job_setitem job_id (g t)) >>
   job_setitem job_id h) (mkTaskState s fs js clk) =
  (Ok tt, mkTaskState s fs (<[job_id := h (g clk (f j))]> js) clk).
Proof.
  intros Hj. unfold bind, job_setitem, gets. simpl. rewrite Hj. simpl.
  rewrite lookup_insert_eq. simpl. rewrite lookup_insert_eq.
  by rewrite !insert_insert_eq.
Qed.

Lemma job_updates_missing (job_id : string) (f h : Job → Job) (g : Z → Job → Job) (s : Session)
    (fs : gset string) (js : gmap string Job) (clk : Z) :
  js !! job_id = None →
  (job_setitem job_id f >>
   (let* t := gets clock in job_setitem job_id (g t)) >>
   job_setitem job_id h) (mkTaskState s fs js clk) =
  (Raise (KeyError job_id), mkTaskState s fs js clk).
Proof. intros Hj. unfold bind, job_setitem. simpl. by rewrite Hj. Qed.

(** The [except] block in a session that is still usable. *)
Lemma except_run (p : Database) (t : Z) (fs : gset string) (js : gmap string Job)
    (clk : Z) (job_id : string) (i : Z) (path : string) (e : exn) (d : Document) :
  documents p !! i = Some d →
  process_document_task_except job_id i path e
    (mkTaskState (SessionLocal p t) fs js clk) =
  let p' := put_document i (onupdate t d (status_assignments FAILED (Some (str e)) t d)) p in
  match js !! job_id with
  | Some j =>
      (Ok tt, mkTaskState (SessionLocal p' t) (fs ∖ {[path]})
                (<[job_id := failed_job (str e) clk j]> js) clk)
  | None =>
      (Raise (KeyError job_id), mkTaskState (SessionLocal p' t) (fs ∖ {[path]}) js clk)
  end.
Proof.
  intros Hd. unfold process_document_task_except.
  erewrite bind_ok; cycle 1.
  { apply with_db_run. rewrite update_document_status_run, Hd. reflexivity. }
  erewrite bind_ok by apply unlink_or_ignore.
  destruct (js !! job_id) as [j|] eqn:Hj; simpl.
  - by erewrite job_updates_run.
  - by erewrite job_updates_missing.
Qed.

(** The [except] block in a session whose transaction was rolled back by a
    failed bulk save: its first statement raises. *)
Lemma except_run_rolled_back (p : Database) (t : Z) (original : string)
    (fs : gset string) (js : gmap string Job) (clk : Z) (job_id : string)
    (i : Z) (path : string) (e : exn) :
  process_document_task_except job_id i path e
    (mkTaskState (mkSession p p (Some original) t) fs js clk) =
  (Raise (PendingRollbackError original),
   mkTaskState (mkSession p p (Some original) t) fs js clk).
Proof. reflexivity. Qed.

End HandlerFacts.

Section PipelineClaims.
Context `{FL : Float8}.
Variable DoclingDocument : Type.
Variable converter_convert : string → result DoclingDocument.
Variable export_to_markdown : DoclingDocument → string.
Variable chunker_chunk : DoclingDocument → Z → result (list DoclingChunk).
Variable embed_documents : list string → result (list (list float)).

Local Abbreviation try_block :=
  (process_document_task_try DoclingDocument converter_convert
     export_to_markdown chunker_chunk embed_documents).
Local Abbreviation task :=
  (process_document_task DoclingDocument converter_convert
     export_to_markdown chunker_chunk embed_documents).

Lemma chunk_texts (chunk_iter : list DoclingChunk) :
  chunk_text <$> (chunk_data <$> chunk_iter) = docling_text <$> chunk_iter.
Proof. rewrite <- list_fmap_compose. by apply list_fmap_ext. Qed.

(** *** The stages before persistence *)

Lemma convert_document_run (path : string) (st : TaskState) :
  convert_document DoclingDocument converter_convert path st =
  match converter_convert path with
  | Ok doc => (Ok doc, st)
  | Raise e => (Raise (HTTPException 500 ("Document conversion failed: " +:+ str e)), st)
  end.
Proof.
  unfold convert_document, try_except, call, raise.
  by destruct (converter_convert path).
Qed.

Lemma hybrid_chunk_document_run (doc : DoclingDocument) (max_tokens : Z)
    (st : TaskState) :
  hybrid_chunk_document DoclingDocument chunker_chunk doc max_tokens st =
  match chunker_chunk doc max_tokens with
  | Ok chunk_iter => (Ok (chunk_data <$> chunk_iter), st)
  | Raise e => (Raise (HTTPException 500 ("Text chunking failed: " +:+ str e)), st)
  end.
Proof.
  unfold hybrid_chunk_document, try_except, bind, call, raise, ret.
  by destruct (chunker_chunk doc max_tokens).
Qed.

Lemma generate_embeddings_run (chunk_iter : list DoclingChunk) (st : TaskState) :
  generate_embeddings embed_documents (chunk_data <$> chunk_iter) st =
  match embed_documents (docling_text <$> chunk_iter) with
  | Ok vectors => (Ok (embeddings_data_of (chunk_data <$> chunk_iter) vectors), st)
  | Raise e => (Raise (embedding_failure e), st)
  end.
Proof.
  unfold generate_embeddings, try_except, bind, call, raise, ret.
  rewrite chunk_texts. by destruct (embed_documents _).
Qed.

(** The [try] block stops at the first stage that raises, before anything
    was written. *)
Lemma try_block_embedding_failure (job_id : string) (i : Z) (path filename : string)
    (size : Z) (st : TaskState) (doc : DoclingDocument)
    (chunk_iter : list DoclingChunk) (e : exn) :
  converter_convert path = Ok doc →
  chunker_chunk doc size = Ok chunk_iter →
  embed_documents (docling_text <$> chunk_iter) = Raise e →
  try_block job_id i path filename size st = (Raise (embedding_failure e), st).
Proof.
  intros Hconv Hchunk Hembed. unfold process_document_task_try.
  erewrite bind_ok by (rewrite convert_document_run, Hconv; reflexivity).
  erewrite bind_ok by (rewrite hybrid_chunk_document_run, Hchunk; reflexivity).
  erewrite bind_raise by (rewrite generate_embeddings_run, Hembed; reflexivity).
  done.
Qed.

(** The task when the [try] block raised [e] and left a usable session:
    the handler marks the document and the job. *)
Lemma task_handled (job_id : string) (i : Z) (path filename : string) (size : Z)
    (w : World) (e : exn) (p : Database) (fs : gset string)
    (js : gmap string Job) (d : Document) :
  try_block job_id i path filename size
    (mkTaskState (SessionLocal (database w) (time w)) (files w) (jobs_storage w) (time w))
  = (Raise e, mkTaskState (SessionLocal p (time w)) fs js (time w)) →
  documents p !! i = Some d →
  task job_id i path filename size w =
  let p' := put_document i
              (onupdate (time w) d (status_assignments FAILED (Some (str e)) (time w) d))
              p in
  match js !! job_id with
  | Some j =>
      (Ok tt, mkWorld p' (fs ∖ {[path]})
                (<[job_id := failed_job (str e) (time w) j]> js) (time w))
  | None =>
      (Raise (KeyError job_id), mkWorld p' (fs ∖ {[path]}) js (time w))
  end.
Proof.
  intros Htry Hd. unfold process_document_task, try_finally, try_except.
  rewrite Htry, (except_run _ _ _ _ _ _ _ _ _ d Hd).
  by destruct (js !! job_id).
Qed.

Lemma status_of_failed (t : Z) (d : Document) (msg : option string) :
  status (onupdate t d (status_assignments FAILED msg t d)) = FAILED
  ∧ error_message (onupdate t d (status_assignments FAILED msg t d)) = msg.
Proof.
  destruct (onupdate_cases t d (status_assignments FAILED msg t d)) as [-> | ->];
    by unfold status_assignments.
Qed.

(** C2.  A run whose embedding step raises (conversion and chunking having
    succeeded), for a document and a job that exist and a document without
    chunks: the task returns; the document has status FAILED and the
    handler's message as [error_message]; no chunk was written, so the
    document has none; the temporary file is not among the files; the job
    has status ["failed"] and the same message as [error]. *)
Theorem embedding_failure_marks_failed (w : World) (job_id : string)
    (document_id : Z) (tmp_file_path filename : string) (chunk_size : Z)
    (doc : DoclingDocument) (chunk_iter : list DoclingChunk) (e : exn)
    (d : Document) (j : Job) :
  converter_convert tmp_file_path = Ok doc →
  chunker_chunk doc chunk_size = Ok chunk_iter →
  embed_documents (docling_text <$> chunk_iter) = Raise e →
  documents (database w) !! document_id = Some d →
  chunks_of document_id (database w) = [] →
  jobs_storage w !! job_id = Some j →
  ∃ w' d' j',
    task job_id document_id tmp_file_path filename chunk_size w = (Ok tt, w')
    ∧ documents (database w') !! document_id = Some d'
    ∧ status d' = FAILED
    ∧ error_message d' = Some (str (embedding_failure e))
    ∧ chunks (database w') = chunks (database w)
    ∧ chunks_of document_id (database w') = []
    ∧ (tmp_file_path ∉ files w')
    ∧ jobs_storage w' !! job_id = Some j'
    ∧ job_status j' = "failed"
    ∧ job_error j' = Some (str (embedding_failure e)).
Proof.
  intros Hconv Hchunk Hembed Hd Hnone Hj.
  rewrite (task_handled _ _ _ _ _ _ (embedding_failure e) _ _ _ d)
    by eauto using try_block_embedding_failure.
  rewrite Hj. cbv zeta.
  set (msg := str (embedding_failure e)).
  destruct (status_of_failed (time w) d (Some msg)) as [Hst Hmsg].
  eexists _, _, (failed_job msg (time w) j). split; [reflexivity|].
  cbn [database files jobs_storage put_document documents chunks].
  split_and!; try done.
  - by rewrite lookup_insert_eq.
  - apply not_elem_of_difference. right. by apply elem_of_singleton.
  - by rewrite lookup_insert_eq.
Qed.

(** After a handled failure the document is FAILED. *)
Lemma task_handled_failed (job_id : string) (i : Z) (path filename : string)
    (size : Z) (w : World) (e : exn) (p : Database) (fs : gset string)
    (js : gmap string Job) (d : Document) :
  try_block job_id i path filename size
    (mkTaskState (SessionLocal (database w) (time w)) (files w) (jobs_storage w) (time w))
  = (Raise e, mkTaskState (SessionLocal p (time w)) fs js (time w)) →
  documents p !! i = Some d →
  ∃ d', documents (database (task job_id i path filename size w).2) !! i = Some d'
        ∧ status d' = FAILED.
Proof.
  intros Htry Hd. rewrite (task_handled _ _ _ _ _ _ e p fs js d Htry Hd).
  cbv zeta. eexists.
  split; [|apply (status_of_failed (time w) d (Some (str e)))].
  destruct (js !! job_id); cbn [snd database put_document documents];
    by rewrite lookup_insert_eq.
Qed.

(** *** The persistence step *)

Lemma length_chunk_data (chunk_iter : list DoclingChunk) :
  length (chunk_data <$> chunk_iter) = length chunk_iter.
Proof. apply length_fmap. Qed.

(** The batch is rejected: the [try] block raises with the content update
    committed, the transaction rolled back and the session holding the
    exception. *)
Lemma try_block_batch_rejected (job_id : string) (i : Z) (path filename : string)
    (size : Z) (p : Database) (t : Z) (fs : gset string) (js : gmap string Job)
    (clk : Z) (doc : DoclingDocument) (chunk_iter : list DoclingChunk)
    (vectors : list (list float)) (d : Document) :
  converter_convert path = Ok doc →
  chunker_chunk doc size = Ok chunk_iter →
  embed_documents (docling_text <$> chunk_iter) = Ok vectors →
  documents p !! i = Some d →
  let n := Z.of_nat (length chunk_iter) in
  let p1 := after_content t i (export_to_markdown doc) n d p in
  Exists (λ data, check_chunk p1 (new_chunk i data) ≠ None)
    (task_batch chunk_iter vectors) →
  ∃ e, try_block job_id i path filename size (mkTaskState (SessionLocal p t) fs js clk)
       = (Raise e, mkTaskState (mkSession p1 p1 (Some (str e)) t) fs js clk).
Proof.
  intros Hconv Hchunk Hembed Hd n p1 Hex.
  destruct (create_chunks_batch_fail p1 t i _ Hex) as (e & Hrun & _).
  exists e. unfold process_document_task_try.
  erewrite bind_ok by (rewrite convert_document_run, Hconv; reflexivity).
  erewrite bind_ok by (rewrite hybrid_chunk_document_run, Hchunk; reflexivity).
  erewrite bind_ok by (rewrite generate_embeddings_run, Hembed; reflexivity).
  erewrite bind_ok; cycle 1.
  { apply with_db_run. rewrite update_document_content_run, Hd. reflexivity. }
  erewrite bind_raise; [reflexivity|].
  apply with_db_run. rewrite length_chunk_data. exact Hrun.
Qed.

(** The batch is accepted: the three writes are committed; what is left
    can only fail on the file or on the job entry. *)
Lemma try_block_persisted (job_id : string) (i : Z) (path filename : string)
    (size : Z) (p : Database) (t : Z) (fs : gset string) (js : gmap string Job)
    (clk : Z) (doc : DoclingDocument) (chunk_iter : list DoclingChunk)
    (vectors : list (list float)) (d : Document) :
  converter_convert path = Ok doc →
  chunker_chunk doc size = Ok chunk_iter →
  embed_documents (docling_text <$> chunk_iter) = Ok vectors →
  documents p !! i = Some d →
  let n := Z.of_nat (length chunk_iter) in
  let markdown := export_to_markdown doc in
  let batch := task_batch chunk_iter vectors in
  let p3 := after_completed t i markdown n d batch p in
  Forall (λ data, check_chunk (after_content t i markdown n d p) (new_chunk i data) = None)
    batch →
  try_block job_id i path filename size (mkTaskState (SessionLocal p t) fs js clk) =
  if decide (path ∈ fs) then
    match js !! job_id with
    | Some j =>
        (Ok tt,
         mkTaskState (SessionLocal p3 t) (fs ∖ {[path]})
           (<[job_id :=
                completed_job
                  (processing_response filename markdown (chunk_data <$> chunk_iter)
                     size (embeddings_data_of (chunk_data <$> chunk_iter) vectors))
                  clk j]> js) clk)
    | None =>
        (Raise (KeyError job_id), mkTaskState (SessionLocal p3 t) (fs ∖ {[path]}) js clk)
    end
  else (Raise (FileNotFoundError path), mkTaskState (SessionLocal p3 t) fs js clk).
Proof.
  intros Hconv Hchunk Hembed Hd n markdown batch p3 Hall.
  unfold process_document_task_try.
  erewrite bind_ok by (rewrite convert_document_run, Hconv; reflexivity).
  erewrite bind_ok by (rewrite hybrid_chunk_document_run, Hchunk; reflexivity).
  erewrite bind_ok by (rewrite generate_embeddings_run, Hembed; reflexivity).
  erewrite bind_ok; cycle 1.
  { apply with_db_run. rewrite update_document_content_run, Hd. reflexivity. }
  rewrite length_chunk_data.
  erewrite bind_ok; cycle 1.
  { apply with_db_run. apply create_chunks_batch_ok. exact Hall. }
  erewrite bind_ok; cycle 1.
  { apply with_db_run. rewrite update_document_status_run.
    cbn [add_chunks put_document documents]. rewrite lookup_insert_eq. reflexivity. }
  subst p3 batch markdown n.
  unfold after_completed, after_batch, batch_rows, after_content, completed,
    content_written, task_batch.
  destruct (decide (path ∈ fs)) as [Hin|Hout].
  - erewrite bind_ok; cycle 1.
    { unfold os_unlink. cbn [filesystem]. rewrite decide_True by done. reflexivity. }
    cbn [db jobs clock].
    destruct (js !! job_id) as [j|] eqn:Hj.
    + rewrite (job_updates_run _ _ _ _ _ _ _ _ j Hj). reflexivity.
    + rewrite (job_updates_missing _ _ _ _ _ _ _ _ Hj). reflexivity.
  - erewrite bind_raise; [reflexivity|].
    unfold os_unlink. cbn [filesystem]. rewrite decide_False by done. reflexivity.
Qed.

(** *** The outcomes of a task *)

Lemma try_block_conversion_failure (job_id : string) (i : Z) (path filename : string)
    (size : Z) (st : TaskState) (e : exn) :
  converter_convert path = Raise e →
  try_block job_id i path filename size st =
  (Raise (HTTPException 500 ("Document conversion failed: " +:+ str e)), st).
Proof.
  intros Hconv. unfold process_document_task_try.
  by erewrite bind_raise by (rewrite convert_document_run, Hconv; reflexivity).
Qed.

Lemma try_block_chunking_failure (job_id : string) (i : Z) (path filename : string)
    (size : Z) (st : TaskState) (doc : DoclingDocument) (e : exn) :
  converter_convert path = Ok doc →
  chunker_chunk doc size = Raise e →
  try_block job_id i path filename size st =
  (Raise (HTTPException 500 ("Text chunking failed: " +:+ str e)), st).
Proof.
  intros Hconv Hchunk. unfold process_document_task_try.
  erewrite bind_ok by (rewrite convert_document_run, Hconv; reflexivity).
  by erewrite bind_raise by (rewrite hybrid_chunk_document_run, Hchunk; reflexivity).
Qed.

(** When the batch is rejected the handler cannot use the session: the
    task ends with [PendingRollbackError], the document keeps the status it
    had, the file and the job entry are as they were. *)
Lemma task_batch_rejected (job_id : string) (i : Z) (path filename : string)
    (size : Z) (w : World) (doc : DoclingDocument) (chunk_iter : list DoclingChunk)
    (vectors : list (list float)) (d : Document) :
  converter_convert path = Ok doc →
  chunker_chunk doc size = Ok chunk_iter →
  embed_documents (docling_text <$> chunk_iter) = Ok vectors →
  documents (database w) !! i = Some d →
  let p1 := after_content (time w) i (export_to_markdown doc)
              (Z.of_nat (length chunk_iter)) d (database w) in
  Exists (λ data, check_chunk p1 (new_chunk i data) ≠ None)
    (task_batch chunk_iter vectors) →
  ∃ e, task job_id i path filename size w =
       (Raise (PendingRollbackError (str e)),
        mkWorld p1 (files w) (jobs_storage w) (time w)).
Proof.
  intros Hconv Hchunk Hembed Hd p1 Hex.
  destruct (try_block_batch_rejected job_id i path filename size (database w)
              (time w) (files w) (jobs_storage w) (time w) doc chunk_iter vectors d
              Hconv Hchunk Hembed Hd Hex) as [e Htry].
  exists e. unfold process_document_task, try_finally, try_except.
  by rewrite Htry, except_run_rolled_back.
Qed.

Lemma task_succeeds (job_id : string) (i : Z) (path filename : string)
    (size : Z) (w : World) (doc : DoclingDocument) (chunk_iter : list DoclingChunk)
    (vectors : list (list float)) (d : Document) (j : Job) :
  converter_convert path = Ok doc →
  chunker_chunk doc size = Ok chunk_iter →
  embed_documents (docling_text <$> chunk_iter) = Ok vectors →
  documents (database w) !! i = Some d →
  let n := Z.of_nat (length chunk_iter) in
  let markdown := export_to_markdown doc in
  let batch := task_batch chunk_iter vectors in
  Forall (λ data, check_chunk (after_content (time w) i markdown n d (database w))
                    (new_chunk i data) = None) batch →
  path ∈ files w →
  jobs_storage w !! job_id = Some j →
  task job_id i path filename size w =
  (Ok tt,
   mkWorld (after_completed (time w) i markdown n d batch (database w))
     (files w ∖ {[path]})
     (<[job_id :=
          completed_job
            (processing_response filename markdown (chunk_data <$> chunk_iter)
               size (embeddings_data_of (chunk_data <$> chunk_iter) vectors))
            (time w) j]> (jobs_storage w))
     (time w)).
Proof.
  intros Hconv Hchunk Hembed Hd n markdown batch Hall Hin Hj.
  unfold process_document_task, try_finally, try_except.
  rewrite (try_block_persisted job_id i path filename size (database w) (time w)
             (files w) (jobs_storage w) (time w) doc chunk_iter vectors d
             Hconv Hchunk Hembed Hd Hall).
  by rewrite decide_True, Hj.
Qed.

Lemma status_content_written (t i : Z) (markdown : string) (n : Z) (d : Document) :
  status (content_written t i markdown n d) = status d
  ∧ num_chunks (content_written t i markdown n d) = n.
Proof.
  unfold content_written.
  by destruct (onupdate_cases t d (content_assignments markdown (len markdown) n d))
    as [-> | ->].
Qed.

Lemma lookup_after_completed (t i : Z) (markdown : string) (n : Z) (d : Document)
    (batch : list ChunkData) (p : Database) :
  documents (after_completed t i markdown n d batch p) !! i
  = Some (completed t i markdown n d).
Proof. unfold after_completed, put_document. simpl. by rewrite lookup_insert_eq. Qed.

(** A document that was not COMPLETED is COMPLETED after the task only if
    every stage succeeded: the content update and the whole batch are
    committed, and the database is the one after the three writes. *)
Lemma task_completed_inversion (job_id : string) (i : Z) (path filename : string)
    (size : Z) (w : World) (d d' : Document) :
  documents (database w) !! i = Some d →
  status d ≠ COMPLETED →
  documents (database (task job_id i path filename size w).2) !! i = Some d' →
  status d' = COMPLETED →
  ∃ doc chunk_iter vectors j,
    converter_convert path = Ok doc
    ∧ chunker_chunk doc size = Ok chunk_iter
    ∧ embed_documents (docling_text <$> chunk_iter) = Ok vectors
    ∧ Forall (λ data,
        check_chunk (after_content (time w) i (export_to_markdown doc)
                       (Z.of_nat (length chunk_iter)) d (database w))
          (new_chunk i data) = None) (task_batch chunk_iter vectors)
    ∧ path ∈ files w
    ∧ jobs_storage w !! job_id = Some j
    ∧ (task job_id i path filename size w).1 = Ok tt
    ∧ database (task job_id i path filename size w).2
      = after_completed (time w) i (export_to_markdown doc)
          (Z.of_nat (length chunk_iter)) d (task_batch chunk_iter vectors) (database w).
Proof.
  intros Hd Hnot Hd' Hdone.
  assert (Hfailed : ∀ e p fs js d0,
    try_block job_id i path filename size
      (mkTaskState (SessionLocal (database w) (time w)) (files w) (jobs_storage w) (time w))
    = (Raise e, mkTaskState (SessionLocal p (time w)) fs js (time w)) →
    documents p !! i = Some d0 → False).
  { intros e p fs js d0 Htry Hd0.
    destruct (task_handled_failed _ _ _ _ _ _ _ _ _ _ _ Htry Hd0) as (d'' & Hl & Hst).
    congruence. }
  destruct (converter_convert path) as [doc|e] eqn:Hconv; cycle 1.
  { exfalso. eapply Hfailed; [by apply try_block_conversion_failure|done]. }
  destruct (chunker_chunk doc size) as [chunk_iter|e] eqn:Hchunk; cycle 1.
  { exfalso. eapply Hfailed; [by eapply try_block_chunking_failure|done]. }
  destruct (embed_documents (docling_text <$> chunk_iter)) as [vectors|e] eqn:Hembed;
    cycle 1.
  { exfalso. eapply Hfailed; [by eapply try_block_embedding_failure|done]. }
  set (n := Z.of_nat (length chunk_iter)).
  set (markdown := export_to_markdown doc).
  set (batch := task_batch chunk_iter vectors).
  destruct (Forall_Exists_dec
              (λ data, check_chunk (after_content (time w) i markdown n d (database w))
                         (new_chunk i data) = None)
              (λ data, check_chunk (after_content (time w) i markdown n d (database w))
                         (new_chunk i data) ≠ None)
              (λ data, passes_or_fails _) batch) as [Hall|Hex].
  - pose proof (try_block_persisted job_id i path filename size (database w) (time w)
                  (files w) (jobs_storage w) (time w) doc chunk_iter vectors d
                  Hconv Hchunk Hembed Hd Hall) as Htry.
    destruct (decide (path ∈ files w)) as [Hin|Hout]; cycle 1.
    { exfalso. eapply Hfailed; [exact Htry|apply lookup_after_completed]. }
    destruct (jobs_storage w !! job_id) as [j|] eqn:Hj; cycle 1.
    { exfalso. eapply Hfailed; [exact Htry|apply lookup_after_completed]. }
    exists doc, chunk_iter, vectors, j.
    rewrite (task_succeeds job_id i path filename size w doc chunk_iter vectors d j)
      by done.
    by split_and!.
  - exfalso.
    destruct (task_batch_rejected job_id i path filename size w doc chunk_iter
                vectors d Hconv Hchunk Hembed Hd Hex) as [e Hrun].
    rewrite Hrun in Hd'. cbn [snd database] in Hd'.
    unfold after_content, put_document in Hd'. cbn [documents] in Hd'.
    rewrite lookup_insert_eq in Hd'. injection Hd' as <-.
    destruct (status_content_written (time w) i (export_to_markdown doc)
                (Z.of_nat (length chunk_iter)) d) as [Hst _].
    congruence.
Qed.

Lemma completed_fields (t i : Z) (markdown : string) (n : Z) (d : Document) :
  status (completed t i markdown n d) = COMPLETED
  ∧ num_chunks (completed t i markdown n d) = n.
Proof.
  unfold completed.
  destruct (status_content_written t i markdown n d) as [_ Hn].
  destruct (onupdate_cases t (content_written t i markdown n d)
              (status_assignments COMPLETED None t (content_written t i markdown n d)))
    as [-> | ->]; by unfold status_assignments.
Qed.

Lemma chunks_of_after_completed (t i : Z) (markdown : string) (n : Z)
    (d : Document) (batch : list ChunkData) (p : Database) :
  chunks_of i p = [] →
  chunks_of i (after_completed t i markdown n d batch p)
  = batch_rows t i batch (after_content t i markdown n d p).
Proof.
  intros Hnone. unfold chunks_of, after_completed, after_batch, put_document,
    add_chunks. cbn [chunks].
  unfold after_content at 1, put_document. cbn [chunks].
  unfold chunks_of in Hnone. rewrite filter_app, Hnone. simpl.
  apply filter_all, batch_rows_document_id.
Qed.

(** The embeddings that passed the INSERT have the column's dimension. *)
Lemma accepted_embeddings (p : Database) (i : Z) (batch : list ChunkData) :
  Forall (λ data, check_chunk p (new_chunk i data) = None) batch →
  Forall (λ e, ∀ v, e = Some v → length v = VECTOR_DIM) (data_embedding <$> batch).
Proof.
  intros Hall. apply Forall_fmap. eapply Forall_impl; [exact Hall|].
  intros data Hcheck v Hv. unfold check_chunk, new_chunk in Hcheck.
  cbn [embedding] in Hcheck. rewrite Hv in Hcheck.
  by destruct (decide (length v = VECTOR_DIM)).
Qed.

(** C3.  Take an embedder that returns one vector per text, and a run for
    a document that was PROCESSING and had no chunks.  If the document is
    COMPLETED when the task ends, then conversion and chunking succeeded
    and, for the chunks stored with the document's id: their number is the
    stored [num_chunks]; read in table order their [chunk_index] values are
    0, 1, ..., num_chunks-1; their texts are the chunker's texts in the
    chunker's order; every embedding has the column's dimension; and
    [get_chunks_by_document], which orders by [chunk_index], returns them
    in this same order. *)
Theorem completed_document_chunks (w : World) (job_id : string)
    (document_id : Z) (tmp_file_path filename : string) (chunk_size : Z)
    (d d' : Document) :
  (∀ texts vectors, embed_documents texts = Ok vectors →
                    length vectors = length texts) →
  documents (database w) !! document_id = Some d →
  status d = PROCESSING →
  chunks_of document_id (database w) = [] →
  documents (database (task job_id document_id tmp_file_path filename chunk_size w).2)
    !! document_id = Some d' →
  status d' = COMPLETED →
  let stored :=
    chunks_of document_id
      (database (task job_id document_id tmp_file_path filename chunk_size w).2) in
  ∃ doc chunk_iter,
    converter_convert tmp_file_path = Ok doc
    ∧ chunker_chunk doc chunk_size = Ok chunk_iter
    ∧ num_chunks d' = Z.of_nat (length stored)
    ∧ chunk_index <$> stored = seqZ 0 (num_chunks d')
    ∧ text <$> stored = docling_text <$> chunk_iter
    ∧ Forall (λ c, ∃ v, embedding c = Some v ∧ length v = VECTOR_DIM) stored
    ∧ ∀ t, get_chunks_by_document document_id 0 (length stored)
             (SessionLocal
                (database (task job_id document_id tmp_file_path filename chunk_size w).2) t)
           = (Ok stored,
              SessionLocal
                (database (task job_id document_id tmp_file_path filename chunk_size w).2) t).
Proof.
  intros Hembedder Hd Hproc Hnone Hd' Hdone stored.
  destruct (task_completed_inversion job_id document_id tmp_file_path filename
              chunk_size w d d' Hd ltac:(by rewrite Hproc) Hd' Hdone)
    as (doc & chunk_iter & vectors & j & Hconv & Hchunk & Hembed & Hall & _ & _ & _ & Hdb).
  exists doc, chunk_iter. split; [done|]. split; [done|].
  assert (Hlen : length vectors = length chunk_iter).
  { rewrite (Hembedder _ _ Hembed). apply length_fmap. }
  set (n := Z.of_nat (length chunk_iter)) in *.
  set (markdown := export_to_markdown doc) in *.
  set (batch := task_batch chunk_iter vectors) in *.
  set (p1 := after_content (time w) document_id markdown n d (database w)) in *.
  assert (Hstored : stored = batch_rows (time w) document_id batch p1).
  { unfold stored. rewrite Hdb. by apply chunks_of_after_completed. }
  assert (Hd3 : d' = completed (time w) document_id markdown n d).
  { rewrite Hdb, lookup_after_completed in Hd'. congruence. }
  destruct (completed_fields (time w) document_id markdown n d) as [_ Hn].
  assert (Hcount : length stored = length chunk_iter).
  { rewrite Hstored, length_batch_rows. unfold batch.
    rewrite length_task_batch. lia. }
  assert (Hindex : chunk_index <$> stored = Z.of_nat <$> seq 0 (length chunk_iter)).
  { rewrite Hstored, batch_rows_chunk_index. unfold batch.
    rewrite task_batch_chunk_index. do 2 f_equal. lia. }
  split_and!.
  - rewrite Hd3, Hn, Hcount. done.
  - rewrite Hindex, Hd3, Hn. unfold seqZ, n. rewrite Nat2Z.id.
    apply list_fmap_ext. intros _ k _. lia.
  - rewrite Hstored, batch_rows_text. apply task_batch_text. lia.
  - rewrite Hstored.
    pose proof (accepted_embeddings p1 document_id batch Hall) as Hacc.
    rewrite <- (batch_rows_embedding (time w) document_id batch p1) in Hacc.
    rewrite Forall_fmap in Hacc.
    pose proof (batch_rows_embedding (time w) document_id batch p1) as Hemb.
    unfold batch in Hemb at 2. rewrite task_batch_embedding in Hemb by lia.
    apply Forall_forall. intros c Hc.
    rewrite Forall_forall in Hacc. specialize (Hacc c Hc). simpl in Hacc.
    apply (list_elem_of_fmap_2 embedding) in Hc. rewrite Hemb in Hc.
    apply list_elem_of_fmap in Hc as (v & Hv & _). eauto.
  - intros t. rewrite get_chunks_by_document_run. fold stored.
    rewrite merge_sort_sorted by (by eapply consecutive_index_lt).
    by rewrite drop_0, firstn_all.
Qed.

End PipelineClaims.

(** ** The properties at concrete inputs *)

Lemma unit_vectors_order : Float8Order unit_vectors.
Proof.
  split; simpl.
  - intros x y. rewrite !Z.leb_le. lia.
  - intros x y z. rewrite !Z.leb_le. lia.
Qed.

(** The status update on document 1 of the example database. *)
Lemma update_document_status_sets_witness :
  documents example_database !! 1 = Some (example_document 1 "a.pdf")
  ∧ ∃ d', update_document_status 1 FAILED (Some "conversion failed")
            (SessionLocal example_database 5)
          = (Ok (Some d'), SessionLocal (put_document 1 d' example_database) 5)
    ∧ status d' = FAILED
    ∧ completed_at d' = (if decide (FAILED = COMPLETED) then Some 5
                         else completed_at (example_document 1 "a.pdf"))
    ∧ error_message d' = Some "conversion failed"
    ∧ same_but_status_columns (example_document 1 "a.pdf") d'.
Proof.
  split; [vm_compute; reflexivity|].
  apply (update_document_status_sets (FL := unit_vectors) example_database 5 1
           FAILED (Some "conversion failed") (example_document 1 "a.pdf")).
  vm_compute; reflexivity.
Defined.

(** C7 as worded fails: a COMPLETED update that is given a message stores
    the message. *)
Lemma message_stored_with_completed :
  ¬ stores_message_only_when_failed example_database 5 1 COMPLETED
      (Some "late warning").
Proof.
  intros Hclaim.
  assert (Hd : documents example_database !! 1 = Some (example_document 1 "a.pdf"))
    by (vm_compute; reflexivity).
  destruct (Hclaim _ Hd) as (d' & s & Hrun & _ & _ & Hmsg).
  rewrite update_document_status_run, Hd in Hrun. cbv zeta in Hrun.
  assert (Hstored : d' = onupdate 5 (example_document 1 "a.pdf")
                           (status_assignments COMPLETED (Some "late warning") 5
                              (example_document 1 "a.pdf"))) by congruence.
  rewrite Hstored in Hmsg. vm_compute in Hmsg. discriminate.
Qed.

(** C4, at the input where the code breaks it.  No chunk of the example
    database belongs to a document 0, so for a search with [document_id=0]
    no chunk is eligible; the scope test [if document_id:] is false for 0,
    the search runs without scope and returns three rows: more rows than
    there are eligible chunks. *)
Lemma search_scope_zero_exceeds_eligible :
  eligible (FL := unit_vectors) (Some 0) example_database = []
  ∧ (∃ results,
       search_similar_chunks (FL := unit_vectors) (basis 1 0) (Passed 3%nat) (Some 0)
         (SessionLocal example_database 0)
       = (Ok results, SessionLocal example_database 0)
       ∧ length results = 3%nat)
  ∧ ¬ ordered_and_bounded (FL := unit_vectors) example_database 0 (basis 1 0) 3 (Some 0).
Proof.
  assert (Hrun := search_similar_chunks_run (FL := unit_vectors) example_database 0
                    (basis 1 0) (Passed 3%nat) (Some 0) ltac:(vm_compute; reflexivity)).
  split_and!.
  - vm_compute. reflexivity.
  - eexists. split; [exact Hrun|]. vm_compute. reflexivity.
  - intros (results & s & Hclaim & _ & _ & _ & Hle).
    rewrite Hrun in Hclaim. injection Hclaim as <- _.
    vm_compute in Hle. lia.
Qed.

(** C5, at the input where the code breaks it: with [document_id=0] the
    scope test [if document_id:] is false, so the search is the unscoped
    one; on the example database it returns three chunks, and none of them
    has [document_id] 0 (they belong to documents 1 and 2). *)
Lemma search_scope_zero_unscoped :
  search_similar_chunks (FL := unit_vectors) (basis 1 0) (Passed 3%nat) (Some 0)
    (SessionLocal example_database 0)
  = search_similar_chunks (FL := unit_vectors) (basis 1 0) (Passed 3%nat) None
      (SessionLocal example_database 0)
  ∧ ∃ results,
      search_similar_chunks (FL := unit_vectors) (basis 1 0) (Passed 3%nat) (Some 0)
        (SessionLocal example_database 0)
      = (Ok results, SessionLocal example_database 0)
      ∧ length results = 3%nat
      ∧ Forall (λ r, DocumentChunk_document_id r.1 ≠ 0) results.
Proof.
  split; [reflexivity|].
  eexists. split; [apply search_similar_chunks_run; vm_compute; reflexivity|].
  split; [vm_compute; reflexivity|].
  apply Forall_forall. intros r Hr.
  apply elem_of_take in Hr as (k & Hr%list_elem_of_lookup_2 & _).
  rewrite merge_sort_Permutation in Hr.
  apply similar_chunks_query_elem in Hr as [_ Hr]. revert Hr.
  generalize (r.1). apply Forall_forall.
  unfold example_database, example_chunk. cbn [chunks].
  repeat constructor; cbn [document_id]; discriminate.
Qed.

(** C9 as worded fails: the example database has seven chunks and a call
    without [limit] returns all seven. *)
Lemma omitted_limit_returns_seven :
  ¬ omitted_limit_is_5 example_database 0 (basis 1 0).
Proof.
  intros Hclaim.
  specialize (Hclaim _ _
    (search_similar_chunks_run (FL := unit_vectors) example_database 0 (basis 1 0)
       Omitted None ltac:(vm_compute; reflexivity))).
  vm_compute in Hclaim. lia.
Qed.

Lemma search_similar_chunks_default_limit_witness :
  length (basis 1 0) = VECTOR_DIM
  ∧ ∃ results retrieved,
      search_similar_chunks (FL := unit_vectors) (basis 1 0) Omitted None
        (SessionLocal example_database 0)
      = (Ok results, SessionLocal example_database 0)
      ∧ search_similar_chunks (FL := unit_vectors) (basis 1 0) Omitted None
          (SessionLocal example_database 0)
        = search_similar_chunks (FL := unit_vectors) (basis 1 0) (Passed 10%nat) None
            (SessionLocal example_database 0)
      ∧ (length results ≤ 10)%nat
      ∧ retrieve_context_search (FL := unit_vectors) (basis 1 0)
          (SessionLocal example_database 0)
        = (Ok retrieved, SessionLocal example_database 0)
      ∧ (length retrieved ≤ 5)%nat.
Proof.
  split; [vm_compute; reflexivity|].
  apply (search_similar_chunks_default_limit (FL := unit_vectors) example_database 0
           (basis 1 0) None).
  vm_compute; reflexivity.
Defined.



(** A run whose embeddings provider fails. *)
Lemma embedding_failure_marks_failed_witness :
  example_convert example_path = Ok "# Notes"
  ∧ example_chunker "# Notes" 512 = Ok example_chunks
  ∧ embed_rate_limited (docling_text <$> example_chunks)
    = Raise (ExternalError "rate limit exceeded")
  ∧ documents (database example_world) !! 3 = Some example_uploaded
  ∧ chunks_of 3 (database example_world) = []
  ∧ jobs_storage example_world !! "job-1" = Some example_job
  ∧ ∃ w' d' j',
      example_task embed_rate_limited = (Ok tt, w')
      ∧ documents (database w') !! 3 = Some d'
      ∧ status d' = FAILED
      ∧ error_message d'
        = Some (str (embedding_failure (ExternalError "rate limit exceeded")))
      ∧ chunks (database w') = chunks (database example_world)
      ∧ chunks_of 3 (database w') = []
      ∧ (example_path ∉ files w')
      ∧ jobs_storage w' !! "job-1" = Some j'
      ∧ job_status j' = "failed"
      ∧ job_error j'
        = Some (str (embedding_failure (ExternalError "rate limit exceeded"))).
Proof.
  split_and!; [vm_compute; reflexivity..|].
  apply (embedding_failure_marks_failed (FL := unit_vectors) string example_convert
           (λ doc, doc) example_chunker embed_rate_limited example_world "job-1" 3
           example_path "c.pdf" 512 "# Notes" example_chunks
           (ExternalError "rate limit exceeded") example_uploaded example_job);
    vm_compute; reflexivity.
Defined.

(** A run that succeeds. *)
Lemma completed_document_chunks_witness :
  (∀ texts vectors, embed_unit texts = Ok vectors → length vectors = length texts)
  ∧ documents (database example_world) !! 3 = Some example_uploaded
  ∧ status example_uploaded = PROCESSING
  ∧ chunks_of 3 (database example_world) = []
  ∧ documents (database (example_task embed_unit).2) !! 3 = Some example_completed
  ∧ status example_completed = COMPLETED
  ∧ let stored := chunks_of 3 (database (example_task embed_unit).2) in
    ∃ doc chunk_iter,
      example_convert example_path = Ok doc
      ∧ example_chunker doc 512 = Ok chunk_iter
      ∧ num_chunks example_completed = Z.of_nat (length stored)
      ∧ chunk_index <$> stored = seqZ 0 (num_chunks example_completed)
      ∧ text <$> stored = docling_text <$> chunk_iter
      ∧ Forall (λ c, ∃ v, embedding c = Some v ∧ length v = VECTOR_DIM) stored
      ∧ ∀ t, get_chunks_by_document 3 0 (length stored)
               (SessionLocal (database (example_task embed_unit).2) t)
             = (Ok stored, SessionLocal (database (example_task embed_unit).2) t).
Proof.
  assert (Hembedder : ∀ texts vectors,
            embed_unit texts = Ok vectors → length vectors = length texts).
  { intros texts vectors [= <-]. apply length_fmap. }
  split_and!; [exact Hembedder|vm_compute; reflexivity..|].
  apply (completed_document_chunks (FL := unit_vectors) string example_convert
           (λ doc, doc) example_chunker embed_unit example_world "job-1" 3
           example_path "c.pdf" 512 example_uploaded example_completed);
    [exact Hembedder|vm_compute; reflexivity..].
Defined.

(** C6, at the input where the code breaks it: the embedder answers with
    3-component vectors.  The content update is committed, the batch is
    rejected, and the handler's status update raises
    [PendingRollbackError]: the task ends with that exception, the document
    is still PROCESSING without error message (with [num_chunks] 2 and no
    chunk), the temporary file is still there and the job entry is still
    the one the upload made. *)
Lemma rejected_batch_not_marked_failed :
  ∃ w' d',
    example_task embed_short
    = (Raise (PendingRollbackError "expected 1536 dimensions, not 3"), w')
    ∧ documents (database w') !! 3 = Some d'
    ∧ status d' = PROCESSING
    ∧ error_message d' = None
    ∧ num_chunks d' = 2
    ∧ chunks_of 3 (database w') = []
    ∧ example_path ∈ files w'
    ∧ jobs_storage w' !! "job-1" = Some example_job.
Proof.
  exists (example_task embed_short).2,
    (mkDocument (Some 3) "c.pdf" ".pdf" 1000 PROCESSING None (Some "# Notes")
       (Some 7) 2 512 "text-embedding-3-small" 1536 (Some 9) (Some 10) None []).
  split.
  { rewrite (surjective_pairing (example_task embed_short)) at 1.
    f_equal; vm_compute; reflexivity. }
  split_and!; vm_compute; reflexivity.
Qed.

(** * Further properties of the repository *)

Local Open Scope list_scope.

Section SortedPages.
Context {A : Type} (R : relation A) `{!RelDecision R, !Total R, !Transitive R}.

(** A page [take limit (drop skip ...)] of a sorted result. *)
Lemma page_sorted (l : list A) (skip limit : nat) :
  StronglySorted R (take limit (drop skip (merge_sort R l))).
Proof.
  assert (Hs : StronglySorted R (merge_sort R l))
    by (apply StronglySorted_merge_sort; apply _).
  rewrite <- (take_drop skip (merge_sort R l)) in Hs.
  apply StronglySorted_app_1_r in Hs.
  rewrite <- (take_drop limit (drop skip (merge_sort R l))) in Hs.
  by apply StronglySorted_app_1_l in Hs.
Qed.

Lemma page_elem_of (l : list A) (skip limit : nat) (x : A) :
  x ∈ take limit (drop skip (merge_sort R l)) → x ∈ l.
Proof.
  intros Hx. rewrite <- (merge_sort_Permutation R l).
  eapply elem_of_submseteq; [exact Hx|].
  etrans; [apply sublist_submseteq, sublist_take|].
  apply sublist_submseteq, sublist_drop.
Qed.

Lemma length_page (l : list A) (skip limit : nat) :
  length (take limit (drop skip (merge_sort R l))) = (limit `min` (length l - skip))%nat.
Proof. by rewrite length_take, length_drop, merge_sort_Permutation. Qed.

Lemma first_page_all (l : list A) (limit : nat) :
  (length l ≤ limit)%nat → take limit (drop 0 (merge_sort R l)) ≡ₚ l.
Proof.
  intros Hle. rewrite drop_0, take_ge.
  - apply merge_sort_Permutation.
  - by rewrite merge_sort_Permutation.
Qed.

End SortedPages.

Section RepositoryReads.
Context `{FL : Float8}.

Global Instance desc_created_at_total : Total desc_created_at.
Proof.
  intros d1 d2. unfold desc_created_at.
  destruct (Document_created_at d1), (Document_created_at d2); auto. lia.
Qed.

Global Instance desc_created_at_trans : Transitive desc_created_at.
Proof.
  intros d1 d2 d3. unfold desc_created_at.
  destruct (Document_created_at d1), (Document_created_at d2),
    (Document_created_at d3); auto; try done. lia.
Qed.

Lemma truthy_status_Some (st : DocumentStatus) : truthy_status (Some st) = true.
Proof. by destruct st. Qed.

Lemma documents_query_with (status : option DocumentStatus) (p : Database) :
  documents_query status p = documents_with status p.
Proof.
  destruct status as [st|]; [|done].
  unfold documents_query, documents_with. rewrite truthy_status_Some.
  apply list_filter_iff. intros d. split; [by intros [= ->]|by intros ->].
Qed.

Lemma elem_of_documents_with (status : option DocumentStatus) (p : Database)
    (d : Document) :
  d ∈ documents_with status p ↔
  (∃ i, documents p !! i = Some d) ∧ ∀ st, status = Some st → Document_status d = st.
Proof.
  assert (Hrows : d ∈ (map_to_list (documents p)).*2 ↔ ∃ i, documents p !! i = Some d).
  { rewrite list_elem_of_fmap. split.
    - intros ([i d'] & -> & Hin). exists i. by apply elem_of_map_to_list.
    - intros [i Hi]. exists (i, d). split; [done|]. by apply elem_of_map_to_list. }
  destruct status as [st|]; simpl.
  - rewrite list_elem_of_filter, Hrows. split.
    + intros [Hst Hd]. split; [done|]. by intros ? [= <-].
    + intros [Hd Hst]. split; [|done]. by apply Hst.
  - rewrite Hrows. split; [|tauto]. intros Hd. split; [done|]. by intros.
Qed.

(** X1.  [get_all_documents] leaves the database as it is and returns a page
    of at most [limit] documents, newest first ([created_at] descending);
    every document of the page is a stored row, and has the requested status
    when one is given. *)
Theorem get_all_documents_page (p : Database) (t : Z) (skip limit : nat)
    (status : option DocumentStatus) :
  ∃ page,
    get_all_documents skip limit status (SessionLocal p t) = (Ok page, SessionLocal p t)
    ∧ (length page ≤ limit)%nat
    ∧ StronglySorted desc_created_at page
    ∧ Forall (λ d, (∃ i, documents p !! i = Some d)
                   ∧ ∀ st, status = Some st → Document_status d = st) page.
Proof.
  eexists. split; [reflexivity|]. cbn [pending SessionLocal].
  rewrite documents_query_with. split_and!.
  - rewrite length_take. lia.
  - apply page_sorted; apply _.
  - apply Forall_forall. intros d Hd. apply elem_of_documents_with.
    by apply page_elem_of in Hd.
Qed.

(** X2.  [get_document_count] is the number of stored documents (with the
    given status, when one is given), and the pages of [get_all_documents]
    fit it: a page holds [min limit (total - skip)] documents, and a first
    page with room for [total] documents holds every one of them. *)
Theorem get_document_count_pages (p : Database) (t : Z) (skip limit : nat)
    (status : option DocumentStatus) :
  ∃ total page,
    get_document_count status (SessionLocal p t) = (Ok total, SessionLocal p t)
    ∧ get_all_documents skip limit status (SessionLocal p t) = (Ok page, SessionLocal p t)
    ∧ total = Z.of_nat (length (documents_with status p))
    ∧ (status = None → total = Z.of_nat (size (documents p)))
    ∧ length page = (limit `min` (Z.to_nat total - skip))%nat
    ∧ (skip = 0%nat → total ≤ Z.of_nat limit → page ≡ₚ documents_with status p).
Proof.
  eexists _, _. split; [reflexivity|]. split; [reflexivity|].
  cbn [pending SessionLocal]. rewrite documents_query_with. split_and!.
  - done.
  - intros ->. simpl. by rewrite length_fmap, length_map_to_list.
  - by rewrite length_page, Nat2Z.id.
  - intros -> Hle. apply first_page_all. lia.
Qed.

Lemma chunks_query_scope (p : Database) (document_id : option Z) :
  chunks_query document_id p =
  match document_id with
  | Some d => if decide (d = 0) then chunks p else chunks_of d p
  | None => chunks p
  end.
Proof.
  unfold chunks_query, chunks_of. destruct document_id as [d|]; simpl; [|done].
  destruct (decide (d = 0)) as [->|Hd]; [done|].
  rewrite (proj2 (Z.eqb_neq d 0) Hd). simpl.
  apply list_filter_iff. intros c. split; [by intros [= ->]|by intros ->].
Qed.

(** X3.  [get_chunk_count] with a document id other than 0 is the number
    of chunks of that document, which is also the number of rows
    [get_chunks_by_document] returns for a limit that large; without an id,
    and with the id 0 (which the test [if document_id:] takes for no id), it
    is the number of all chunks. *)
Theorem get_chunk_count_scope (p : Database) (t : Z) (document_id : option Z) :
  ∃ total,
    get_chunk_count document_id (SessionLocal p t) = (Ok total, SessionLocal p t)
    ∧ (document_id = None ∨ document_id = Some 0 →
       total = Z.of_nat (length (chunks p)))
    ∧ ∀ d, document_id = Some d → d ≠ 0 →
        total = Z.of_nat (length (chunks_of d p))
        ∧ ∃ rows,
            get_chunks_by_document d 0 (Z.to_nat total) (SessionLocal p t)
            = (Ok rows, SessionLocal p t)
            ∧ rows ≡ₚ chunks_of d p.
Proof.
  eexists. split; [reflexivity|]. cbn [pending SessionLocal].
  rewrite chunks_query_scope. split.
  - by intros [-> | ->].
  - intros d -> Hd. rewrite decide_False by done. split; [done|].
    eexists. split; [reflexivity|]. cbn [pending SessionLocal].
    apply first_page_all; [apply _..|]. unfold chunks_of. lia.
Qed.

(** X4.  [get_chunks_by_document] leaves the database as it is and returns
    a page of [min limit (n - skip)] chunks, where [n] is the number of
    chunks of the document, in ascending [chunk_index]; every chunk of the
    page is a stored chunk of that document. *)
Theorem get_chunks_by_document_page (p : Database) (t document_id : Z)
    (skip limit : nat) :
  ∃ page,
    get_chunks_by_document document_id skip limit (SessionLocal p t)
    = (Ok page, SessionLocal p t)
    ∧ length page = (limit `min` (length (chunks_of document_id p) - skip))%nat
    ∧ StronglySorted asc_chunk_index page
    ∧ Forall (λ c, c ∈ chunks p ∧ DocumentChunk_document_id c = document_id) page.
Proof.
  eexists. split; [apply get_chunks_by_document_run|]. split_and!.
  - apply length_page.
  - apply page_sorted; apply _.
  - apply Forall_forall. intros c Hc. apply page_elem_of in Hc.
    unfold chunks_of in Hc. by apply list_elem_of_filter in Hc as [? ?].
Qed.

End RepositoryReads.

Section RepositoryWrites.
Context `{FL : Float8}.

Lemma flush_same_documents (p : Database) (cs : list DocumentChunk) (a b : Z)
    (re : option string) (t : Z) :
  flush (mkSession p (mkDatabase (documents p) cs a b) re t)
  = mkDatabase (documents p) cs a b.
Proof. unfold flush. simpl. by rewrite flush_unchanged. Qed.



(** X6.  For an id no document has, the two updates of the repository
    return [None] and the update route answers 404; none of them changes
    the database. *)
Theorem updates_of_missing_document (p : Database) (t document_id : Z)
    (st : DocumentStatus) (msg : option string) (content : string)
    (length_ n : Z) (update_data : UpdateDocumentRequest) :
  documents p !! document_id = None →
  update_document_status document_id st msg (SessionLocal p t)
  = (Ok None, SessionLocal p t)
  ∧ update_document_content document_id content length_ n (SessionLocal p t)
    = (Ok None, SessionLocal p t)
  ∧ update_document document_id update_data (SessionLocal p t)
    = (Raise (HTTPException 404 "Document not found"), SessionLocal p t).
Proof.
  intros Hd.
  by rewrite update_document_status_run, update_document_content_run,
    update_document_run, Hd.
Qed.

(** *** Chunks, one at a time *)

Lemma filter_filter_ne (i j : Z) (l : list DocumentChunk) :
  j ≠ i →
  filter (λ c, DocumentChunk_document_id c = j)
    (filter (λ c, DocumentChunk_document_id c ≠ i) l)
  = filter (λ c, DocumentChunk_document_id c = j) l.
Proof.
  intros Hne. rewrite list_filter_filter. apply list_filter_iff.
  intros c. split; [by intros [? ?]|]. intros ->. by split.
Qed.

Lemma filter_filter_eq (i : Z) (l : list DocumentChunk) :
  filter (λ c, DocumentChunk_document_id c = i)
    (filter (λ c, DocumentChunk_document_id c ≠ i) l) = [].
Proof.
  rewrite list_filter_filter. induction l as [|c l IH]; [done|].
  rewrite filter_cons. by rewrite decide_False by (by intros [? ?]).
Qed.

Lemma delete_chunks_by_document_run (p : Database) (t i : Z) :
  delete_chunks_by_document i (SessionLocal p t) =
  (Ok (Z.of_nat (length (chunks_of i p))),
   SessionLocal (mkDatabase (documents p)
                   (filter (λ c, DocumentChunk_document_id c ≠ i) (chunks p))
                   (next_document_id p) (next_chunk_id p)) t).
Proof.
  unfold delete_chunks_by_document, query_delete_chunks, bind, commit,
    assert_active, modify, ret, set_pending, SessionLocal. simpl.
  by rewrite flush_same_documents.
Qed.

(** X7.  [delete_chunks_by_document] returns the number of chunks the
    document had and removes exactly those: afterwards
    [get_chunks_by_document] returns nothing for the document, while the
    chunks of every other document and the whole document table stay as they
    were, the document's [num_chunks] included. *)
Theorem delete_chunks_by_document_removes (p : Database) (t document_id : Z) :
  ∃ p',
    delete_chunks_by_document document_id (SessionLocal p t)
    = (Ok (Z.of_nat (length (chunks_of document_id p))), SessionLocal p' t)
    ∧ (∀ skip limit,
         get_chunks_by_document document_id skip limit (SessionLocal p' t)
         = (Ok [], SessionLocal p' t))
    ∧ chunks p' = filter (λ c, DocumentChunk_document_id c ≠ document_id) (chunks p)
    ∧ (∀ j, j ≠ document_id → chunks_of j p' = chunks_of j p)
    ∧ documents p' = documents p.
Proof.
  eexists. split; [apply delete_chunks_by_document_run|]. split_and!; try done.
  - intros skip limit. rewrite get_chunks_by_document_run. unfold chunks_of.
    cbn [chunks]. rewrite filter_filter_eq. cbn. by rewrite drop_nil, take_nil.
  - intros j Hj. unfold chunks_of. cbn [chunks]. by apply filter_filter_ne.
Qed.

Lemma commit_appended (p : Database) (t : Z) (rows : list DocumentChunk) :
  commit (mkSession p (add_chunks rows p) None t)
  = (Ok tt, SessionLocal (add_chunks rows p) t).
Proof.
  unfold commit, bind, assert_active, modify, SessionLocal, add_chunks. simpl.
  by rewrite flush_same_documents.
Qed.


Lemma integrity_fresh_chunk (p : Database) :
  integrity p → Forall (λ c, DocumentChunk_id c ≠ Some (next_chunk_id p)) (chunks p).
Proof.
  intros (_ & Hchunks & _). eapply Forall_impl; [exact Hchunks|].
  intros c ((pk & Hpk & Hlt) & _) Heq. rewrite Hpk in Heq. injection Heq. lia.
Qed.

Lemma integrity_fresh_document (p : Database) :
  integrity p → documents p !! next_document_id p = None.
Proof.
  intros (Hdocs & _). destruct (documents p !! next_document_id p) as [d|] eqn:Hd;
    [|done].
  destruct (Hdocs _ _ Hd) as (_ & _ & Hlt). lia.
Qed.

Lemma create_chunk_run (p : Database) (t i idx : Z) (text : string)
    (v : list float) (meta : option Json) :
  let c := mkDocumentChunk None i idx text (len text) (Some v) (default [] meta) None in
  create_chunk i idx text v meta (SessionLocal p t) =
  match check_chunk p c with
  | Some e => (Raise e, mkSession p p (Some (str e)) t)
  | None =>
      let row := stored_row (next_chunk_id p) t c in
      match head (filter (λ c, DocumentChunk_id c = Some (next_chunk_id p))
                    (chunks p ++ [row])%list) with
      | Some found => (Ok found, SessionLocal (add_chunks [row] p) t)
      | None => (Raise (ExternalError "Could not refresh instance"),
                 SessionLocal (add_chunks [row] p) t)
      end
  end.
Proof.
  intros c. unfold create_chunk. fold c.
  unfold bind at 1. unfold add_chunk, bind at 1. simpl.
  unfold insert_chunk. simpl.
  destruct (check_chunk p c) as [e|] eqn:Hc; [done|].
  unfold bind at 1.
  change (set_pending _ (SessionLocal p t))
    with (mkSession p (add_chunks [stored_row (next_chunk_id p) t c] p) None t).
  rewrite commit_appended.
  unfold refresh_chunk, stored_row, query_chunk_first, bind, assert_active, gets,
    ret, raise. simpl.
  by destruct (head _).
Qed.


(** X9.  [create_chunk] with an embedding that has not 1536 components,
    or for a document that does not exist, raises (the INSERT is
    rejected) and stores nothing. *)
Theorem create_chunk_rejected (p : Database) (t i idx : Z)
    (txt : string) (v : list float) (meta : option Json) :
  length v ≠ VECTOR_DIM ∨ documents p !! i = None →
  ∃ e s,
    create_chunk i idx txt v meta (SessionLocal p t)
    = (Raise e, s)
    ∧ committed s = p
    ∧ pending s = p
    ∧ (length v ≠ VECTOR_DIM →
       e = StatementError ("expected 1536 dimensions, not " +:+ pretty (length v)))
    ∧ (length v = VECTOR_DIM →
       e = IntegrityError "insert on document_chunks violates foreign key constraint").
Proof.
  intros Hbad. rewrite create_chunk_run. cbv zeta.
  unfold check_chunk. cbn [embedding document_id].
  destruct (decide (length v = VECTOR_DIM)) as [Hlen|Hlen].
  - destruct Hbad as [Hbad|Hbad]; [done|]. rewrite Hbad.
    eexists _, _. split; [reflexivity|]. by split_and!.
  - eexists _, _. split; [reflexivity|]. by split_and!.
Qed.

Lemma delete_chunk_run (p : Database) (t k : Z) :
  delete_chunk k (SessionLocal p t) =
  match head (filter (λ c, DocumentChunk_id c = Some k) (chunks p)) with
  | Some _ =>
      (Ok true,
       SessionLocal (mkDatabase (documents p)
                       (filter (λ c, DocumentChunk_id c ≠ Some k) (chunks p))
                       (next_document_id p) (next_chunk_id p)) t)
  | None => (Ok false, SessionLocal p t)
  end.
Proof.
  unfold delete_chunk, get_chunk, query_chunk_first. unfold bind at 1.
  unfold bind at 1. unfold assert_active, gets. simpl.
  destruct (head _) as [c|]; [|done].
  unfold delete_chunk_row, bind, commit, assert_active, modify, ret, set_pending,
    SessionLocal. simpl.
  by rewrite flush_same_documents.
Qed.

Lemma filter_pk_none (k : Z) (l : list DocumentChunk) :
  filter (λ c, DocumentChunk_id c = Some k)
    (filter (λ c, DocumentChunk_id c ≠ Some k) l) = [].
Proof.
  rewrite list_filter_filter. induction l as [|c l IH]; [done|].
  rewrite filter_cons. by rewrite decide_False by (by intros [? ?]).
Qed.

(** X10.  [delete_chunk] returns whether a chunk has the key; afterwards
    [get_chunk] finds nothing under it; the chunks with another key stay,
    in their order, and the document table is as it was (so the
    document's [num_chunks] is not adjusted). *)
Theorem delete_chunk_removes (p : Database) (t chunk_id : Z) :
  ∃ found p',
    delete_chunk chunk_id (SessionLocal p t) = (Ok found, SessionLocal p' t)
    ∧ (found = true ↔ ∃ c, c ∈ chunks p ∧ DocumentChunk_id c = Some chunk_id)
    ∧ get_chunk chunk_id (SessionLocal p' t) = (Ok None, SessionLocal p' t)
    ∧ chunks p' = filter (λ c, DocumentChunk_id c ≠ Some chunk_id) (chunks p)
    ∧ documents p' = documents p.
Proof.
  rewrite delete_chunk_run.
  destruct (head (filter (λ c, DocumentChunk_id c = Some chunk_id) (chunks p)))
    as [c|] eqn:Hhead.
  - eexists _, _. split; [reflexivity|]. split_and!; try done.
    + split; [|done]. intros _. exists c.
      apply head_Some_elem_of in Hhead. by apply list_elem_of_filter in Hhead as [? ?].
    + unfold get_chunk, query_chunk_first, bind, assert_active, gets. simpl.
      by rewrite filter_pk_none.
  - apply head_None in Hhead.
    assert (Hall : Forall (λ c, DocumentChunk_id c ≠ Some chunk_id) (chunks p)).
    { apply Forall_forall. intros c Hc Hk.
      assert (Hin : c ∈ filter (λ c, DocumentChunk_id c = Some chunk_id) (chunks p))
        by by apply list_elem_of_filter.
      rewrite Hhead in Hin. by apply elem_of_nil in Hin. }
    eexists _, _. split; [reflexivity|]. split_and!; try done.
    + split; [done|]. intros (c & Hc & Hk).
      by eapply Forall_forall in Hall; [|exact Hc].
    + unfold get_chunk, query_chunk_first, bind, assert_active, gets. simpl.
      by rewrite Hhead.
    + symmetry. by apply filter_all.
Qed.

End RepositoryWrites.

(** ** The constraints of the schema are kept *)

Section Integrity.
Context `{FL : Float8}.

Lemma commit_run (c p : Database) (t : Z) :
  commit (mkSession c p None t)
  = (Ok tt, SessionLocal (flush (mkSession c p None t)) t).
Proof. reflexivity. Qed.

Lemma check_document_fits (f e : string) (sz cs : Z) (meta : Json) :
  fits_columns f e sz cs →
  check_document
    (mkDocument None f e sz PROCESSING None None None 0 cs "text-embedding-3-small"
       1536 None None None meta) = None.
Proof.
  intros (Hf & He & Hsz & Hcs). unfold check_document.
  cbn [filename file_extension embedding_model file_size markdown_length num_chunks
       chunk_size embedding_dimension].
  rewrite (decide_False (P := (255 < String.length f)%nat)) by lia.
  rewrite (decide_False (P := (10 < String.length e)%nat)) by lia.
  rewrite (decide_False (P := (100 < String.length "text-embedding-3-small")%nat))
    by (cbn; lia).
  rewrite decide_True; [done|]. unfold fits_Integer in *. cbn. repeat split; lia.
Qed.

Lemma check_document_misfit (f e : string) (sz cs : Z) (meta : Json) :
  ¬ fits_columns f e sz cs →
  ∃ msg,
    check_document
      (mkDocument None f e sz PROCESSING None None None 0 cs "text-embedding-3-small"
         1536 None None None meta) = Some (StatementError msg).
Proof.
  intros Hbad. unfold check_document.
  cbn [filename file_extension embedding_model file_size markdown_length num_chunks
       chunk_size embedding_dimension].
  destruct (decide (255 < String.length f)%nat); [by eexists|].
  destruct (decide (10 < String.length e)%nat); [by eexists|].
  destruct (decide (100 < String.length "text-embedding-3-small")%nat); [by eexists|].
  case_decide as Hfit; [|by eexists].
  exfalso. apply Hbad. destruct Hfit as (Hsz & _ & _ & Hcs & _).
  unfold fits_columns. split_and!; [lia|lia|done|done].
Qed.

Lemma create_document_run (p : Database) (t : Z) (f e : string) (sz cs : Z)
    (meta : option Json) :
  fits_columns f e sz cs →
  documents p !! next_document_id p = None →
  create_document f e sz cs meta (SessionLocal p t) =
  let row := new_document_row (next_document_id p) t f e sz cs meta in
  (Ok (next_document_id p, row), SessionLocal (add_document_row row p) t).
Proof.
  intros Hfit Hnew. unfold create_document. unfold bind at 1. unfold add_document.
  rewrite (check_document_fits f e sz cs _ Hfit).
  cbn [pending SessionLocal now set_pending committed rollback_exception].
  set (row := set_created_at _ _).
  assert (Hflush :
    flush (mkSession p (mkDatabase (<[next_document_id p := row]> (documents p))
                          (chunks p) (next_document_id p + 1) (next_chunk_id p)) None t)
    = add_document_row row p).
  { unfold flush, add_document_row. cbn [pending committed now documents chunks
      next_document_id next_chunk_id]. f_equal.
    apply map_eq. intros j. rewrite map_lookup_imap.
    destruct (decide (next_document_id p = j)) as [<-|Hne].
    - rewrite lookup_insert_eq. simpl. unfold flush_document. by rewrite Hnew.
    - rewrite lookup_insert_ne by done.
      destruct (documents p !! j) as [dj|] eqn:E; simpl; [|done].
      unfold flush_document. by rewrite E, onupdate_same. }
  unfold bind at 1. unfold set_pending, SessionLocal.
  cbn [committed rollback_exception now]. rewrite commit_run, Hflush.
  unfold refresh, query_document_first, bind, assert_active, gets. simpl.
  by rewrite lookup_insert_eq.
Qed.

(** A row that does not fit its columns is rejected: nothing is stored. *)
Lemma create_document_rejected (p : Database) (t : Z) (f e : string) (sz cs : Z)
    (meta : option Json) :
  ¬ fits_columns f e sz cs →
  ∃ msg,
    create_document f e sz cs meta (SessionLocal p t)
    = (Raise (StatementError msg), mkSession p p (Some msg) t).
Proof.
  intros Hbad. destruct (check_document_misfit f e sz cs (default [] meta) Hbad)
    as [msg Hmsg].
  exists msg. unfold create_document. unfold bind at 1. unfold add_document.
  by rewrite Hmsg.
Qed.

Global Instance fits_columns_dec (f e : string) (sz cs : Z) :
  Decision (fits_columns f e sz cs).
Proof. unfold fits_columns. apply _. Defined.

Lemma integrity_put_document (p : Database) (i : Z) (d d' : Document) :
  integrity p → documents p !! i = Some d →
  id d' = id d → created_at d' = created_at d →
  integrity (put_document i d' p).
Proof.
  intros (Hdocs & Hchunks & Hpk) Hd Hid Hcreated. split_and!; [| |done].
  - intros j dj. cbn [put_document documents]. rewrite lookup_insert_Some.
    intros [[<- <-] | [Hne Hj]].
    + destruct (Hdocs _ _ Hd) as (? & ? & ?). unfold document_row_ok.
      rewrite Hid, Hcreated. by split_and!.
    + by apply Hdocs.
  - eapply Forall_impl; [exact Hchunks|]. intros c (Hc & Hfk & Ht).
    split_and!; [done| |done]. cbn [put_document documents].
    destruct (decide (i = DocumentChunk_document_id c)) as [<-|Hne].
    + by rewrite lookup_insert_eq.
    + by rewrite lookup_insert_ne.
Qed.

Lemma onupdate_keys (t : Z) (d d1 : Document) :
  id d1 = id d → created_at d1 = created_at d →
  id (onupdate t d d1) = id d ∧ created_at (onupdate t d d1) = created_at d.
Proof. intros Hid Hc. by destruct (onupdate_cases t d d1) as [-> | ->]. Qed.

Lemma integrity_content (p : Database) (t i : Z) (d : Document) (content : string)
    (length_ n : Z) :
  integrity p → documents p !! i = Some d →
  integrity (put_document i (onupdate t d (content_assignments content length_ n d)) p).
Proof.
  intros Hp Hd.
  destruct (onupdate_keys t d (content_assignments content length_ n d)) as [? ?];
    [done..|].
  by eapply integrity_put_document.
Qed.

Lemma integrity_status (p : Database) (t i : Z) (d : Document) (st : DocumentStatus)
    (msg : option string) :
  integrity p → documents p !! i = Some d →
  integrity (put_document i (onupdate t d (status_assignments st msg t d)) p).
Proof.
  intros Hp Hd.
  destruct (onupdate_keys t d (status_assignments st msg t d)) as [? ?].
  { unfold status_assignments. by case_decide. }
  { unfold status_assignments. by case_decide. }
  by eapply integrity_put_document.
Qed.

Lemma check_chunk_document (p : Database) (c : DocumentChunk) :
  check_chunk p c = None → is_Some (documents p !! DocumentChunk_document_id c).
Proof.
  unfold check_chunk. intros Hc.
  destruct (documents p !! DocumentChunk_document_id c); [done|].
  destruct (DocumentChunk_embedding c); [case_decide|]; done.
Qed.

Lemma integrity_add_chunk (p : Database) (t : Z) (c : DocumentChunk) :
  integrity p → check_chunk p c = None →
  integrity (add_chunks [stored_row (next_chunk_id p) t c] p).
Proof.
  intros Hp Hc. pose proof (integrity_fresh_chunk p Hp) as Hfresh.
  destruct Hp as (Hdocs & Hchunks & Hpk). split_and!.
  - intros j dj Hj. destruct (Hdocs _ _ Hj) as (? & ? & ?). by split_and!.
  - cbn [add_chunks chunks]. apply Forall_app. split.
    + eapply Forall_impl; [exact Hchunks|].
      intros c' ((pk & Hpk' & Hlt) & Hfk & Ht). split_and!; [|done..].
      exists pk. split; [done|]. cbn [add_chunks next_chunk_id length]. lia.
    + apply Forall_singleton. split_and!.
      * exists (next_chunk_id p). split; [done|]. cbn [add_chunks next_chunk_id length]. lia.
      * by apply check_chunk_document.
      * done.
  - cbn [add_chunks chunks]. rewrite fmap_app. apply NoDup_app. split_and!.
    + done.
    + intros k Hk Hin. apply list_elem_of_fmap in Hk as (c' & -> & Hc').
      apply list_elem_of_singleton in Hin.
      by eapply Forall_forall in Hfresh; [|exact Hc'].
    + apply NoDup_singleton.
Qed.

Lemma add_chunks_cons (p : Database) (r : DocumentChunk) (rows : list DocumentChunk) :
  add_chunks (r :: rows) p = add_chunks rows (add_chunks [r] p).
Proof.
  unfold add_chunks. cbn [documents chunks next_document_id next_chunk_id length].
  f_equal; [by rewrite <- app_assoc | lia].
Qed.

Lemma integrity_add_chunks (cs : list DocumentChunk) :
  ∀ (p : Database) (t : Z),
    integrity p → Forall (λ c, check_chunk p c = None) cs →
    integrity (add_chunks (saved_rows (next_chunk_id p) t cs) p).
Proof.
  induction cs as [|c cs IH]; intros p t Hp Hall.
  - simpl. unfold add_chunks. simpl. by rewrite app_nil_r, Z.add_0_r, Database_eta.
  - apply Forall_cons_1 in Hall as [Hc Hcs]. cbn [saved_rows].
    rewrite add_chunks_cons.
    pose proof (integrity_add_chunk p t c Hp Hc) as Hp1.
    specialize (IH (add_chunks [stored_row (next_chunk_id p) t c] p) t Hp1).
    cbn [add_chunks next_chunk_id length] in IH.
    change (Z.of_nat 1) with 1 in IH. apply IH.
    eapply Forall_impl; [exact Hcs|]. intros c' Hc'. simpl in *.
    rewrite <- Hc'. by apply check_chunk_documents.
Qed.

Lemma integrity_filter_chunks (p : Database) (P : DocumentChunk → Prop)
    `{∀ c, Decision (P c)} :
  integrity p →
  integrity (mkDatabase (documents p) (filter P (chunks p)) (next_document_id p)
               (next_chunk_id p)).
Proof.
  intros (Hdocs & Hchunks & Hpk). split_and!.
  - done.
  - cbn [chunks]. apply Forall_forall. intros c Hc.
    apply list_elem_of_filter in Hc as [_ Hc].
    by eapply Forall_forall in Hchunks; [|exact Hc].
  - cbn [chunks]. eapply sublist_NoDup; [exact Hpk|].
    apply fmap_sublist, sublist_filter.
Qed.

Lemma integrity_delete_document (p : Database) (i : Z) :
  integrity p →
  integrity (mkDatabase (delete i (documents p))
               (filter (λ c, DocumentChunk_document_id c ≠ i) (chunks p))
               (next_document_id p) (next_chunk_id p)).
Proof.
  intros (Hdocs & Hchunks & Hpk). split_and!.
  - intros j dj. cbn [documents]. rewrite lookup_delete_Some. intros [_ Hj].
    by apply Hdocs.
  - cbn [chunks]. apply Forall_forall. intros c Hc.
    apply list_elem_of_filter in Hc as [Hne Hc].
    eapply Forall_forall in Hchunks; [|exact Hc].
    destruct Hchunks as (? & ? & ?). split_and!; [done| |done].
    cbn [documents]. by rewrite lookup_delete_ne.
  - cbn [chunks]. eapply sublist_NoDup; [exact Hpk|].
    apply fmap_sublist, sublist_filter.
Qed.

Lemma integrity_add_document_row (p : Database) (t : Z) (f e : string) (sz cs : Z)
    (meta : option Json) :
  integrity p →
  integrity (add_document_row
               (new_document_row (next_document_id p) t f e sz cs meta) p).
Proof.
  intros (Hdocs & Hchunks & Hpk). split_and!; [| |done].
  - intros j dj. cbn [add_document_row documents]. rewrite lookup_insert_Some.
    intros [[<- <-] | [Hne Hj]].
    + unfold document_row_ok, new_document_row.
      cbn [id created_at add_document_row next_document_id]. split_and!; [done..|lia].
    + destruct (Hdocs _ _ Hj) as (? & ? & ?). unfold document_row_ok.
      cbn [add_document_row next_document_id]. split_and!; [done..|lia].
  - eapply Forall_impl; [exact Hchunks|]. intros c (Hc & Hfk & Ht).
    split_and!; [done| |done]. cbn [add_document_row documents].
    destruct (decide (next_document_id p = DocumentChunk_document_id c)) as [<-|Hne].
    + by rewrite lookup_insert_eq.
    + by rewrite lookup_insert_ne.
Qed.

Lemma integrity_no_chunks (p : Database) (i : Z) :
  integrity p → documents p !! i = None → chunks_of i p = [].
Proof.
  intros (_ & Hchunks & _) Hnone. unfold chunks_of.
  induction Hchunks as [|c l Hc Hl IH]; [done|].
  rewrite filter_cons. destruct Hc as (_ & [d Hd] & _).
  rewrite decide_False; [done|]. intros <-. congruence.
Qed.

(** X11.  In a database that satisfies its constraints, [create_document]
    with values that fit their columns (a name of at most 255 characters,
    an extension of at most 10, sizes in the range of [Integer]) stores one
    new row under the next id and returns it: the row has the given name,
    extension, sizes and metadata, the status PROCESSING, no content,
    [num_chunks] 0, and the time of the call as [created_at];
    [get_document] with the returned id finds it; the document has no
    chunks; no document had the id before, and the other documents and all
    chunks are untouched. *)
Theorem create_document_get_document (p : Database) (t : Z) (f e : string)
    (sz cs : Z) (meta : option Json) :
  integrity p →
  (String.length f ≤ 255)%nat →
  (String.length e ≤ 10)%nat →
  -2147483648 ≤ sz ≤ 2147483647 →
  -2147483648 ≤ cs ≤ 2147483647 →
  ∃ i row p',
    create_document f e sz cs meta (SessionLocal p t) = (Ok (i, row), SessionLocal p' t)
    ∧ get_document i (SessionLocal p' t) = (Ok (Some row), SessionLocal p' t)
    ∧ row = mkDocument (Some i) f e sz PROCESSING None None None 0 cs
              "text-embedding-3-small" 1536 (Some t) None None (default [] meta)
    ∧ documents p !! i = None
    ∧ chunks_of i p' = []
    ∧ (∀ j, j ≠ i → documents p' !! j = documents p !! j)
    ∧ chunks p' = chunks p.
Proof.
  intros Hp Hf He Hsz Hcs. pose proof (integrity_fresh_document p Hp) as Hnew.
  rewrite create_document_run by done. cbv zeta.
  eexists _, _, _. split; [reflexivity|]. split_and!; try done.
  - rewrite get_document_run. cbn [add_document_row documents].
    by rewrite lookup_insert_eq.
  - by apply (integrity_no_chunks p).
  - intros j Hj. cbn [add_document_row documents]. by rewrite lookup_insert_ne.
Qed.

Lemma after_write_integrity (p : Database) (request : Write * Z) :
  integrity p → integrity (after_write p request).
Proof.
  intros Hp. destruct request as [call t]. unfold after_write. cbn [fst snd].
  destruct call as [f e sz cs meta|i st msg|i content length_ n|i|i idx txt v meta
                   |i batch|k|i]; unfold run_write, bind.
  - destruct (decide (fits_columns f e sz cs)) as [Hfit|Hbad].
    + rewrite create_document_run; [|done|by apply integrity_fresh_document].
      by apply integrity_add_document_row.
    + by destruct (create_document_rejected p t f e sz cs meta Hbad) as [msg ->].
  - rewrite update_document_status_run.
    destruct (documents p !! i) as [d|] eqn:Hd; [|done].
    by apply integrity_status.
  - rewrite update_document_content_run.
    destruct (documents p !! i) as [d|] eqn:Hd; [|done].
    by apply integrity_content.
  - rewrite delete_document_run.
    destruct (documents p !! i) as [d|] eqn:Hd; [|done].
    by apply integrity_delete_document.
  - rewrite create_chunk_run. cbv zeta.
    destruct (check_chunk p _) as [e|] eqn:Hc; [done|].
    assert (Hp1 := integrity_add_chunk p t _ Hp Hc).
    by destruct (head _).
  - destruct (decide (Forall (λ data, check_chunk p (new_chunk i data) = None) batch))
      as [Hall|Hex].
    + rewrite create_chunks_batch_ok by done.
      apply integrity_add_chunks; [done|]. by apply Forall_fmap.
    + apply not_Forall_Exists in Hex; [|apply _].
      destruct (create_chunks_batch_fail p t i batch) as (e & -> & _); [|done].
      eapply Exists_impl; [exact Hex|]. by intros data Hd.
  - rewrite delete_chunk_run. destruct (head _); [|done].
    by apply integrity_filter_chunks.
  - rewrite delete_chunks_by_document_run. by apply integrity_filter_chunks.
Qed.

(** X12.  The constraints of the schema are an invariant of the
    repository: started in a database where every document row carries
    its key and a creation time, every chunk row has a creation time and
    refers to a stored document, the primary keys of the chunks are
    distinct and all keys came from the sequences, any sequence of write
    calls (each a request with a session of its own, whether it succeeds or
    raises) leaves such a database. *)
Theorem repository_keeps_integrity (p : Database) (requests : list (Write * Z)) :
  integrity p → integrity (foldl after_write p requests).
Proof.
  revert p. induction requests as [|request requests IH]; intros p Hp; [done|].
  simpl. by apply IH, after_write_integrity.
Qed.

End Integrity.

(** * Further properties of the ingestion pipeline *)

(** ** What a run may touch *)

Section Follows.
Context {S : Type} (R : relation S) `{!PreOrder R}.

Lemma follows_ret {A} (a : A) : follows R (ret a).
Proof. intros s. reflexivity. Qed.

Lemma follows_raise {A} (e : exn) : follows R (raise (A := A) e).
Proof. intros s. reflexivity. Qed.

Lemma follows_call {A} (r : result A) : follows R (call r).
Proof. intros s. reflexivity. Qed.

Lemma follows_gets {A} (f : S → A) : follows R (gets f).
Proof. intros s. reflexivity. Qed.

Lemma follows_bind {A B} (m : M S A) (k : A → M S B) :
  follows R m → (∀ a, follows R (k a)) → follows R (bind m k).
Proof.
  intros Hm Hk s. unfold bind. specialize (Hm s).
  destruct (m s) as [[a|e] s']; [|done].
  etrans; [exact Hm|]. apply Hk.
Qed.

Lemma follows_try_except {A} (body : M S A) (handler : exn → M S A) :
  follows R body → (∀ e, follows R (handler e)) →
  follows R (try_except body handler).
Proof.
  intros Hm Hk s. unfold try_except. specialize (Hm s).
  destruct (body s) as [[a|e] s']; [done|].
  etrans; [exact Hm|]. apply Hk.
Qed.

Lemma follows_try_finally {A} (body : M S A) (cleanup : M S unit) :
  follows R body → follows R cleanup → follows R (try_finally body cleanup).
Proof.
  intros Hm Hc s. unfold try_finally. specialize (Hm s).
  destruct (body s) as [r s']. specialize (Hc s').
  destruct (cleanup s') as [[[]|e] s'']; by etrans.
Qed.

End Follows.

Section TaskSteps.
Context `{FL : Float8}.

Lemma difference_singleton_subseteq (X : gset string) (x : string) : X ∖ {[x]} ⊆ X.
Proof. intros f Hf. by apply elem_of_difference in Hf as [? _]. Qed.

Lemma touches_only_refl (i : Z) (p : Database) : touches_only i p p.
Proof. split; [done|]. exists []. split; [by rewrite app_nil_r|done]. Qed.

Lemma touches_only_trans (i : Z) (p1 p2 p3 : Database) :
  touches_only i p1 p2 → touches_only i p2 p3 → touches_only i p1 p3.
Proof.
  intros [Hd1 (rows1 & Hc1 & Hr1)] [Hd2 (rows2 & Hc2 & Hr2)]. split.
  - intros j Hj. by rewrite Hd2, Hd1.
  - exists (rows1 ++ rows2). split.
    + by rewrite Hc2, Hc1, <- app_assoc.
    + by apply Forall_app.
Qed.

Global Instance session_step_preorder (i : Z) : PreOrder (session_step i).
Proof.
  split.
  - intros s Hs. split_and!; try done. apply touches_only_refl.
  - intros s1 s2 s3 H12 H23 Hs1.
    destruct (H12 Hs1) as (Hs2 & Hnow12 & Ht12 & Hi12).
    destruct (H23 Hs2) as (Hs3 & Hnow23 & Ht23 & Hi23).
    split_and!; [done|congruence| |auto].
    by eapply touches_only_trans.
Qed.

Global Instance task_step_preorder (job_id : string) (i : Z) (path : string) :
  PreOrder (task_step job_id i path).
Proof.
  split.
  - intros st. split_and!; try done. apply difference_singleton_subseteq.
  - intros st1 st2 st3 (Hs12 & Hj12 & Hk12 & Hf12 & Hg12 & Hc12)
      (Hs23 & Hj23 & Hk23 & Hf23 & Hg23 & Hc23).
    split_and!.
    + by etrans.
    + intros k Hk. by rewrite Hj23, Hj12.
    + by rewrite Hk23.
    + by etrans.
    + intros f Hf. apply Hg23. apply elem_of_difference.
      split; [|by apply elem_of_difference in Hf as [_ ?]]. by apply Hg12.
    + congruence.
Qed.

Lemma settled_inv (s : Session) :
  settled s → ∃ c re t, s = mkSession c c re t.
Proof. destruct s as [c p re t]. unfold settled. simpl. intros ->. by eexists _, _, _. Qed.

Lemma session_step_intro (i : Z) (s s' : Session) :
  (∀ c re t, s = mkSession c c re t → session_step i s s') → session_step i s s'.
Proof.
  intros H Hs. destruct (settled_inv s Hs) as (c & re & t & E).
  by apply (H c re t E).
Qed.

Lemma session_step_put (i t : Z) (p : Database) (d d' : Document) :
  documents p !! i = Some d →
  (integrity p → integrity (put_document i d' p)) →
  session_step i (SessionLocal p t) (SessionLocal (put_document i d' p) t).
Proof.
  intros Hd Hint _. split_and!; try done. split.
  - intros j Hj. cbn [committed SessionLocal put_document documents].
    by rewrite lookup_insert_ne.
  - exists []. split; [by rewrite app_nil_r|done].
Qed.

Lemma update_document_content_follows (i : Z) (content : string) (length_ n : Z) :
  follows (session_step i) (update_document_content i content length_ n).
Proof.
  intros s. apply session_step_intro. intros c [o|] t ->.
  - assert (Hrun : update_document_content i content length_ n
                     (mkSession c c (Some o) t)
                   = (Raise (PendingRollbackError o), mkSession c c (Some o) t))
      by reflexivity.
    rewrite Hrun. reflexivity.
  - change (mkSession c c None t) with (SessionLocal c t).
    rewrite update_document_content_run.
    destruct (documents c !! i) as [d|] eqn:Hd; [|reflexivity].
    apply (session_step_put i t c d); [done|]. intros Hc. by apply integrity_content.
Qed.

Lemma update_document_status_follows (i : Z) (st : DocumentStatus)
    (msg : option string) :
  follows (session_step i) (update_document_status i st msg).
Proof.
  intros s. apply session_step_intro. intros c [o|] t ->.
  - assert (Hrun : update_document_status i st msg (mkSession c c (Some o) t)
                   = (Raise (PendingRollbackError o), mkSession c c (Some o) t))
      by reflexivity.
    rewrite Hrun. reflexivity.
  - change (mkSession c c None t) with (SessionLocal c t).
    rewrite update_document_status_run.
    destruct (documents c !! i) as [d|] eqn:Hd; [|reflexivity].
    apply (session_step_put i t c d); [done|]. intros Hc. by apply integrity_status.
Qed.

Lemma saved_rows_document_id (i pk t : Z) (batch : list ChunkData) :
  Forall (λ c, DocumentChunk_document_id c = i)
    (saved_rows pk t (new_chunk i <$> batch)).
Proof. revert pk. induction batch as [|data l IH]; intros pk; simpl; constructor; auto. Qed.

Lemma create_chunks_batch_follows (i : Z) (batch : list ChunkData) :
  follows (session_step i) (create_chunks_batch i batch).
Proof.
  intros s. apply session_step_intro. intros c [o|] t ->.
  - assert (Hrun : create_chunks_batch i batch (mkSession c c (Some o) t)
                   = (Raise (PendingRollbackError o), mkSession c c (Some o) t))
      by reflexivity.
    rewrite Hrun. reflexivity.
  - change (mkSession c c None t) with (SessionLocal c t).
    destruct (decide (Forall (λ data, check_chunk c (new_chunk i data) = None) batch))
      as [Hall|Hex].
    + rewrite create_chunks_batch_ok by done. intros _. split_and!; try done.
      * split; [done|]. eexists. split; [reflexivity|]. apply saved_rows_document_id.
      * intros Hc. apply integrity_add_chunks; [done|]. by apply Forall_fmap.
    + apply not_Forall_Exists in Hex; [|apply _].
      destruct (create_chunks_batch_fail c t i batch) as (e & -> & _).
      { eapply Exists_impl; [exact Hex|]. by intros data Hd. }
      intros _. split_and!; try done. apply touches_only_refl.
Qed.

Lemma close_follows (i : Z) : follows (session_step i) close.
Proof.
  intros s Hs. unfold close, modify. cbn [snd]. split_and!; try done.
  apply touches_only_refl.
Qed.

Lemma with_db_follows (job_id : string) (i : Z) (path : string) {A}
    (m : M Session A) :
  follows (session_step i) m → follows (task_step job_id i path) (with_db m).
Proof.
  intros Hm st. unfold with_db. specialize (Hm (db st)).
  destruct (m (db st)) as [r s']. cbn [snd] in *.
  split_and!; try done. apply difference_singleton_subseteq.
Qed.

Lemma os_unlink_follows (job_id : string) (i : Z) (path : string) :
  follows (task_step job_id i path) (os_unlink path).
Proof.
  intros st. unfold os_unlink. case_decide; [|reflexivity]. cbn [snd].
  split_and!; try done. cbn [filesystem]. apply difference_singleton_subseteq.
Qed.

Lemma job_setitem_follows (job_id : string) (i : Z) (path : string)
    (f : Job → Job) :
  follows (task_step job_id i path) (job_setitem job_id f).
Proof.
  intros st. unfold job_setitem.
  destruct (jobs st !! job_id) as [j|] eqn:Hj; [|reflexivity]. cbn [snd].
  split_and!; try done.
  - intros k Hk. cbn [jobs]. by rewrite lookup_insert_ne.
  - cbn [jobs]. rewrite lookup_insert_eq, Hj. by split.
  - apply difference_singleton_subseteq.
Qed.

(** One step through a block of the task. *)
Ltac follows_step :=
  lazymatch goal with
  | |- follows _ (bind _ _) => apply follows_bind; [apply _| |intros ?]
  | |- follows _ (try_except _ _) => apply follows_try_except; [apply _| |intros ?]
  | |- follows _ (ret _) => apply follows_ret; apply _
  | |- follows _ (raise _) => apply follows_raise; apply _
  | |- follows _ (call _) => apply follows_call; apply _
  | |- follows _ (gets _) => apply follows_gets; apply _
  | |- follows _ (with_db (update_document_content _ _ _ _)) =>
      apply with_db_follows, update_document_content_follows
  | |- follows _ (with_db (update_document_status _ _ _)) =>
      apply with_db_follows, update_document_status_follows
  | |- follows _ (with_db (create_chunks_batch _ _)) =>
      apply with_db_follows, create_chunks_batch_follows
  | |- follows _ (os_unlink _) => apply os_unlink_follows
  | |- follows _ (job_setitem _ _) => apply job_setitem_follows
  end.

Section Task.
Variable DoclingDocument : Type.
Variable converter_convert : string → result DoclingDocument.
Variable export_to_markdown : DoclingDocument → string.
Variable chunker_chunk : DoclingDocument → Z → result (list DoclingChunk).
Variable embed_documents : list string → result (list (list float)).

Local Abbreviation task :=
  (process_document_task DoclingDocument converter_convert
     export_to_markdown chunker_chunk embed_documents).

Lemma try_block_follows (job_id : string) (i : Z) (path filename : string)
    (size : Z) :
  follows (task_step job_id i path)
    (process_document_task_try DoclingDocument converter_convert
       export_to_markdown chunker_chunk embed_documents job_id i path filename size).
Proof.
  unfold process_document_task_try, convert_document, hybrid_chunk_document,
    generate_embeddings.
  repeat follows_step.
Qed.

Lemma except_follows (job_id : string) (i : Z) (path : string) (e : exn) :
  follows (task_step job_id i path) (process_document_task_except job_id i path e).
Proof. unfold process_document_task_except. repeat follows_step. Qed.

Lemma task_follows (job_id : string) (i : Z) (path filename : string) (size : Z)
    (w : World) :
  let w' := (task job_id i path filename size w).2 in
  touches_only i (database w) (database w')
  ∧ (integrity (database w) → integrity (database w'))
  ∧ (∀ k, k ≠ job_id → jobs_storage w' !! k = jobs_storage w !! k)
  ∧ (is_Some (jobs_storage w' !! job_id) ↔ is_Some (jobs_storage w !! job_id))
  ∧ files w' ⊆ files w
  ∧ files w ∖ {[path]} ⊆ files w'
  ∧ time w' = time w.
Proof.
  unfold process_document_task.
  set (st0 := mkTaskState _ _ _ _).
  assert (Hstep : task_step job_id i path st0
            ((try_finally
                (try_except
                   (process_document_task_try DoclingDocument converter_convert
                      export_to_markdown chunker_chunk embed_documents job_id i path
                      filename size)
                   (process_document_task_except job_id i path))
                (with_db close)) st0).2).
  { apply follows_try_finally; [apply _| |].
    - apply follows_try_except; [apply _| |].
      + apply try_block_follows.
      + intros e. apply except_follows.
    - apply with_db_follows, close_follows. }
  destruct (try_finally _ _ st0) as [r st]. cbn [snd] in *.
  destruct Hstep as (Hs & Hj & Hk & Hf & Hg & Hc).
  destruct Hs as (_ & _ & Ht & Hi); [done|].
  cbn [database files jobs_storage time]. by split_and!.
Qed.

(** X13.  Whatever the converter, the chunker and the embeddings client
    do, and however the task ends, a run of [process_document_task] for
    document [i], job [job_id] and file [path] leaves every other document
    row as it was, removes no chunk and adds chunks of document [i] only
    (at the end of the table), changes no other job entry and neither adds
    nor removes an entry, creates no file and removes no file but [path]. *)
Theorem process_document_task_frame (job_id : string) (i : Z)
    (path filename : string) (size : Z) (w : World) :
  let w' := (task job_id i path filename size w).2 in
  (∀ j, j ≠ i → documents (database w') !! j = documents (database w) !! j)
  ∧ (∃ rows, chunks (database w') = (chunks (database w) ++ rows)%list
             ∧ Forall (λ c, DocumentChunk_document_id c = i) rows)
  ∧ (∀ k, k ≠ job_id → jobs_storage w' !! k = jobs_storage w !! k)
  ∧ (is_Some (jobs_storage w' !! job_id) ↔ is_Some (jobs_storage w !! job_id))
  ∧ files w' ⊆ files w
  ∧ files w ∖ {[path]} ⊆ files w'.
Proof.
  destruct (task_follows job_id i path filename size w)
    as ([Hd Hc] & _ & Hj & Hk & Hf & Hg & _).
  cbv zeta. by split_and!.
Qed.

(** X14.  Whatever the converter, the chunker and the embeddings client
    do, and however the task ends, a run of [process_document_task] that
    starts in a database satisfying the constraints of the schema leaves
    one that satisfies them: no chunk without its document, no two chunks
    with one primary key. *)
Theorem process_document_task_integrity (job_id : string) (i : Z)
    (path filename : string) (size : Z) (w : World) :
  integrity (database w) →
  integrity (database (task job_id i path filename size w).2).
Proof.
  intros Hw. by destruct (task_follows job_id i path filename size w) as (_ & Hi & _);
    apply Hi.
Qed.

End Task.

End TaskSteps.

(** ** The ways a task ends *)

Section TaskOutcomes.
Context `{FL : Float8}.
Variable DoclingDocument : Type.
Variable converter_convert : string → result DoclingDocument.
Variable export_to_markdown : DoclingDocument → string.
Variable chunker_chunk : DoclingDocument → Z → result (list DoclingChunk).
Variable embed_documents : list string → result (list (list float)).

Local Abbreviation try_block :=
  (process_document_task_try DoclingDocument converter_convert
     export_to_markdown chunker_chunk embed_documents).
Local Abbreviation task :=
  (process_document_task DoclingDocument converter_convert
     export_to_markdown chunker_chunk embed_documents).

Lemma failed_columns (t : Z) (d : Document) (msg : option string) :
  let d' := onupdate t d (status_assignments FAILED msg t d) in
  status d' = FAILED
  ∧ error_message d' = msg
  ∧ completed_at d' = completed_at d
  ∧ same_but_status_columns d d'.
Proof.
  cbv zeta. unfold same_but_status_columns.
  by destruct (onupdate_cases t d (status_assignments FAILED msg t d)) as [-> | ->].
Qed.

Lemma completed_columns (t i : Z) (markdown : string) (n : Z) (d : Document) :
  let d' := completed t i markdown n d in
  status d' = COMPLETED
  ∧ error_message d' = None
  ∧ completed_at d' = Some t
  ∧ markdown_content d' = Some markdown
  ∧ markdown_length d' = Some (len markdown)
  ∧ num_chunks d' = n
  ∧ filename d' = filename d
  ∧ created_at d' = created_at d.
Proof.
  cbv zeta. unfold completed, content_written.
  destruct (onupdate_cases t d (content_assignments markdown (len markdown) n d))
    as [-> | ->];
    match goal with
    | |- context [onupdate t ?d0 ?d1] =>
        by destruct (onupdate_cases t d0 d1) as [-> | ->]
    end.
Qed.

Lemma task_batch_vectors (chunk_iter : list DoclingChunk) (vectors : list (list float)) :
  Forall (λ data, ∃ v, data_embedding data = Some v ∧ v ∈ vectors)
    (task_batch chunk_iter vectors).
Proof.
  unfold task_batch, chunks_data_of, embeddings_data_of.
  apply Forall_fmap, Forall_forall. intros data Hdata.
  apply elem_of_lookup_imap in Hdata as (idx & [c v] & -> & Hcv).
  exists v. split; [done|].
  apply list_elem_of_lookup_2 in Hcv. by apply elem_of_zip_r in Hcv.
Qed.

(** Vectors of the column's dimension for a document that exists: the
    batch passes every INSERT. *)
Lemma task_batch_accepted (p : Database) (i : Z) (chunk_iter : list DoclingChunk)
    (vectors : list (list float)) :
  is_Some (documents p !! i) →
  Forall (λ v, length v = VECTOR_DIM) vectors →
  Forall (λ data, check_chunk p (new_chunk i data) = None)
    (task_batch chunk_iter vectors).
Proof.
  intros [d Hd] Hdim. eapply Forall_impl; [apply task_batch_vectors|].
  intros data (v & Hv & Hin). unfold check_chunk, new_chunk.
  cbn [embedding document_id]. rewrite Hv, Hd.
  rewrite decide_True; [done|]. by eapply Forall_forall in Hdim; [|exact Hin].
Qed.

Lemma after_completed_chunks (t i : Z) (markdown : string) (n : Z) (d : Document)
    (batch : list ChunkData) (p : Database) :
  chunks (after_completed t i markdown n d batch p)
  = chunks p ++ batch_rows t i batch (after_content t i markdown n d p).
Proof. reflexivity. Qed.

(** X15.  A run whose conversion raises, or whose chunking raises after
    a successful conversion, for a document and a job that exist: the
    task returns; the document is FAILED with the text of the HTTP 500
    error the stage raised as [error_message]; its content columns and
    [completed_at] are as before and no chunk was written; the temporary
    file is gone; the job is ["failed"] with the same text as [error] and
    the time of the run as [completed_at]. *)
Theorem early_failure_marks_failed (w : World) (job_id : string) (i : Z)
    (path filename : string) (size : Z) (e : exn) (detail : string)
    (d : Document) (j : Job) :
  (converter_convert path = Raise e
   ∧ detail = "Document conversion failed: " +:+ str e)
  ∨ (∃ doc, converter_convert path = Ok doc
            ∧ chunker_chunk doc size = Raise e
            ∧ detail = "Text chunking failed: " +:+ str e) →
  documents (database w) !! i = Some d →
  jobs_storage w !! job_id = Some j →
  ∃ w' d' j',
    task job_id i path filename size w = (Ok tt, w')
    ∧ documents (database w') !! i = Some d'
    ∧ status d' = FAILED
    ∧ error_message d' = Some (str (HTTPException 500 detail))
    ∧ completed_at d' = completed_at d
    ∧ same_but_status_columns d d'
    ∧ chunks (database w') = chunks (database w)
    ∧ (path ∉ files w')
    ∧ jobs_storage w' !! job_id = Some j'
    ∧ job_status j' = "failed"
    ∧ job_error j' = Some (str (HTTPException 500 detail))
    ∧ job_completed_at j' = Some (time w)
    ∧ job_result j' = job_result j.
Proof.
  intros Hstage Hd Hj.
  assert (Htry : try_block job_id i path filename size
            (mkTaskState (SessionLocal (database w) (time w)) (files w)
               (jobs_storage w) (time w))
            = (Raise (HTTPException 500 detail),
               mkTaskState (SessionLocal (database w) (time w)) (files w)
                 (jobs_storage w) (time w))).
  { destruct Hstage as [[Hconv ->] | (doc & Hconv & Hchunk & ->)].
    - by apply try_block_conversion_failure.
    - by eapply try_block_chunking_failure. }
  rewrite (task_handled _ _ _ _ _ _ _ _ _ _ _ _ _ _ _ d Htry Hd).
  rewrite Hj. cbv zeta.
  set (msg := str (HTTPException 500 detail)).
  destruct (failed_columns (time w) d (Some msg)) as (Hst & Hmsg & Hat & Hsame).
  eexists _, _, (failed_job msg (time w) j). split; [reflexivity|].
  cbn [database files jobs_storage put_document documents chunks].
  split_and!; try done.
  - by rewrite lookup_insert_eq.
  - apply not_elem_of_difference. right. by apply elem_of_singleton.
  - by rewrite lookup_insert_eq.
Qed.

(** X16.  A run in which every stage succeeds: the converter and the
    chunker answer, the embeddings client returns vectors of 1536
    components, the document, the temporary file and the job exist.  The
    task returns; the document is COMPLETED, without error message, with
    the time of the run as [completed_at], the markdown and its length
    stored, and [num_chunks] the number of chunks the chunker produced; the
    chunk table is the old one followed by one row of the document per pair
    of a chunk and a vector ([zip] stops at the shorter list, while
    [num_chunks] counts the chunker's output); the temporary file is gone;
    the job is ["completed"] and carries the response. *)
Theorem every_stage_succeeds (w : World) (job_id : string) (i : Z)
    (path filename : string) (size : Z) (doc : DoclingDocument)
    (chunk_iter : list DoclingChunk) (vectors : list (list float))
    (d : Document) (j : Job) :
  converter_convert path = Ok doc →
  chunker_chunk doc size = Ok chunk_iter →
  embed_documents (docling_text <$> chunk_iter) = Ok vectors →
  Forall (λ v, length v = VECTOR_DIM) vectors →
  documents (database w) !! i = Some d →
  path ∈ files w →
  jobs_storage w !! job_id = Some j →
  ∃ w' d' j' rows result,
    task job_id i path filename size w = (Ok tt, w')
    ∧ documents (database w') !! i = Some d'
    ∧ status d' = COMPLETED
    ∧ error_message d' = None
    ∧ completed_at d' = Some (time w)
    ∧ markdown_content d' = Some (export_to_markdown doc)
    ∧ markdown_length d' = Some (len (export_to_markdown doc))
    ∧ num_chunks d' = Z.of_nat (length chunk_iter)
    ∧ chunks (database w') = chunks (database w) ++ rows
    ∧ length rows = (length chunk_iter `min` length vectors)%nat
    ∧ Forall (λ c, DocumentChunk_document_id c = i) rows
    ∧ (path ∉ files w')
    ∧ jobs_storage w' !! job_id = Some j'
    ∧ job_status j' = "completed"
    ∧ job_completed_at j' = Some (time w)
    ∧ job_error j' = job_error j
    ∧ job_result j' = Some result
    ∧ response_status result = "success"
    ∧ response_num_chunks result = Z.of_nat (length chunk_iter)
    ∧ length (embeddings result) = (length chunk_iter `min` length vectors)%nat.
Proof.
  intros Hconv Hchunk Hembed Hdim Hd Hin Hj.
  rewrite (task_succeeds _ _ _ _ _ job_id i path filename size w doc chunk_iter
             vectors d j Hconv Hchunk Hembed Hd); [|
    apply task_batch_accepted; [|done];
    unfold after_content, put_document; cbn [documents];
    by rewrite lookup_insert_eq | done | done].
  set (n := Z.of_nat (length chunk_iter)).
  set (markdown := export_to_markdown doc).
  destruct (completed_columns (time w) i markdown n d)
    as (H1 & H2 & H3 & H4 & H5 & H6 & _).
  eexists _, _, _, _, _. split; [reflexivity|].
  cbn [database files jobs_storage].
  rewrite lookup_after_completed, after_completed_chunks, lookup_insert_eq.
  split_and!; try done.
  - rewrite length_batch_rows. apply length_task_batch.
  - apply batch_rows_document_id.
  - apply not_elem_of_difference. right. by apply elem_of_singleton.
  - cbn [processing_response response_num_chunks]. by rewrite length_fmap.
  - cbn [processing_response embeddings]. unfold embeddings_data_of.
    by rewrite length_imap, length_zip, length_fmap.
Qed.

(** X17.  The temporary file is removed after the three writes.  When
    every stage succeeds but the file is no longer there, [os.unlink]
    raises inside the [try] block and the handler runs on committed work:
    the task returns with the document FAILED, the text of the
    [FileNotFoundError] as [error_message], while the content, the chunks
    and the [completed_at] of the COMPLETED update are stored; the job is
    ["failed"]. *)
Theorem missing_file_fails_after_persisting (w : World) (job_id : string) (i : Z)
    (path filename : string) (size : Z) (doc : DoclingDocument)
    (chunk_iter : list DoclingChunk) (vectors : list (list float))
    (d : Document) (j : Job) :
  converter_convert path = Ok doc →
  chunker_chunk doc size = Ok chunk_iter →
  embed_documents (docling_text <$> chunk_iter) = Ok vectors →
  Forall (λ v, length v = VECTOR_DIM) vectors →
  documents (database w) !! i = Some d →
  path ∉ files w →
  jobs_storage w !! job_id = Some j →
  ∃ w' d' j' rows,
    task job_id i path filename size w = (Ok tt, w')
    ∧ documents (database w') !! i = Some d'
    ∧ status d' = FAILED
    ∧ error_message d' = Some (str (FileNotFoundError path))
    ∧ completed_at d' = Some (time w)
    ∧ markdown_content d' = Some (export_to_markdown doc)
    ∧ num_chunks d' = Z.of_nat (length chunk_iter)
    ∧ chunks (database w') = chunks (database w) ++ rows
    ∧ length rows = (length chunk_iter `min` length vectors)%nat
    ∧ Forall (λ c, DocumentChunk_document_id c = i) rows
    ∧ jobs_storage w' !! job_id = Some j'
    ∧ job_status j' = "failed"
    ∧ job_error j' = Some (str (FileNotFoundError path))
    ∧ job_result j' = job_result j.
Proof.
  intros Hconv Hchunk Hembed Hdim Hd Hout Hj.
  set (n := Z.of_nat (length chunk_iter)).
  set (markdown := export_to_markdown doc).
  set (batch := task_batch chunk_iter vectors).
  set (p3 := after_completed (time w) i markdown n d batch (database w)).
  assert (Htry : try_block job_id i path filename size
            (mkTaskState (SessionLocal (database w) (time w)) (files w)
               (jobs_storage w) (time w))
            = (Raise (FileNotFoundError path),
               mkTaskState (SessionLocal p3 (time w)) (files w)
                 (jobs_storage w) (time w))).
  { rewrite (try_block_persisted _ _ _ _ _ job_id i path filename size (database w)
               (time w) (files w) (jobs_storage w) (time w) doc chunk_iter vectors d
               Hconv Hchunk Hembed Hd).
    - by rewrite decide_False.
    - apply task_batch_accepted; [|done].
      unfold after_content, put_document. cbn [documents].
      by rewrite lookup_insert_eq. }
  rewrite (task_handled _ _ _ _ _ _ _ _ _ _ _ _ _ _ _
             (completed (time w) i markdown n d) Htry)
    by apply lookup_after_completed.
  rewrite Hj. cbv zeta.
  set (msg := str (FileNotFoundError path)).
  destruct (completed_columns (time w) i markdown n d)
    as (_ & _ & H3 & H4 & _ & H6 & _).
  destruct (failed_columns (time w) (completed (time w) i markdown n d) (Some msg))
    as (Hst & Hmsg & Hat & Hsame).
  destruct Hsame as (_ & _ & _ & _ & Hcontent & _ & Hn & _).
  eexists _, _, (failed_job msg (time w) j), _. split; [reflexivity|].
  cbn [database files jobs_storage put_document documents chunks].
  subst p3. rewrite after_completed_chunks, !lookup_insert_eq.
  split_and!; try done.
  - congruence.
  - congruence.
  - congruence.
  - rewrite length_batch_rows. apply length_task_batch.
  - apply batch_rows_document_id.
Qed.

End TaskOutcomes.

(** * Further properties of the routes *)

Section Previews.

Lemma length_append (s1 s2 : string) :
  String.length (s1 +:+ s2) = (String.length s1 + String.length s2)%nat.
Proof. induction s1 as [|a s1 IH]; simpl; [done|]. by rewrite IH. Qed.

Lemma substring_prefix (n : nat) (s : string) :
  (n ≤ String.length s)%nat →
  String.length (String.substring 0 n s) = n
  ∧ ∃ rest, s = String.substring 0 n s +:+ rest.
Proof.
  revert s. induction n as [|n IH]; intros s Hn.
  - destruct s; simpl; (split; [done|]); by eexists.
  - destruct s as [|a s]; simpl in *; [lia|].
    destruct (IH s) as (Hlen & rest & Hrest); [lia|].
    split; [by rewrite Hlen|]. exists rest. by rewrite Hrest at 1.
Qed.

(** A preview of [n] characters: a text that is not longer is shown as
    it is, a longer one as its first [n] characters followed by three
    dots. *)
Lemma preview_cases (n : nat) (s : string) :
  (len s ≤ Z.of_nat n ∧ preview n s = s)
  ∨ (Z.of_nat n < len s
     ∧ ∃ first rest, s = first +:+ rest
         ∧ String.length first = n
         ∧ preview n s = first +:+ "...").
Proof.
  unfold preview, len. case_decide as Hlong; [right|left; split; [lia|done]].
  split; [done|]. destruct (substring_prefix n s) as (Hlen & rest & Hrest);
    [unfold len in Hlong; lia|].
  by exists (String.substring 0 n s), rest.
Qed.

Lemma length_preview (n : nat) (s : string) :
  (String.length (preview n s) ≤ n + 3)%nat.
Proof.
  destruct (preview_cases n s) as [[Hle ->] | (_ & first & rest & _ & Hlen & ->)].
  - unfold len in Hle. lia.
  - rewrite length_append, Hlen. simpl. lia.
Qed.

End Previews.

Section RouteProperties.
Context `{FL : Float8}.

Lemma document_list_item_run (d : Document) (s : Session) (i c : Z) :
  id d = Some i → created_at d = Some c →
  document_list_item d s =
  (Ok (mkDocumentListItem i (filename d) (status_value (status d)) (file_size d)
         (num_chunks d) c (completed_at d)), s).
Proof. intros Hi Hc. unfold document_list_item, bind, not_none. by rewrite Hi, Hc. Qed.

Lemma for_each_items (docs : list Document) (s : Session) :
  Forall (λ d, is_Some (id d) ∧ is_Some (created_at d)) docs →
  ∃ items, for_each document_list_item docs s = (Ok items, s)
           ∧ Forall2 listed docs items.
Proof.
  induction 1 as [|d docs [[i Hi] [c Hc]] Hdocs (items & Hrun & Hitems)].
  - by exists [].
  - eexists (_ :: items). split.
    + cbn [for_each].
      erewrite bind_ok by (by apply document_list_item_run).
      erewrite bind_ok by exact Hrun. reflexivity.
    + constructor; [|done]. unfold listed. by rewrite Hi, Hc.
Qed.

Lemma document_chunk_response_run (c : DocumentChunk) (s : Session) (i t : Z) :
  DocumentChunk_id c = Some i → chunk_created_at c = Some t →
  document_chunk_response c s =
  (Ok (mkDocumentChunkResponse i (chunk_index c) (preview 200 (text c))
         (text_length c) (chunk_metadata c) t), s).
Proof.
  intros Hi Ht. unfold document_chunk_response, bind, not_none. by rewrite Hi, Ht.
Qed.

Lemma for_each_chunks (cs : list DocumentChunk) (s : Session) :
  Forall (λ c, is_Some (DocumentChunk_id c) ∧ is_Some (chunk_created_at c)) cs →
  ∃ page, for_each document_chunk_response cs s = (Ok page, s)
          ∧ Forall2 chunk_listed cs page.
Proof.
  induction 1 as [|c cs [[i Hi] [t Ht]] Hcs (page & Hrun & Hpage)].
  - by exists [].
  - eexists (_ :: page). split.
    + cbn [for_each].
      erewrite bind_ok by (by apply document_chunk_response_run).
      erewrite bind_ok by exact Hrun. reflexivity.
    + constructor; [|done]. unfold chunk_listed. by rewrite Hi, Ht.
Qed.

Lemma DocumentStatus_of_value_status_value (st : DocumentStatus) :
  DocumentStatus_of_value (status_value st) = Some st.
Proof. by destruct st. Qed.

Lemma DocumentStatus_of_value_None (value : string) :
  value ∉ ["processing"; "completed"; "failed"] →
  DocumentStatus_of_value value = None.
Proof.
  intros Hout. unfold DocumentStatus_of_value.
  repeat case_decide; subst; try done; exfalso; apply Hout; set_solver.
Qed.

Lemma list_documents_run (p : Database) (t : Z) (skip limit : nat)
    (status : option string) (st : option DocumentStatus) :
  integrity p →
  status = Some EmptyString ∧ st = None ∨ status = status_value <$> st →
  ∃ items,
    list_documents skip limit status (SessionLocal p t)
    = (Ok (mkDocumentListResponse (Z.of_nat (length (documents_with st p)))
             skip limit items),
       SessionLocal p t)
    ∧ Forall2 listed
        (take limit (drop skip (merge_sort desc_created_at (documents_with st p))))
        items.
Proof.
  intros Hp Hstatus.
  destruct (for_each_items
              (take limit (drop skip (merge_sort desc_created_at (documents_with st p))))
              (SessionLocal p t)) as (items & Hrun & Hitems).
  { apply Forall_forall. intros d Hd. apply page_elem_of in Hd.
    apply elem_of_documents_with in Hd as [[i Hi] _].
    destruct Hp as (Hdocs & _). destruct (Hdocs _ _ Hi) as (Hid & Hc & _).
    split; [by rewrite Hid|done]. }
  exists items. split; [|done].
  assert (Hparse : ∀ k : option DocumentStatus → M Session DocumentListResponse,
    bind
      match status with
      | Some value =>
          if truthy_str value then
            match DocumentStatus_of_value value with
            | Some member => ret (Some member)
            | None =>
                raise (HTTPException 400
                         "Invalid status. Must be one of: processing, completed, failed")
            end
          else ret None
      | None => ret None
      end k (SessionLocal p t) = k st (SessionLocal p t)).
  { intros k. destruct Hstatus as [[-> ->] | ->].
    - reflexivity.
    - destruct st as [s|]; [|reflexivity]. cbn [fmap option_fmap option_map].
      rewrite DocumentStatus_of_value_status_value. by destruct s. }
  unfold list_documents. rewrite Hparse.
  unfold bind at 1. unfold get_all_documents at 1, bind at 1, assert_active, gets.
  cbn [rollback_exception SessionLocal pending].
  unfold bind at 1. unfold get_document_count at 1, bind at 1, assert_active, gets.
  cbn [rollback_exception SessionLocal pending].
  rewrite documents_query_with. unfold bind at 1.
  fold (SessionLocal p t). rewrite Hrun. reflexivity.
Qed.

Lemma list_documents_invalid (p : Database) (t : Z) (skip limit : nat)
    (value : string) :
  value ≠ EmptyString →
  value ∉ ["processing"; "completed"; "failed"] →
  list_documents skip limit (Some value) (SessionLocal p t)
  = (Raise (HTTPException 400
              "Invalid status. Must be one of: processing, completed, failed"),
     SessionLocal p t).
Proof.
  intros Hne Hout. unfold list_documents.
  rewrite (DocumentStatus_of_value_None value Hout).
  by destruct value.
Qed.

(** X18.  The listing route, in a database that satisfies its
    constraints.  With no status, or with the value of a status, it
    answers with the page [get_all_documents] returns for that filter, item
    by item, and with the count [get_document_count] returns as [total],
    and echoes [skip] and [limit].  An empty status string is no filter.
    Any other string that is not the value of a status is answered with
    400, before anything is read. *)
Theorem list_documents_response (p : Database) (t : Z) (skip limit : nat)
    (st : option DocumentStatus) :
  integrity p →
  ∃ response page,
    list_documents skip limit (status_value <$> st) (SessionLocal p t)
    = (Ok response, SessionLocal p t)
    ∧ get_all_documents skip limit st (SessionLocal p t) = (Ok page, SessionLocal p t)
    ∧ Forall2 listed page (list_items response)
    ∧ get_document_count st (SessionLocal p t)
      = (Ok (list_total response), SessionLocal p t)
    ∧ list_total response = Z.of_nat (length (documents_with st p))
    ∧ list_skip response = skip
    ∧ list_limit response = limit
    ∧ list_documents skip limit (Some EmptyString) (SessionLocal p t)
      = list_documents skip limit None (SessionLocal p t)
    ∧ ∀ value, value ≠ EmptyString →
        value ∉ ["processing"; "completed"; "failed"] →
        list_documents skip limit (Some value) (SessionLocal p t)
        = (Raise (HTTPException 400
                    "Invalid status. Must be one of: processing, completed, failed"),
           SessionLocal p t).
Proof.
  intros Hp.
  destruct (list_documents_run p t skip limit (status_value <$> st) st Hp)
    as (items & Hrun & Hitems); [by right|].
  eexists _, _. split; [exact Hrun|]. split; [reflexivity|].
  cbn [pending SessionLocal list_items list_total list_skip list_limit].
  rewrite documents_query_with. split_and!; try done.
  - unfold get_document_count, bind, assert_active, gets.
    cbn [rollback_exception SessionLocal pending]. by rewrite documents_query_with.
  - intros value Hne Hout. by apply list_documents_invalid.
Qed.

Lemma get_document_endpoint_run (p : Database) (t i : Z) :
  get_document_endpoint i (SessionLocal p t) =
  match documents p !! i with
  | None => (Raise (HTTPException 404 "Document not found"), SessionLocal p t)
  | Some d =>
      match id d, created_at d with
      | Some k, Some c =>
          (Ok (mkDocumentResponse k (filename d) (status_value (status d))
                 (file_size d) (num_chunks d) (chunk_size d) (embedding_model d) c
                 (completed_at d) (preview 500 <$> markdown_content d)
                 (error_message d)),
           SessionLocal p t)
      | None, _ => (Raise (ExternalError "id: none is not an allowed value"),
                    SessionLocal p t)
      | Some _, None =>
          (Raise (ExternalError "'NoneType' object has no attribute 'isoformat'"),
           SessionLocal p t)
      end
  end.
Proof.
  unfold get_document_endpoint. unfold bind at 1. rewrite get_document_run.
  destruct (documents p !! i) as [d|]; [|done].
  unfold bind, not_none. by destruct (id d), (created_at d).
Qed.

(** X19.  The route that shows one document, in a database that
    satisfies its constraints: 404 when no document has the id; otherwise
    the response carries the id, the columns of the row and the value of
    its status, and as [markdown_preview] nothing when there is no content,
    the content itself when it has at most 500 characters, and its first
    500 characters followed by three dots when it is longer.  Nothing is
    written. *)
Theorem get_document_endpoint_response (p : Database) (t i : Z) :
  integrity p →
  match documents p !! i with
  | None =>
      get_document_endpoint i (SessionLocal p t)
      = (Raise (HTTPException 404 "Document not found"), SessionLocal p t)
  | Some d =>
      ∃ r,
        get_document_endpoint i (SessionLocal p t) = (Ok r, SessionLocal p t)
        ∧ document_response_id r = i
        ∧ document_response_filename r = filename d
        ∧ document_response_status r = status_value (status d)
        ∧ document_response_file_size r = file_size d
        ∧ document_response_num_chunks r = num_chunks d
        ∧ document_response_chunk_size r = chunk_size d
        ∧ document_response_embedding_model r = embedding_model d
        ∧ document_response_error_message r = error_message d
        ∧ created_at d = Some (document_response_created_at r)
        ∧ document_response_completed_at r = completed_at d
        ∧ match markdown_content d with
          | None => document_response_markdown_preview r = None
          | Some content =>
              ∃ shown,
                document_response_markdown_preview r = Some shown
                ∧ (String.length shown ≤ 503)%nat
                ∧ (len content ≤ 500 → shown = content)
                ∧ (500 < len content →
                   ∃ first rest, content = first +:+ rest
                     ∧ String.length first = 500%nat
                     ∧ shown = first +:+ "...")
          end
  end.
Proof.
  intros Hp. rewrite get_document_endpoint_run.
  destruct (documents p !! i) as [d|] eqn:Hd; [|done].
  destruct Hp as (Hdocs & _). destruct (Hdocs _ _ Hd) as (Hid & [c Hc] & _).
  rewrite Hid, Hc. eexists. split; [reflexivity|].
  cbn [document_response_id document_response_filename document_response_status
       document_response_file_size document_response_num_chunks
       document_response_chunk_size document_response_embedding_model
       document_response_error_message document_response_created_at
       document_response_completed_at document_response_markdown_preview].
  split_and!; try done.
  destruct (markdown_content d) as [content|]; [|done].
  exists (preview 500 content). split; [done|]. split_and!.
  - apply (length_preview 500 content).
  - intros Hle. destruct (preview_cases 500 content) as [[_ ->] | [Hlt _]]; [done|].
    change (Z.of_nat 500) with 500 in Hlt. lia.
  - intros Hlt. destruct (preview_cases 500 content) as [[Hle _] | [_ H]]; [|done].
    change (Z.of_nat 500) with 500 in Hle. lia.
Qed.

(** X20.  The route that deletes a document has two outcomes: 404,
    with nothing changed, when no document has the id; otherwise the
    success response, with the document and its chunks removed.  Its third
    branch, the answer 500, is never taken. *)
Theorem delete_document_endpoint_outcomes (p : Database) (t i : Z) :
  (∀ detail, (delete_document_endpoint i (SessionLocal p t)).1
             ≠ Raise (HTTPException 500 detail))
  ∧ match documents p !! i with
    | None =>
        delete_document_endpoint i (SessionLocal p t)
        = (Raise (HTTPException 404 "Document not found"), SessionLocal p t)
    | Some _ =>
        ∃ p',
          delete_document_endpoint i (SessionLocal p t)
          = (Ok (mkDeleteResponse "Document deleted successfully" i), SessionLocal p' t)
          ∧ documents p' = delete i (documents p)
          ∧ chunks p' = filter (λ c, DocumentChunk_document_id c ≠ i) (chunks p)
  end.
Proof.
  assert (Hrun : delete_document_endpoint i (SessionLocal p t) =
    match documents p !! i with
    | None => (Raise (HTTPException 404 "Document not found"), SessionLocal p t)
    | Some _ =>
        (Ok (mkDeleteResponse "Document deleted successfully" i),
         SessionLocal (mkDatabase (delete i (documents p))
                         (filter (λ c, DocumentChunk_document_id c ≠ i) (chunks p))
                         (next_document_id p) (next_chunk_id p)) t)
    end).
  { unfold delete_document_endpoint. unfold bind at 1. rewrite get_document_run.
    destruct (documents p !! i) as [d|] eqn:Hd; [|done].
    unfold bind. by rewrite delete_document_run, Hd. }
  rewrite Hrun. destruct (documents p !! i) as [d|]; split; try done.
  by eexists.
Qed.

Lemma get_document_chunks_run (p : Database) (t i : Z) (skip limit : nat)
    (d : Document) :
  integrity p → documents p !! i = Some d →
  ∃ page,
    get_document_chunks i skip limit (SessionLocal p t)
    = (Ok (mkChunksListResponse i
             (Z.of_nat (length (chunks_query (Some i) p))) skip limit page),
       SessionLocal p t)
    ∧ Forall2 chunk_listed
        (take limit (drop skip (merge_sort asc_chunk_index (chunks_of i p)))) page.
Proof.
  intros Hp Hd.
  destruct (for_each_chunks
              (take limit (drop skip (merge_sort asc_chunk_index (chunks_of i p))))
              (SessionLocal p t)) as (page & Hrun & Hpage).
  { apply Forall_forall. intros c Hc. apply page_elem_of in Hc.
    unfold chunks_of in Hc. apply list_elem_of_filter in Hc as [_ Hc].
    destruct Hp as (_ & Hchunks & _).
    eapply Forall_forall in Hchunks; [|exact Hc].
    destruct Hchunks as ((pk & Hpk & _) & _ & Ht). split; [by rewrite Hpk|done]. }
  exists page. split; [|done].
  unfold get_document_chunks. unfold bind at 1. rewrite get_document_run, Hd.
  unfold bind at 1. rewrite get_chunks_by_document_run.
  unfold bind at 1. unfold get_chunk_count at 1, bind at 1, assert_active, gets.
  cbn [rollback_exception SessionLocal pending].
  unfold bind at 1. fold (SessionLocal p t). by rewrite Hrun.
Qed.

(** X21.  The route that lists the chunks of a document, in a database
    that satisfies its constraints: 404 when no document has the id;
    otherwise, for an id other than 0, the page
    [get_chunks_by_document] returns, item by item with each text cut to a
    preview of 200 characters, the number of chunks of the document as
    [total_chunks], and [skip] and [limit] echoed. *)
Theorem get_document_chunks_response (p : Database) (t i : Z) (skip limit : nat) :
  integrity p →
  i ≠ 0 →
  match documents p !! i with
  | None =>
      get_document_chunks i skip limit (SessionLocal p t)
      = (Raise (HTTPException 404 "Document not found"), SessionLocal p t)
  | Some _ =>
      ∃ r page,
        get_document_chunks i skip limit (SessionLocal p t) = (Ok r, SessionLocal p t)
        ∧ get_chunks_by_document i skip limit (SessionLocal p t)
          = (Ok page, SessionLocal p t)
        ∧ Forall2 chunk_listed page (chunks_response_chunks r)
        ∧ Forall (λ item, (String.length (chunk_response_text item) ≤ 203)%nat)
            (chunks_response_chunks r)
        ∧ chunks_response_total_chunks r = Z.of_nat (length (chunks_of i p))
        ∧ chunks_response_document_id r = i
        ∧ chunks_response_skip r = skip
        ∧ chunks_response_limit r = limit
  end.
Proof.
  intros Hp Hi. destruct (documents p !! i) as [d|] eqn:Hd.
  - destruct (get_document_chunks_run p t i skip limit d Hp Hd)
      as (page & Hrun & Hpage).
    eexists _, _. split; [exact Hrun|]. split; [apply get_chunks_by_document_run|].
    cbn [chunks_response_chunks chunks_response_total_chunks
         chunks_response_document_id chunks_response_skip chunks_response_limit].
    split_and!; try done.
    + clear -Hpage. induction Hpage as [|c r cs rs Hc Hcs IH]; constructor; [|done].
      destruct Hc as (_ & _ & -> & _). apply (length_preview 200).
    + by rewrite chunks_query_scope, decide_False.
  - unfold get_document_chunks. unfold bind at 1. by rewrite get_document_run, Hd.
Qed.

End RouteProperties.

(** ** The upload route *)

Section UploadProperties.
Context `{FL : Float8}.
Variable suffix_lower : string → string.
Variable OPENAI_API_KEY : option string.
Variable temporary_name : string → string.
Variable uuid4 : string.

Local Abbreviation upload :=
  (upload_document suffix_lower OPENAI_API_KEY temporary_name uuid4).

Lemma World_eta (w : World) :
  mkWorld (database w) (files w) (jobs_storage w) (time w) = w.
Proof. by destruct w. Qed.

Lemma allowed_extension_fits (ext : string) :
  ext ∈ ALLOWED_EXTENSIONS → (String.length ext ≤ 10)%nat.
Proof.
  unfold ALLOWED_EXTENSIONS. rewrite !elem_of_cons, elem_of_nil.
  intros [-> | [-> | []]]; cbn; lia.
Qed.

(** The world an accepted upload leaves. *)
Lemma upload_document_run (file : UploadFile) (chunk_size : Z) (w : World) :
  suffix_lower (upload_filename file) ∈ ALLOWED_EXTENSIONS →
  truthy_str (default EmptyString OPENAI_API_KEY) = true →
  fits_columns (upload_filename file) (suffix_lower (upload_filename file))
    (upload_size file) chunk_size →
  documents (database w) !! next_document_id (database w) = None →
  let ext := suffix_lower (upload_filename file) in
  let i := next_document_id (database w) in
  let row := new_document_row i (time w) (upload_filename file) ext
               (upload_size file) chunk_size None in
  upload file chunk_size w =
  (Ok (mkUploadResponse uuid4 i "processing"
         "Document processing started in background"
         ("/jobs/" +:+ uuid4) ("/documents/" +:+ pretty i),
       mkBackgroundTask uuid4 i (temporary_name ext) (upload_filename file) chunk_size),
   mkWorld (add_document_row row (database w))
     ({[temporary_name ext]} ∪ files w)
     (<[uuid4 := mkJob i "processing" (upload_filename file) (time w) None None None]>
        (jobs_storage w))
     (time w)).
Proof.
  intros Hext Hkey Hfit Hnew ext i row. unfold upload_document.
  rewrite decide_True by done. rewrite Hkey.
  unfold try_finally, try_except, upload_document_try.
  erewrite bind_ok by reflexivity.
  erewrite bind_ok; cycle 1.
  { apply with_db_run. by apply create_document_run. }
  cbv zeta. cbn [fst].
  erewrite bind_ok by reflexivity.
  reflexivity.
Qed.

(** The world an upload leaves whose row the database rejects. *)
Lemma upload_document_run_rejected (file : UploadFile) (chunk_size : Z) (w : World) :
  suffix_lower (upload_filename file) ∈ ALLOWED_EXTENSIONS →
  truthy_str (default EmptyString OPENAI_API_KEY) = true →
  ¬ fits_columns (upload_filename file) (suffix_lower (upload_filename file))
      (upload_size file) chunk_size →
  ∃ msg,
    upload file chunk_size w =
    (Raise (HTTPException 500 ("Processing failed: " +:+ msg)),
     mkWorld (database w)
       (({[temporary_name (suffix_lower (upload_filename file))]} ∪ files w)
        ∖ {[temporary_name (suffix_lower (upload_filename file))]})
       (jobs_storage w) (time w)).
Proof.
  intros Hext Hkey Hbad.
  destruct (create_document_rejected (database w) (time w) (upload_filename file)
              (suffix_lower (upload_filename file)) (upload_size file) chunk_size None
              Hbad) as [msg Hrun].
  exists msg. unfold upload_document.
  rewrite decide_True by done. rewrite Hkey.
  unfold try_finally, try_except, upload_document_try.
  erewrite bind_ok by reflexivity.
  erewrite bind_raise; cycle 1.
  { apply with_db_run. exact Hrun. }
  unfold upload_document_except.
  erewrite bind_ok by apply unlink_or_ignore.
  reflexivity.
Qed.

(** X22.  An upload whose file name has no allowed extension is
    answered with 400, and an upload of an allowed kind while no OpenAI key
    is configured (the variable unset or empty) with 500; in both cases
    before anything is done: no file is written, no document and no job
    are created. *)
Theorem upload_document_rejects (file : UploadFile) (chunk_size : Z) (w : World) :
  suffix_lower (upload_filename file) ∉ ALLOWED_EXTENSIONS
  ∨ OPENAI_API_KEY = None ∨ OPENAI_API_KEY = Some EmptyString →
  ∃ status_code detail,
    upload file chunk_size w = (Raise (HTTPException status_code detail), w)
    ∧ (suffix_lower (upload_filename file) ∉ ALLOWED_EXTENSIONS → status_code = 400)
    ∧ (suffix_lower (upload_filename file) ∈ ALLOWED_EXTENSIONS → status_code = 500).
Proof.
  intros Hbad. unfold upload_document.
  destruct (decide (suffix_lower (upload_filename file) ∈ ALLOWED_EXTENSIONS))
    as [Hext|Hext].
  - destruct Hbad as [Hbad | Hkey]; [done|].
    assert (Hfalse : truthy_str (default EmptyString OPENAI_API_KEY) = false)
      by by destruct Hkey as [-> | ->].
    rewrite Hfalse. eexists _, _. split; [reflexivity|]. by split.
  - eexists _, _. split; [reflexivity|]. by split.
Qed.

(** X23.  An accepted upload (allowed extension, key configured), in a
    database that satisfies its constraints, of a file whose name has at
    most 255 characters, with a file size and a chunk size in the range of
    [Integer]: the route answers with the job id and the id of a new
    document, and registers the background task for that job, that
    document, the temporary file, the file name and the chunk size.  When
    it returns the document is stored with status PROCESSING and without
    chunks, the temporary file exists, and the job entry says
    ["processing"] for that document.  The other documents, the chunks,
    the other jobs and the other files are untouched, and the database
    satisfies its constraints. *)
Theorem upload_document_accepted (file : UploadFile) (size : Z) (w : World)
    (key : string) :
  integrity (database w) →
  suffix_lower (upload_filename file) ∈ ALLOWED_EXTENSIONS →
  OPENAI_API_KEY = Some key →
  key ≠ EmptyString →
  (String.length (upload_filename file) ≤ 255)%nat →
  -2147483648 ≤ upload_size file ≤ 2147483647 →
  -2147483648 ≤ size ≤ 2147483647 →
  ∃ response registered w' d j,
    upload file size w = (Ok (response, registered), w')
    ∧ upload_document_id response = next_document_id (database w)
    ∧ upload_job_id response = uuid4
    ∧ upload_status response = "processing"
    ∧ registered = mkBackgroundTask (upload_job_id response)
                     (upload_document_id response)
                     (temporary_name (suffix_lower (upload_filename file)))
                     (upload_filename file) size
    ∧ documents (database w) !! upload_document_id response = None
    ∧ documents (database w') !! upload_document_id response = Some d
    ∧ status d = PROCESSING
    ∧ filename d = upload_filename file
    ∧ file_size d = upload_size file
    ∧ chunk_size d = size
    ∧ num_chunks d = 0
    ∧ chunks_of (upload_document_id response) (database w') = []
    ∧ task_tmp_file_path registered ∈ files w'
    ∧ jobs_storage w' !! upload_job_id response = Some j
    ∧ job_status j = "processing"
    ∧ job_document_id j = upload_document_id response
    ∧ (∀ k, k ≠ upload_document_id response →
         documents (database w') !! k = documents (database w) !! k)
    ∧ chunks (database w') = chunks (database w)
    ∧ (∀ k, k ≠ upload_job_id response →
         jobs_storage w' !! k = jobs_storage w !! k)
    ∧ files w ⊆ files w'
    ∧ integrity (database w').
Proof.
  intros Hw Hext HK Hkey Hname Hsize Hchunk.
  pose proof (integrity_fresh_document _ Hw) as Hnew.
  pose proof (allowed_extension_fits _ Hext) as Hfit.
  rewrite upload_document_run; [|done|by rewrite HK; destruct key|done|done].
  cbv zeta.
  eexists _, _, _, _, _. split; [reflexivity|].
  cbn [upload_document_id upload_job_id upload_status database files jobs_storage
       task_tmp_file_path add_document_row documents chunks].
  rewrite !lookup_insert_eq. split_and!; try done.
  - by apply (integrity_no_chunks (database w)).
  - apply elem_of_union_l. by apply elem_of_singleton.
  - intros k Hk. by rewrite lookup_insert_ne.
  - intros k Hk. by rewrite lookup_insert_ne.
  - apply union_subseteq_r.
  - by apply integrity_add_document_row.
Qed.

(** X29.  An upload that passes the two checks of the route but whose
    row the database rejects, because the file name has more than 255
    characters or the file size or the chunk size is outside the range of
    [Integer]: the route answers 500 with the detail
    ["Processing failed: "] followed by the text of the database error,
    after removing the temporary file it had written.  No document and no
    job are created: with a temporary name that was not in use, everything
    is as before. *)
Theorem upload_document_misfit (file : UploadFile) (size : Z) (w : World)
    (key : string) :
  suffix_lower (upload_filename file) ∈ ALLOWED_EXTENSIONS →
  OPENAI_API_KEY = Some key →
  key ≠ EmptyString →
  (255 < String.length (upload_filename file))%nat
  ∨ ¬ (-2147483648 ≤ upload_size file ≤ 2147483647)
  ∨ ¬ (-2147483648 ≤ size ≤ 2147483647) →
  temporary_name (suffix_lower (upload_filename file)) ∉ files w →
  ∃ msg,
    upload file size w
    = (Raise (HTTPException 500 ("Processing failed: " +:+ msg)), w).
Proof.
  intros Hext HK Hkey Hbad Hfile.
  destruct (upload_document_run_rejected file size w Hext) as [msg Hrun].
  { by rewrite HK; destruct key. }
  { intros (Hname & _ & Hsize & Hchunk). unfold fits_Integer in *.
    destruct Hbad as [Hbad | [Hbad | Hbad]]; [lia|done|done]. }
  assert (Hfiles : ({[temporary_name (suffix_lower (upload_filename file))]} ∪ files w)
                   ∖ {[temporary_name (suffix_lower (upload_filename file))]}
                   = files w).
  { apply set_eq. intros f.
    rewrite elem_of_difference, elem_of_union, !elem_of_singleton.
    split; [by intros [[-> | ?] ?]|]. intros Hf. split; [by right|]. by intros ->. }
  exists msg. by rewrite Hrun, Hfiles, World_eta.
Qed.

End UploadProperties.

(** ** An upload and its task *)

Section UploadThenProcess.
Context `{FL : Float8}.
Variable suffix_lower : string → string.
Variable OPENAI_API_KEY : option string.
Variable temporary_name : string → string.
Variable uuid4 : string.
Variable DoclingDocument : Type.
Variable converter_convert : string → result DoclingDocument.
Variable export_to_markdown : DoclingDocument → string.
Variable chunker_chunk : DoclingDocument → Z → result (list DoclingChunk).
Variable embed_documents : list string → result (list (list float)).

Local Abbreviation upload :=
  (upload_document suffix_lower OPENAI_API_KEY temporary_name uuid4).
Local Abbreviation task :=
  (process_document_task DoclingDocument converter_convert
     export_to_markdown chunker_chunk embed_documents).

(** X24.  An accepted upload followed by its background task, in a
    database that satisfies its constraints, for a file name of at most 255
    characters and a file size and a chunk size in the range of [Integer],
    when the converter and the chunker answer for the uploaded file and
    the embeddings client returns vectors of 1536 components: the task,
    run at a later time [t'] with the arguments the upload registered,
    returns; the new document is
    COMPLETED, created at the time of the upload and completed at [t'],
    with [num_chunks] the number of chunks of the chunker; its stored
    chunks are one per pair of a chunk and a vector, so as many as
    [num_chunks] says when the client returned a vector for every chunk;
    the temporary file is gone again, the job is ["completed"], and the
    database satisfies its constraints. *)
Theorem upload_then_process (file : UploadFile) (size : Z) (w : World)
    (key : string) (t' : Z) (doc : DoclingDocument)
    (chunk_iter : list DoclingChunk) (vectors : list (list float)) :
  integrity (database w) →
  suffix_lower (upload_filename file) ∈ ALLOWED_EXTENSIONS →
  OPENAI_API_KEY = Some key →
  key ≠ EmptyString →
  (String.length (upload_filename file) ≤ 255)%nat →
  -2147483648 ≤ upload_size file ≤ 2147483647 →
  -2147483648 ≤ size ≤ 2147483647 →
  temporary_name (suffix_lower (upload_filename file)) ∉ files w →
  converter_convert (temporary_name (suffix_lower (upload_filename file))) = Ok doc →
  chunker_chunk doc size = Ok chunk_iter →
  embed_documents (docling_text <$> chunk_iter) = Ok vectors →
  Forall (λ v, length v = VECTOR_DIM) vectors →
  ∃ response registered w1 w2 d j,
    upload file size w = (Ok (response, registered), w1)
    ∧ task (task_job_id registered) (task_document_id registered)
        (task_tmp_file_path registered) (task_filename registered)
        (task_chunk_size registered)
        (mkWorld (database w1) (files w1) (jobs_storage w1) t')
      = (Ok tt, w2)
    ∧ documents (database w2) !! upload_document_id response = Some d
    ∧ status d = COMPLETED
    ∧ filename d = upload_filename file
    ∧ created_at d = Some (time w)
    ∧ completed_at d = Some t'
    ∧ num_chunks d = Z.of_nat (length chunk_iter)
    ∧ length (chunks_of (upload_document_id response) (database w2))
      = (length chunk_iter `min` length vectors)%nat
    ∧ (length vectors = length chunk_iter →
       num_chunks d
       = Z.of_nat (length (chunks_of (upload_document_id response) (database w2))))
    ∧ files w2 = files w
    ∧ jobs_storage w2 !! upload_job_id response = Some j
    ∧ job_status j = "completed"
    ∧ job_document_id j = upload_document_id response
    ∧ integrity (database w2).
Proof.
  intros Hw Hext HK Hkey Hname Hsize Hcs Hfile Hconv Hchunk Hembed Hdim.
  pose proof (integrity_fresh_document _ Hw) as Hnew.
  pose proof (allowed_extension_fits _ Hext) as Hfit.
  rewrite upload_document_run; [|done|by rewrite HK; destruct key|done|done].
  cbv zeta.
  set (ext := suffix_lower (upload_filename file)) in *.
  set (i := next_document_id (database w)) in *.
  set (row := new_document_row i (time w) (upload_filename file) ext
                (upload_size file) size None).
  set (p1 := add_document_row row (database w)).
  set (w1 := mkWorld p1 ({[temporary_name ext]} ∪ files w)
               (<[uuid4 := mkJob i "processing" (upload_filename file) (time w)
                             None None None]> (jobs_storage w)) t').
  assert (Hrow : documents p1 !! i = Some row).
  { unfold p1, add_document_row. cbn [documents]. by rewrite lookup_insert_eq. }
  assert (Hp1 : integrity p1) by by apply integrity_add_document_row.
  assert (Hnone : chunks_of i p1 = []) by by apply (integrity_no_chunks (database w)).
  eexists _, _, _, _, _, _. split; [reflexivity|].
  cbn [task_job_id task_document_id task_tmp_file_path task_filename task_chunk_size
       database files jobs_storage upload_document_id upload_job_id].
  assert (Hrun := task_succeeds DoclingDocument converter_convert export_to_markdown
            chunker_chunk embed_documents uuid4 i (temporary_name ext)
            (upload_filename file) size w1 doc chunk_iter vectors row
            (mkJob i "processing" (upload_filename file) (time w) None None None)
            Hconv Hchunk Hembed Hrow).
  subst w1. cbv zeta in Hrun. cbn [database files jobs_storage time] in Hrun.
  split.
  { apply Hrun.
    - apply task_batch_accepted; [|done].
      unfold after_content, put_document. cbn [documents].
      by rewrite lookup_insert_eq.
    - apply elem_of_union_l. by apply elem_of_singleton.
    - by rewrite lookup_insert_eq. }
  cbn [database files jobs_storage].
  set (n := Z.of_nat (length chunk_iter)).
  set (markdown := export_to_markdown doc).
  destruct (completed_columns t' i markdown n row)
    as (H1 & H2 & H3 & H4 & H5 & H6 & H7 & H8).
  assert (Hstored : length (chunks_of i
            (after_completed t' i markdown n row (task_batch chunk_iter vectors) p1))
          = (length chunk_iter `min` length vectors)%nat).
  { rewrite chunks_of_after_completed by done.
    rewrite length_batch_rows. apply length_task_batch. }
  rewrite lookup_after_completed, lookup_insert_eq.
  split_and!; try done.
  - intros Hv. rewrite Hstored, Hv, Nat.min_id. exact H6.
  - apply set_eq. intros f. rewrite elem_of_difference, elem_of_union, !elem_of_singleton.
    split; [by intros [[-> | ?] ?]|]. intros Hf. split; [by right|]. by intros ->.
  - pose proof (task_follows DoclingDocument converter_convert export_to_markdown
                  chunker_chunk embed_documents uuid4 i (temporary_name ext)
                  (upload_filename file) size
                  (mkWorld p1 ({[temporary_name ext]} ∪ files w)
                     (<[uuid4 := mkJob i "processing" (upload_filename file) (time w)
                                   None None None]> (jobs_storage w)) t'))
      as (_ & Hint & _).
    cbv zeta in Hint. rewrite Hrun in Hint.
    + by apply Hint.
    + apply task_batch_accepted; [|done].
      unfold after_content, put_document. cbn [documents].
      by rewrite lookup_insert_eq.
    + apply elem_of_union_l. by apply elem_of_singleton.
    + by rewrite lookup_insert_eq.
Qed.

End UploadThenProcess.

(** * The search, within a document and from the chat agent *)

Section SearchScope.
Context `{FL : Float8} `{!Float8Order FL}.

Lemma StronglySorted_lookup {A} (R : relation A) (l : list A) (i j : nat) (x y : A) :
  StronglySorted R l → (i < j)%nat → l !! i = Some x → l !! j = Some y → R x y.
Proof.
  intros Hl. revert i j. induction Hl as [|z l Hl IH Hz]; intros i j Hij Hi Hj; [done|].
  destruct i as [|i], j as [|j]; try lia; simpl in *.
  - injection Hi as <-. eapply Forall_forall in Hz; [exact Hz|].
    by eapply list_elem_of_lookup_2.
  - eapply (IH i j); [lia|done..].
Qed.

Lemma eligible_candidates (p : Database) (query : list float) (scope : option Z) :
  scope ≠ Some 0 →
  similar_chunks_query query scope p = with_distance query <$> eligible scope p.
Proof.
  intros Hscope. destruct scope as [d|]; [|done].
  apply similar_chunks_query_scope. congruence.
Qed.

(** X25.  A search with a scope other than 0 (no scope, or a document id
    [d] other than 0) and a query of 1536 components returns rows that
    each pair an eligible chunk (a stored chunk, of document [d] when a
    document is given) with the cosine distance between that chunk's
    embedding and the query, no chunk twice, in non-decreasing distance
    with the chunks without embedding last, and at most [min k n] of them
    for [n] eligible chunks.  A query of another dimension raises a
    statement error and changes nothing. *)
Theorem search_similar_chunks_within_scope (p : Database) (t : Z)
    (query : list float) (k : nat) (scope : option Z) :
  scope ≠ Some 0 →
  (length query = VECTOR_DIM →
   ∃ results,
     search_similar_chunks query (Passed k) scope (SessionLocal p t)
     = (Ok results, SessionLocal p t)
     ∧ results.*1 ⊆+ eligible scope p
     ∧ (∀ d, scope = Some d →
          Forall (λ r, DocumentChunk_document_id r.1 = d) results)
     ∧ Forall (λ r, r.2 = (λ v, cosine_distance v query) <$> DocumentChunk_embedding r.1)
         results
     ∧ (∀ (i j : nat) r1 r2,
          (i < j)%nat → results !! i = Some r1 → results !! j = Some r2 →
          match r1.2, r2.2 with
          | Some a, Some b => float_le a b = true
          | None, Some _ => False
          | _, None => True
          end)
     ∧ (length results ≤ k `min` length (eligible scope p))%nat)
  ∧ (length query ≠ VECTOR_DIM →
     ∃ msg,
       search_similar_chunks query (Passed k) scope (SessionLocal p t)
       = (Raise (StatementError msg), SessionLocal p t)).
Proof.
  intros Hscope. split; [intros Hlen|intros Hlen]; cycle 1.
  { unfold search_similar_chunks, bind, bind_vector. simpl.
    rewrite decide_False by done. by eexists. }
  eexists. split; [by apply search_similar_chunks_run|].
  cbn [kwarg_value]. rewrite (eligible_candidates p query scope Hscope).
  set (sorted := merge_sort asc_distance (with_distance query <$> eligible scope p)).
  assert (Hid : ∀ l : list DocumentChunk, (with_distance query <$> l).*1 = l).
  { intros l. rewrite <- list_fmap_compose.
    induction l as [|c l IH]; [done|]. by rewrite fmap_cons, IH. }
  assert (Hsub : take k sorted ⊆+ with_distance query <$> eligible scope p).
  { etrans; [apply sublist_submseteq, sublist_take|].
    unfold sorted. by rewrite merge_sort_Permutation. }
  assert (Hmem : (take k sorted).*1 ⊆+ eligible scope p).
  { rewrite <- (Hid (eligible scope p)). by apply fmap_submseteq. }
  assert (Hrow : ∀ r, r ∈ take k sorted →
                      r.1 ∈ eligible scope p ∧ r = with_distance query r.1).
  { intros r Hr. eapply elem_of_submseteq in Hr; [|exact Hsub].
    by apply list_elem_of_fmap in Hr as (c & -> & Hc). }
  split_and!.
  - exact Hmem.
  - intros d ->. apply Forall_forall. intros r Hr. apply Hrow in Hr as [Hr _].
    unfold eligible in Hr. by apply list_elem_of_filter in Hr as [? _].
  - apply Forall_forall. intros r Hr. apply Hrow in Hr as [_ Hr].
    by rewrite Hr at 1.
  - intros i j r1 r2 Hij H1 H2.
    assert (Hsorted : StronglySorted asc_distance (take k sorted)).
    { apply (StronglySorted_app_1_l _ _ (drop k sorted)).
      rewrite take_drop. apply StronglySorted_merge_sort; apply _. }
    pose proof (StronglySorted_lookup _ _ _ _ _ _ Hsorted Hij H1 H2) as Hle.
    unfold asc_distance, distance_le in Hle.
    by destruct (r1.2), (r2.2).
  - apply submseteq_length in Hmem. rewrite length_fmap in Hmem.
    rewrite length_take in *. lia.
Qed.

End SearchScope.

Section Retrieval.
Context `{FL : Float8}.
Variable embed_query : string → result (list float).
Variable one_minus : float → float.

Local Abbreviation retrieve := (_retrieve_context embed_query one_minus).


Lemma for_each_context_fail (results : list (DocumentChunk * option float))
    (s : Session) :
  Exists (λ r, r.2 = None) results →
  ∃ e, for_each (context_item one_minus) results s = (Raise e, s).
Proof.
  induction results as [|r results IH]; intros Hex; [by apply Exists_nil in Hex|].
  cbn [for_each]. destruct (r.2) as [distance|] eqn:Hr.
  - apply Exists_cons in Hex as [Hex|Hex]; [congruence|].
    destruct (IH Hex) as [e He]. exists e.
    erewrite bind_ok by (unfold context_item; rewrite Hr; reflexivity).
    by erewrite bind_raise by exact He.
  - eexists. by erewrite bind_raise by (unfold context_item; rewrite Hr; reflexivity).
Qed.


(** X27.  The retrieval step gives up with an empty context, and sends
    the run past the analysis straight to the response, in three cases:
    the embeddings client raises; it returns a vector that has not 1536
    components; or one of the rows the search returns belongs to a chunk
    without embedding, whose distance is [None].  In the last case the
    rows that do have a distance are dropped as well. *)
Theorem retrieve_context_gives_up (p : Database) (t : Z) (state : AgentState) :
  (∃ e, embed_query (state_query state) = Raise e)
  ∨ (∃ v, embed_query (state_query state) = Ok v ∧ length v ≠ VECTOR_DIM)
  ∨ (∃ v results,
       embed_query (state_query state) = Ok v
       ∧ retrieve_context_search v (SessionLocal p t) = (Ok results, SessionLocal p t)
       ∧ Exists (λ r, r.2 = None) results) →
  ∃ state' s',
    retrieve state (SessionLocal p t) = (Ok state', s')
    ∧ state_context state' = []
    ∧ state_next_action state' = "respond"
    ∧ _route_next state' = "respond"
    ∧ state_messages state' = state_messages state
    ∧ state_query state' = state_query state
    ∧ state_analysis state' = state_analysis state
    ∧ state_final_response state' = state_final_response state
    ∧ committed s' = p.
Proof.
  intros Hcase.
  assert (Htry : ∃ e, retrieve_context_try embed_query one_minus state (SessionLocal p t)
                      = (Raise e, SessionLocal p t)).
  { unfold retrieve_context_try.
    destruct Hcase as [[e He] | [(v & Hv & Hlen) | (v & results & Hv & Hsearch & Hex)]].
    - exists e. by erewrite bind_raise by (rewrite He; reflexivity).
    - destruct (search_similar_chunks_wrong_dimension p t v (Passed 5%nat) None Hlen)
        as [e He].
      exists e. erewrite bind_ok by (rewrite Hv; reflexivity).
      by erewrite bind_raise by exact He.
    - destruct (for_each_context_fail results (SessionLocal p t) Hex) as [e He].
      exists e. erewrite bind_ok by (rewrite Hv; reflexivity).
      erewrite bind_ok by exact Hsearch.
      by erewrite bind_raise by exact He. }
  destruct Htry as [e Htry].
  eexists _, _. split.
  { unfold _retrieve_context, try_except. rewrite Htry. reflexivity. }
  by split_and!.
Qed.

End Retrieval.

(** ** A task for a document that is gone *)

Section MissingDocument.
Context `{FL : Float8}.
Variable DoclingDocument : Type.
Variable converter_convert : string → result DoclingDocument.
Variable export_to_markdown : DoclingDocument → string.
Variable chunker_chunk : DoclingDocument → Z → result (list DoclingChunk).
Variable embed_documents : list string → result (list (list float)).

Local Abbreviation try_block :=
  (process_document_task_try DoclingDocument converter_convert
     export_to_markdown chunker_chunk embed_documents).
Local Abbreviation task :=
  (process_document_task DoclingDocument converter_convert
     export_to_markdown chunker_chunk embed_documents).

Lemma check_chunk_missing_document (p : Database) (i : Z) (data : ChunkData) :
  documents p !! i = None → check_chunk p (new_chunk i data) ≠ None.
Proof.
  intros Hd. unfold check_chunk, new_chunk. cbn [embedding document_id].
  rewrite Hd. destruct (data_embedding data); [case_decide|]; done.
Qed.

(** X28.  A task for a document that does not exist (deleted after the
    upload, say), when the three stages answer with at least one chunk and
    one vector: the content update finds no row and says nothing, the
    batch is rejected for its foreign key (or its dimension), and the
    handler cannot use the session.  The task ends by raising
    [PendingRollbackError] and leaves everything as it was: the database,
    the temporary file, which is not removed, and the job entry, which
    keeps the status it had. *)
Theorem task_for_missing_document (w : World) (job_id : string) (i : Z)
    (path filename : string) (size : Z) (doc : DoclingDocument)
    (chunk_iter : list DoclingChunk) (vectors : list (list float)) :
  converter_convert path = Ok doc →
  chunker_chunk doc size = Ok chunk_iter →
  embed_documents (docling_text <$> chunk_iter) = Ok vectors →
  chunk_iter ≠ [] →
  vectors ≠ [] →
  documents (database w) !! i = None →
  ∃ e, task job_id i path filename size w = (Raise (PendingRollbackError (str e)), w)
       ∧ Exists (λ data, check_chunk (database w) (new_chunk i data) = Some e)
           (task_batch chunk_iter vectors).
Proof.
  intros Hconv Hchunk Hembed Hchunks Hvectors Hd.
  assert (Hex : Exists (λ data, check_chunk (database w) (new_chunk i data) ≠ None)
                  (task_batch chunk_iter vectors)).
  { pose proof (length_task_batch chunk_iter vectors) as Hlen.
    destruct (task_batch chunk_iter vectors) as [|data batch].
    - destruct chunk_iter; [done|]. destruct vectors; [done|]. simpl in Hlen. lia.
    - left. by apply check_chunk_missing_document. }
  destruct (create_chunks_batch_fail (database w) (time w) i _ Hex) as (e & Hrun & Hwhich).
  exists e. split; [|done].
  assert (Htry : try_block job_id i path filename size
            (mkTaskState (SessionLocal (database w) (time w)) (files w)
               (jobs_storage w) (time w))
            = (Raise e,
               mkTaskState (mkSession (database w) (database w) (Some (str e)) (time w))
                 (files w) (jobs_storage w) (time w))).
  { unfold process_document_task_try.
    erewrite bind_ok by (rewrite convert_document_run, Hconv; reflexivity).
    erewrite bind_ok by (rewrite hybrid_chunk_document_run, Hchunk; reflexivity).
    erewrite bind_ok by (rewrite generate_embeddings_run, Hembed; reflexivity).
    erewrite bind_ok; cycle 1.
    { apply with_db_run. rewrite update_document_content_run, Hd. reflexivity. }
    erewrite bind_raise; [reflexivity|].
    apply with_db_run. exact Hrun. }
  unfold process_document_task, try_finally, try_except.
  rewrite Htry, except_run_rolled_back.
  cbn [with_db close modify db filesystem jobs clock committed now].
  unfold with_db, close, modify.
  cbn [db filesystem jobs clock committed now]. by rewrite World_eta.
Qed.

End MissingDocument.

(** * The further properties at concrete inputs *)

Lemma example_rows_integrity (rows : list (@DocumentChunk unit_vectors))
    (next_pk : Z) :
  Forall (λ c, ∃ pk, chunk_pk c = Some pk ∧ 0 < pk < next_pk
               ∧ (document_id c = 1 ∨ document_id c = 2)
               ∧ is_Some (chunk_created_at c)) rows →
  NoDup (chunk_pk <$> rows) →
  integrity (mkDatabase (documents example_database) rows 3 next_pk).
Proof.
  intros Hrows Hpk. split_and!; [| |done].
  - intros i d. unfold example_database. cbn [documents].
    rewrite !lookup_insert_Some, lookup_empty.
    intros [[<- <-] | [_ [[<- <-] | [_ ?]]]]; [| |done];
      (unfold document_row_ok; split_and!; [reflexivity|by eexists|cbn; lia]).
  - eapply Forall_impl; [exact Hrows|].
    intros c (pk & Hc & Hlt & Hdoc & Ht). unfold chunk_row_ok. split_and!.
    + exists pk. split; [done|]. cbn [next_chunk_id]. lia.
    + cbn [documents]. destruct Hdoc as [-> | ->]; eexists; vm_compute; reflexivity.
    + done.
Qed.

Lemma example_database_integrity : integrity example_database.
Proof.
  apply (example_rows_integrity (chunks example_database) 8).
  - unfold example_database, example_chunk. cbn [chunks].
    repeat (apply Forall_cons; split;
            [eexists; cbn [chunk_pk document_id chunk_created_at];
             split_and!; [reflexivity|lia|lia|auto|by eexists]|]).
    by apply Forall_nil.
  - unfold example_database, example_chunk.
    cbn [chunks fmap list_fmap chunk_pk].
    apply (bool_decide_unpack _). vm_compute. reflexivity.
Qed.

Lemma example_embedded_integrity : integrity example_embedded.
Proof.
  apply (example_rows_integrity (chunks example_embedded) 4).
  - unfold example_embedded, example_chunk. cbn [chunks].
    repeat (apply Forall_cons; split;
            [eexists; cbn [chunk_pk document_id chunk_created_at];
             split_and!; [reflexivity|lia|lia|auto|by eexists]|]).
    by apply Forall_nil.
  - unfold example_embedded, example_chunk.
    cbn [chunks fmap list_fmap chunk_pk].
    apply (bool_decide_unpack _). vm_compute. reflexivity.
Qed.

Lemma example_world_integrity : integrity (database example_world).
Proof.
  unfold example_world. cbn [database].
  rewrite create_document_run;
    [|unfold fits_columns, fits_Integer; cbn; lia
     |apply integrity_fresh_document, example_database_integrity].
  apply integrity_add_document_row, example_database_integrity.
Qed.


(** No document has the id 9. *)
Lemma updates_of_missing_document_witness :
  documents example_database !! 9 = None
  ∧ update_document_status (FL := unit_vectors) 9 FAILED (Some "lost")
      (SessionLocal example_database 5)
    = (Ok None, SessionLocal example_database 5)
  ∧ update_document_content (FL := unit_vectors) 9 "# Title" 7 3
      (SessionLocal example_database 5)
    = (Ok None, SessionLocal example_database 5)
  ∧ update_document (FL := unit_vectors) 9 (mkUpdateDocumentRequest (Some "x.pdf"))
      (SessionLocal example_database 5)
    = (Raise (HTTPException 404 "Document not found"), SessionLocal example_database 5).
Proof.
  split; [vm_compute; reflexivity|].
  apply (updates_of_missing_document (FL := unit_vectors) example_database 5 9).
  vm_compute; reflexivity.
Defined.


(** An embedding of three components. *)
Lemma create_chunk_rejected_witness :
  (length [1; 0; 0] ≠ VECTOR_DIM ∨ documents example_database !! 1 = None)
  ∧ ∃ e s,
      create_chunk (FL := unit_vectors) 1 4 "theta" [1; 0; 0] None
        (SessionLocal example_database 5) = (Raise e, s)
      ∧ committed s = example_database
      ∧ pending s = example_database
      ∧ (length [1; 0; 0] ≠ VECTOR_DIM →
         e = StatementError ("expected 1536 dimensions, not " +:+ pretty (length [1; 0; 0])))
      ∧ (length [1; 0; 0] = VECTOR_DIM →
         e = IntegrityError "insert on document_chunks violates foreign key constraint").
Proof.
  assert (Hbad : length [1; 0; 0] ≠ VECTOR_DIM ∨ documents example_database !! 1 = None)
    by (left; unfold VECTOR_DIM; simpl; lia).
  split; [exact Hbad|].
  apply (create_chunk_rejected (FL := unit_vectors) example_database 5 1 4 "theta"
           [1; 0; 0] None Hbad).
Defined.

(** A third document. *)
Lemma create_document_get_document_witness :
  integrity example_database
  ∧ (String.length "c.pdf" ≤ 255)%nat
  ∧ (String.length ".pdf" ≤ 10)%nat
  ∧ -2147483648 ≤ 1000 ≤ 2147483647
  ∧ -2147483648 ≤ 512 ≤ 2147483647
  ∧ ∃ i row p',
      create_document (FL := unit_vectors) "c.pdf" ".pdf" 1000 512 None
        (SessionLocal example_database 9) = (Ok (i, row), SessionLocal p' 9)
      ∧ get_document i (SessionLocal p' 9) = (Ok (Some row), SessionLocal p' 9)
      ∧ row = mkDocument (Some i) "c.pdf" ".pdf" 1000 PROCESSING None None None 0 512
                "text-embedding-3-small" 1536 (Some 9) None None (default [] None)
      ∧ documents example_database !! i = None
      ∧ chunks_of i p' = []
      ∧ (∀ j, j ≠ i → documents p' !! j = documents example_database !! j)
      ∧ chunks p' = chunks example_database.
Proof.
  assert (Hname : (String.length "c.pdf" ≤ 255)%nat) by (cbn; lia).
  assert (Hext : (String.length ".pdf" ≤ 10)%nat) by (cbn; lia).
  assert (Hsize : -2147483648 ≤ 1000 ≤ 2147483647) by lia.
  assert (Hchunk : -2147483648 ≤ 512 ≤ 2147483647) by lia.
  split_and!; [apply example_database_integrity|exact Hname|exact Hext|apply Hsize
              |apply Hsize|apply Hchunk|apply Hchunk|].
  apply (create_document_get_document (FL := unit_vectors) example_database 9
           "c.pdf" ".pdf" 1000 512 None example_database_integrity Hname Hext Hsize
           Hchunk).
Defined.

(** A deletion, an upload's insert and a rejected chunk. *)
Lemma repository_keeps_integrity_witness :
  integrity example_database
  ∧ integrity
      (foldl after_write example_database
         [(@DeleteDocument unit_vectors 1, 5);
          (@CreateDocument unit_vectors "c.pdf" ".pdf" 1000 512 None, 6);
          (@CreateChunk unit_vectors 3 0 "theta" [1; 0; 0] None, 7)]).
Proof.
  split; [apply example_database_integrity|].
  apply (repository_keeps_integrity (FL := unit_vectors) example_database _
           example_database_integrity).
Defined.

(** The run of the task for [c.pdf]. *)
Lemma process_document_task_integrity_witness :
  integrity (database example_world)
  ∧ integrity (database (example_task embed_unit).2).
Proof.
  split; [apply example_world_integrity|].
  apply (process_document_task_integrity (FL := unit_vectors) string example_convert
           (λ doc, doc) example_chunker embed_unit "job-1" 3 example_path "c.pdf" 512
           example_world example_world_integrity).
Defined.

(** A run whose converter cannot read the file. *)
Lemma early_failure_marks_failed_witness :
  (example_convert_fails example_path = Raise (ExternalError "not a PDF file")
   ∧ "Document conversion failed: not a PDF file"
     = "Document conversion failed: " +:+ str (ExternalError "not a PDF file")
   ∨ ∃ doc, example_convert_fails example_path = Ok doc
            ∧ example_chunker doc 512 = Raise (ExternalError "not a PDF file")
            ∧ "Document conversion failed: not a PDF file"
              = "Text chunking failed: " +:+ str (ExternalError "not a PDF file"))
  ∧ documents (database example_world) !! 3 = Some example_uploaded
  ∧ jobs_storage example_world !! "job-1" = Some example_job
  ∧ ∃ w' d' j',
      process_document_task (FL := unit_vectors) string example_convert_fails
        (λ doc, doc) example_chunker embed_unit "job-1" 3 example_path "c.pdf" 512
        example_world = (Ok tt, w')
      ∧ documents (database w') !! 3 = Some d'
      ∧ status d' = FAILED
      ∧ error_message d'
        = Some (str (HTTPException 500 "Document conversion failed: not a PDF file"))
      ∧ completed_at d' = completed_at example_uploaded
      ∧ same_but_status_columns example_uploaded d'
      ∧ chunks (database w') = chunks (database example_world)
      ∧ (example_path ∉ files w')
      ∧ jobs_storage w' !! "job-1" = Some j'
      ∧ job_status j' = "failed"
      ∧ job_error j'
        = Some (str (HTTPException 500 "Document conversion failed: not a PDF file"))
      ∧ job_completed_at j' = Some (time example_world)
      ∧ job_result j' = job_result example_job.
Proof.
  assert (Hstage :
    example_convert_fails example_path = Raise (ExternalError "not a PDF file")
    ∧ "Document conversion failed: not a PDF file"
      = "Document conversion failed: " +:+ str (ExternalError "not a PDF file")
    ∨ ∃ doc, example_convert_fails example_path = Ok doc
             ∧ example_chunker doc 512 = Raise (ExternalError "not a PDF file")
             ∧ "Document conversion failed: not a PDF file"
               = "Text chunking failed: " +:+ str (ExternalError "not a PDF file"))
    by (left; split; reflexivity).
  split_and!; [exact Hstage|vm_compute; reflexivity..|].
  apply (early_failure_marks_failed (FL := unit_vectors) string example_convert_fails
           (λ doc, doc) example_chunker embed_unit example_world "job-1" 3
           example_path "c.pdf" 512 (ExternalError "not a PDF file")
           "Document conversion failed: not a PDF file" example_uploaded example_job
           Hstage);
    vm_compute; reflexivity.
Defined.

(** The run of the task for [c.pdf] in which every stage succeeds. *)
Lemma every_stage_succeeds_witness :
  example_convert example_path = Ok "# Notes"
  ∧ example_chunker "# Notes" 512 = Ok example_chunks
  ∧ embed_unit (docling_text <$> example_chunks) = Ok [basis 1 0; basis 1 0]
  ∧ Forall (λ v, length v = VECTOR_DIM) [basis 1 0; basis 1 0]
  ∧ documents (database example_world) !! 3 = Some example_uploaded
  ∧ example_path ∈ files example_world
  ∧ jobs_storage example_world !! "job-1" = Some example_job
  ∧ ∃ w' d' j' rows result,
      example_task embed_unit = (Ok tt, w')
      ∧ documents (database w') !! 3 = Some d'
      ∧ status d' = COMPLETED
      ∧ error_message d' = None
      ∧ completed_at d' = Some (time example_world)
      ∧ markdown_content d' = Some "# Notes"
      ∧ markdown_length d' = Some (len "# Notes")
      ∧ num_chunks d' = Z.of_nat (length example_chunks)
      ∧ chunks (database w') = chunks (database example_world) ++ rows
      ∧ length rows = (length example_chunks `min` length [basis 1 0; basis 1 0])%nat
      ∧ Forall (λ c, DocumentChunk_document_id c = 3) rows
      ∧ (example_path ∉ files w')
      ∧ jobs_storage w' !! "job-1" = Some j'
      ∧ job_status j' = "completed"
      ∧ job_completed_at j' = Some (time example_world)
      ∧ job_error j' = job_error example_job
      ∧ job_result j' = Some result
      ∧ response_status result = "success"
      ∧ response_num_chunks result = Z.of_nat (length example_chunks)
      ∧ length (embeddings result)
        = (length example_chunks `min` length [basis 1 0; basis 1 0])%nat.
Proof.
  assert (Hdim : Forall (λ v, length v = VECTOR_DIM) [basis 1 0; basis 1 0]).
  { repeat (apply Forall_cons; split; [vm_compute; reflexivity|]). by apply Forall_nil. }
  assert (Hfile : example_path ∈ files example_world).
  { unfold example_world. cbn [files]. by apply elem_of_singleton. }
  split_and!; [reflexivity..|exact Hdim|vm_compute; reflexivity|exact Hfile
              |vm_compute; reflexivity|].
  apply (every_stage_succeeds (FL := unit_vectors) string example_convert
           (λ doc, doc) example_chunker embed_unit example_world "job-1" 3
           example_path "c.pdf" 512 "# Notes" example_chunks [basis 1 0; basis 1 0]
           example_uploaded example_job);
    [reflexivity..|exact Hdim|vm_compute; reflexivity|exact Hfile
    |vm_compute; reflexivity].
Defined.

(** The same run after the temporary file was removed by someone else. *)
Lemma missing_file_fails_after_persisting_witness :
  let w := mkWorld (database example_world) ∅ (jobs_storage example_world) 10 in
  example_convert example_path = Ok "# Notes"
  ∧ example_chunker "# Notes" 512 = Ok example_chunks
  ∧ embed_unit (docling_text <$> example_chunks) = Ok [basis 1 0; basis 1 0]
  ∧ Forall (λ v, length v = VECTOR_DIM) [basis 1 0; basis 1 0]
  ∧ documents (database w) !! 3 = Some example_uploaded
  ∧ (example_path ∉ files w)
  ∧ jobs_storage w !! "job-1" = Some example_job
  ∧ ∃ w' d' j' rows,
      process_document_task (FL := unit_vectors) string example_convert
        (λ doc, doc) example_chunker embed_unit "job-1" 3 example_path "c.pdf" 512 w
      = (Ok tt, w')
      ∧ documents (database w') !! 3 = Some d'
      ∧ status d' = FAILED
      ∧ error_message d' = Some (str (FileNotFoundError example_path))
      ∧ completed_at d' = Some (time w)
      ∧ markdown_content d' = Some "# Notes"
      ∧ num_chunks d' = Z.of_nat (length example_chunks)
      ∧ chunks (database w') = chunks (database w) ++ rows
      ∧ length rows = (length example_chunks `min` length [basis 1 0; basis 1 0])%nat
      ∧ Forall (λ c, DocumentChunk_document_id c = 3) rows
      ∧ jobs_storage w' !! "job-1" = Some j'
      ∧ job_status j' = "failed"
      ∧ job_error j' = Some (str (FileNotFoundError example_path))
      ∧ job_result j' = job_result example_job.
Proof.
  intros w.
  assert (Hdim : Forall (λ v, length v = VECTOR_DIM) [basis 1 0; basis 1 0]).
  { repeat (apply Forall_cons; split; [vm_compute; reflexivity|]). by apply Forall_nil. }
  assert (Hfile : example_path ∉ files w) by apply not_elem_of_empty.
  split_and!; [reflexivity..|exact Hdim|vm_compute; reflexivity|exact Hfile
              |vm_compute; reflexivity|].
  apply (missing_file_fails_after_persisting (FL := unit_vectors) string example_convert
           (λ doc, doc) example_chunker embed_unit w "job-1" 3
           example_path "c.pdf" 512 "# Notes" example_chunks [basis 1 0; basis 1 0]
           example_uploaded example_job);
    [reflexivity..|exact Hdim|vm_compute; reflexivity|exact Hfile
    |vm_compute; reflexivity].
Defined.

(** The documents that are being processed. *)
Lemma list_documents_response_witness :
  integrity example_database
  ∧ ∃ response page,
      list_documents (FL := unit_vectors) 0 100 (status_value <$> Some PROCESSING)
        (SessionLocal example_database 5)
      = (Ok response, SessionLocal example_database 5)
      ∧ get_all_documents 0 100 (Some PROCESSING) (SessionLocal example_database 5)
        = (Ok page, SessionLocal example_database 5)
      ∧ Forall2 listed page (list_items response)
      ∧ get_document_count (Some PROCESSING) (SessionLocal example_database 5)
        = (Ok (list_total response), SessionLocal example_database 5)
      ∧ list_total response
        = Z.of_nat (length (documents_with (Some PROCESSING) example_database))
      ∧ list_skip response = 0%nat
      ∧ list_limit response = 100%nat
      ∧ list_documents 0 100 (Some EmptyString) (SessionLocal example_database 5)
        = list_documents 0 100 None (SessionLocal example_database 5)
      ∧ ∀ value, value ≠ EmptyString →
          value ∉ ["processing"; "completed"; "failed"] →
          list_documents 0 100 (Some value) (SessionLocal example_database 5)
          = (Raise (HTTPException 400
                      "Invalid status. Must be one of: processing, completed, failed"),
             SessionLocal example_database 5).
Proof.
  split; [apply example_database_integrity|].
  apply (list_documents_response (FL := unit_vectors) example_database 5 0 100
           (Some PROCESSING) example_database_integrity).
Defined.

(** Document 1, and the id 9 that no document has. *)
Lemma get_document_endpoint_response_witness :
  integrity example_database
  ∧ match documents example_database !! 1 with
    | None =>
        get_document_endpoint (FL := unit_vectors) 1 (SessionLocal example_database 5)
        = (Raise (HTTPException 404 "Document not found"), SessionLocal example_database 5)
    | Some d =>
        ∃ r,
          get_document_endpoint (FL := unit_vectors) 1 (SessionLocal example_database 5)
          = (Ok r, SessionLocal example_database 5)
          ∧ document_response_id r = 1
          ∧ document_response_filename r = filename d
          ∧ document_response_status r = status_value (status d)
          ∧ document_response_file_size r = file_size d
          ∧ document_response_num_chunks r = num_chunks d
          ∧ document_response_chunk_size r = chunk_size d
          ∧ document_response_embedding_model r = embedding_model d
          ∧ document_response_error_message r = error_message d
          ∧ created_at d = Some (document_response_created_at r)
          ∧ document_response_completed_at r = completed_at d
          ∧ match markdown_content d with
            | None => document_response_markdown_preview r = None
            | Some content =>
                ∃ shown,
                  document_response_markdown_preview r = Some shown
                  ∧ (String.length shown ≤ 503)%nat
                  ∧ (len content ≤ 500 → shown = content)
                  ∧ (500 < len content →
                     ∃ first rest, content = first +:+ rest
                       ∧ String.length first = 500%nat
                       ∧ shown = first +:+ "...")
            end
    end.
Proof.
  split; [apply example_database_integrity|].
  apply (get_document_endpoint_response (FL := unit_vectors) example_database 5 1
           example_database_integrity).
Defined.

(** The first page of the chunks of document 1. *)
Lemma get_document_chunks_response_witness :
  integrity example_database
  ∧ 1 ≠ 0
  ∧ match documents example_database !! 1 with
    | None =>
        get_document_chunks (FL := unit_vectors) 1 0 2 (SessionLocal example_database 5)
        = (Raise (HTTPException 404 "Document not found"), SessionLocal example_database 5)
    | Some _ =>
        ∃ r page,
          get_document_chunks (FL := unit_vectors) 1 0 2 (SessionLocal example_database 5)
          = (Ok r, SessionLocal example_database 5)
          ∧ get_chunks_by_document 1 0 2 (SessionLocal example_database 5)
            = (Ok page, SessionLocal example_database 5)
          ∧ Forall2 chunk_listed page (chunks_response_chunks r)
          ∧ Forall (λ item, (String.length (chunk_response_text item) ≤ 203)%nat)
              (chunks_response_chunks r)
          ∧ chunks_response_total_chunks r
            = Z.of_nat (length (chunks_of 1 example_database))
          ∧ chunks_response_document_id r = 1
          ∧ chunks_response_skip r = 0%nat
          ∧ chunks_response_limit r = 2%nat
    end.
Proof.
  assert (Hne : 1 ≠ 0) by lia.
  split_and!; [apply example_database_integrity|exact Hne|].
  apply (get_document_chunks_response (FL := unit_vectors) example_database 5 1 0 2
           example_database_integrity Hne).
Defined.

(** The upload of a text file. *)
Lemma upload_document_rejects_witness :
  (".txt" ∉ ALLOWED_EXTENSIONS
   ∨ Some "sk-example" = None ∨ Some "sk-example" = Some EmptyString)
  ∧ ∃ status_code detail,
      upload_document (FL := unit_vectors) (λ _, ".txt") (Some "sk-example")
        example_temporary_name "job-1" (mkUploadFile "notes.txt" 12) 512
        example_before_upload
      = (Raise (HTTPException status_code detail), example_before_upload)
      ∧ (".txt" ∉ ALLOWED_EXTENSIONS → status_code = 400)
      ∧ (".txt" ∈ ALLOWED_EXTENSIONS → status_code = 500).
Proof.
  assert (Hbad : ".txt" ∉ ALLOWED_EXTENSIONS
                 ∨ Some "sk-example" = None ∨ Some "sk-example" = Some EmptyString).
  { left. unfold ALLOWED_EXTENSIONS. rewrite !elem_of_cons, elem_of_nil.
    intros [H | [H | []]]; discriminate. }
  split; [exact Hbad|].
  apply (upload_document_rejects (FL := unit_vectors) (λ _, ".txt") (Some "sk-example")
           example_temporary_name "job-1" (mkUploadFile "notes.txt" 12) 512
           example_before_upload Hbad).
Defined.

Lemma example_suffix_allowed :
  example_suffix (upload_filename example_upload) ∈ ALLOWED_EXTENSIONS.
Proof. unfold example_suffix, ALLOWED_EXTENSIONS. apply list_elem_of_here. Qed.

(** The upload of [c.pdf]. *)
Lemma upload_document_accepted_witness :
  integrity (database example_before_upload)
  ∧ example_suffix (upload_filename example_upload) ∈ ALLOWED_EXTENSIONS
  ∧ Some "sk-example" = Some "sk-example"
  ∧ "sk-example" ≠ EmptyString
  ∧ (String.length (upload_filename example_upload) ≤ 255)%nat
  ∧ -2147483648 ≤ upload_size example_upload ≤ 2147483647
  ∧ -2147483648 ≤ 512 ≤ 2147483647
  ∧ ∃ response registered w' d j,
      upload_document (FL := unit_vectors) example_suffix (Some "sk-example")
        example_temporary_name "job-1" example_upload 512 example_before_upload
      = (Ok (response, registered), w')
      ∧ upload_document_id response = next_document_id (database example_before_upload)
      ∧ upload_job_id response = "job-1"
      ∧ upload_status response = "processing"
      ∧ registered = mkBackgroundTask (upload_job_id response)
                       (upload_document_id response)
                       (example_temporary_name
                          (example_suffix (upload_filename example_upload)))
                       (upload_filename example_upload) 512
      ∧ documents (database example_before_upload) !! upload_document_id response = None
      ∧ documents (database w') !! upload_document_id response = Some d
      ∧ status d = PROCESSING
      ∧ filename d = upload_filename example_upload
      ∧ file_size d = upload_size example_upload
      ∧ chunk_size d = 512
      ∧ num_chunks d = 0
      ∧ chunks_of (upload_document_id response) (database w') = []
      ∧ task_tmp_file_path registered ∈ files w'
      ∧ jobs_storage w' !! upload_job_id response = Some j
      ∧ job_status j = "processing"
      ∧ job_document_id j = upload_document_id response
      ∧ (∀ k, k ≠ upload_document_id response →
           documents (database w') !! k = documents (database example_before_upload) !! k)
      ∧ chunks (database w') = chunks (database example_before_upload)
      ∧ (∀ k, k ≠ upload_job_id response →
           jobs_storage w' !! k = jobs_storage example_before_upload !! k)
      ∧ files example_before_upload ⊆ files w'
      ∧ integrity (database w').
Proof.
  assert (Hkey : "sk-example" ≠ EmptyString) by discriminate.
  assert (Hname : (String.length (upload_filename example_upload) ≤ 255)%nat)
    by (cbn; lia).
  assert (Hsize : -2147483648 ≤ upload_size example_upload ≤ 2147483647)
    by (cbn; lia).
  assert (Hchunk : -2147483648 ≤ 512 ≤ 2147483647) by lia.
  split_and!; [apply example_database_integrity|apply example_suffix_allowed
              |reflexivity|exact Hkey|exact Hname|apply Hsize|apply Hsize
              |apply Hchunk|apply Hchunk|].
  apply (upload_document_accepted (FL := unit_vectors) example_suffix
           (Some "sk-example") example_temporary_name "job-1" example_upload 512
           example_before_upload "sk-example" example_database_integrity
           example_suffix_allowed eq_refl Hkey Hname Hsize Hchunk).
Defined.

(** The upload of a PDF for which the client asks chunks of 3000000000
    tokens. *)
Lemma upload_document_misfit_witness :
  example_suffix (upload_filename example_upload) ∈ ALLOWED_EXTENSIONS
  ∧ Some "sk-example" = Some "sk-example"
  ∧ "sk-example" ≠ EmptyString
  ∧ ((255 < String.length (upload_filename example_upload))%nat
     ∨ ¬ (-2147483648 ≤ upload_size example_upload ≤ 2147483647)
     ∨ ¬ (-2147483648 ≤ 3000000000 ≤ 2147483647))
  ∧ (example_temporary_name (example_suffix (upload_filename example_upload))
     ∉ files example_before_upload)
  ∧ ∃ msg,
      upload_document (FL := unit_vectors) example_suffix (Some "sk-example")
        example_temporary_name "job-1" example_upload 3000000000 example_before_upload
      = (Raise (HTTPException 500 ("Processing failed: " +:+ msg)),
         example_before_upload).
Proof.
  assert (Hkey : "sk-example" ≠ EmptyString) by discriminate.
  assert (Hbad : (255 < String.length (upload_filename example_upload))%nat
                 ∨ ¬ (-2147483648 ≤ upload_size example_upload ≤ 2147483647)
                 ∨ ¬ (-2147483648 ≤ 3000000000 ≤ 2147483647))
    by (right; right; lia).
  assert (Hfile : example_temporary_name (example_suffix (upload_filename example_upload))
                  ∉ files example_before_upload) by apply not_elem_of_empty.
  split_and!; [apply example_suffix_allowed|reflexivity|exact Hkey|exact Hbad
              |exact Hfile|].
  apply (upload_document_misfit (FL := unit_vectors) example_suffix
           (Some "sk-example") example_temporary_name "job-1" example_upload 3000000000
           example_before_upload "sk-example" example_suffix_allowed eq_refl Hkey Hbad
           Hfile).
Defined.

(** The upload of [c.pdf] and its task, run one second later. *)
Lemma upload_then_process_witness :
  integrity (database example_before_upload)
  ∧ example_suffix (upload_filename example_upload) ∈ ALLOWED_EXTENSIONS
  ∧ Some "sk-example" = Some "sk-example"
  ∧ "sk-example" ≠ EmptyString
  ∧ (String.length (upload_filename example_upload) ≤ 255)%nat
  ∧ -2147483648 ≤ upload_size example_upload ≤ 2147483647
  ∧ -2147483648 ≤ 512 ≤ 2147483647
  ∧ (example_temporary_name (example_suffix (upload_filename example_upload))
     ∉ files example_before_upload)
  ∧ example_convert
      (example_temporary_name (example_suffix (upload_filename example_upload)))
    = Ok "# Notes"
  ∧ example_chunker "# Notes" 512 = Ok example_chunks
  ∧ embed_unit (docling_text <$> example_chunks) = Ok [basis 1 0; basis 1 0]
  ∧ Forall (λ v, length v = VECTOR_DIM) [basis 1 0; basis 1 0]
  ∧ ∃ response registered w1 w2 d j,
      upload_document (FL := unit_vectors) example_suffix (Some "sk-example")
        example_temporary_name "job-1" example_upload 512 example_before_upload
      = (Ok (response, registered), w1)
      ∧ process_document_task (FL := unit_vectors) string example_convert
          (λ doc, doc) example_chunker embed_unit
          (task_job_id registered) (task_document_id registered)
          (task_tmp_file_path registered) (task_filename registered)
          (task_chunk_size registered)
          (mkWorld (database w1) (files w1) (jobs_storage w1) 10)
        = (Ok tt, w2)
      ∧ documents (database w2) !! upload_document_id response = Some d
      ∧ status d = COMPLETED
      ∧ filename d = upload_filename example_upload
      ∧ created_at d = Some (time example_before_upload)
      ∧ completed_at d = Some 10
      ∧ num_chunks d = Z.of_nat (length example_chunks)
      ∧ length (chunks_of (upload_document_id response) (database w2))
        = (length example_chunks `min` length [basis 1 0; basis 1 0])%nat
      ∧ (length [basis 1 0; basis 1 0] = length example_chunks →
         num_chunks d
         = Z.of_nat (length (chunks_of (upload_document_id response) (database w2))))
      ∧ files w2 = files example_before_upload
      ∧ jobs_storage w2 !! upload_job_id response = Some j
      ∧ job_status j = "completed"
      ∧ job_document_id j = upload_document_id response
      ∧ integrity (database w2).
Proof.
  assert (Hkey : "sk-example" ≠ EmptyString) by discriminate.
  assert (Hdim : Forall (λ v, length v = VECTOR_DIM) [basis 1 0; basis 1 0]).
  { repeat (apply Forall_cons; split; [vm_compute; reflexivity|]). by apply Forall_nil. }
  assert (Hfile : example_temporary_name (example_suffix (upload_filename example_upload))
                  ∉ files example_before_upload) by apply not_elem_of_empty.
  assert (Hname : (String.length (upload_filename example_upload) ≤ 255)%nat)
    by (cbn; lia).
  assert (Hsize : -2147483648 ≤ upload_size example_upload ≤ 2147483647)
    by (cbn; lia).
  assert (Hchunk : -2147483648 ≤ 512 ≤ 2147483647) by lia.
  split_and!; [apply example_database_integrity|apply example_suffix_allowed
              |reflexivity|exact Hkey|exact Hname|apply Hsize|apply Hsize
              |apply Hchunk|apply Hchunk|exact Hfile|reflexivity..|exact Hdim|].
  apply (upload_then_process (FL := unit_vectors) example_suffix
           (Some "sk-example") example_temporary_name "job-1" string example_convert
           (λ doc, doc) example_chunker embed_unit example_upload 512
           example_before_upload "sk-example" 10 "# Notes" example_chunks
           [basis 1 0; basis 1 0] example_database_integrity
           example_suffix_allowed eq_refl Hkey Hname Hsize Hchunk Hfile eq_refl eq_refl
           eq_refl Hdim).
Defined.

(** A search within document 1. *)
Lemma search_similar_chunks_within_scope_witness :
  Some 1 ≠ Some 0
  ∧ length (basis 1 0) = VECTOR_DIM
  ∧ ∃ results,
      search_similar_chunks (FL := unit_vectors) (basis 1 0) (Passed 3%nat) (Some 1)
        (SessionLocal example_database 5)
      = (Ok results, SessionLocal example_database 5)
      ∧ results.*1 ⊆+ eligible (FL := unit_vectors) (Some 1) example_database
      ∧ (∀ d, Some 1 = Some d →
           Forall (λ r, DocumentChunk_document_id r.1 = d) results)
      ∧ Forall (λ r, r.2 = (λ v, cosine_distance (Float8 := unit_vectors) v (basis 1 0))
                           <$> DocumentChunk_embedding r.1) results
      ∧ (∀ (i j : nat) r1 r2,
           (i < j)%nat → results !! i = Some r1 → results !! j = Some r2 →
           match r1.2, r2.2 with
           | Some a, Some b => float_le (Float8 := unit_vectors) a b = true
           | None, Some _ => False
           | _, None => True
           end)
      ∧ (length results
         ≤ 3 `min` length (eligible (FL := unit_vectors) (Some 1%Z) example_database))%nat.
Proof.
  assert (Hscope : Some 1 ≠ Some 0) by discriminate.
  assert (Hlen : length (basis 1 0) = VECTOR_DIM) by (vm_compute; reflexivity).
  split_and!; [exact Hscope|exact Hlen|].
  apply (proj1 (@search_similar_chunks_within_scope unit_vectors unit_vectors_order
                  example_database 5 (basis 1 0) 3 (Some 1) Hscope) Hlen).
Defined.


(** A question while the embeddings client is failing. *)
Lemma retrieve_context_gives_up_witness :
  ((∃ e, embed_query_rate_limited (state_query example_state) = Raise e)
   ∨ (∃ v, embed_query_rate_limited (state_query example_state) = Ok v
           ∧ length v ≠ VECTOR_DIM)
   ∨ (∃ v results,
        embed_query_rate_limited (state_query example_state) = Ok v
        ∧ retrieve_context_search (FL := unit_vectors) v (SessionLocal example_database 5)
          = (Ok results, SessionLocal example_database 5)
        ∧ Exists (λ r, r.2 = None) results))
  ∧ ∃ state' s',
      _retrieve_context (FL := unit_vectors)
        embed_query_rate_limited (λ x, 1 - x)
        example_state (SessionLocal example_database 5) = (Ok state', s')
      ∧ state_context state' = []
      ∧ state_next_action state' = "respond"
      ∧ _route_next state' = "respond"
      ∧ state_messages state' = state_messages example_state
      ∧ state_query state' = state_query example_state
      ∧ state_analysis state' = state_analysis example_state
      ∧ state_final_response state' = state_final_response example_state
      ∧ committed s' = example_database.
Proof.
  assert (Hcase :
    (∃ e, embed_query_rate_limited (state_query example_state) = Raise e)
    ∨ (∃ v, embed_query_rate_limited (state_query example_state) = Ok v
            ∧ length v ≠ VECTOR_DIM)
    ∨ (∃ v results,
         embed_query_rate_limited (state_query example_state) = Ok v
         ∧ retrieve_context_search (FL := unit_vectors) v
             (SessionLocal example_database 5)
           = (Ok results, SessionLocal example_database 5)
         ∧ Exists (λ r, r.2 = None) results))
    by (left; eexists; reflexivity).
  split; [exact Hcase|].
  apply (retrieve_context_gives_up (FL := unit_vectors)
           embed_query_rate_limited (λ x, 1 - x)
           example_database 5 example_state Hcase).
Defined.

(** The task for a document 99 that was never stored. *)
Lemma task_for_missing_document_witness :
  example_convert example_path = Ok "# Notes"
  ∧ example_chunker "# Notes" 512 = Ok example_chunks
  ∧ embed_unit (docling_text <$> example_chunks) = Ok [basis 1 0; basis 1 0]
  ∧ example_chunks ≠ []
  ∧ [basis 1 0; basis 1 0] ≠ []
  ∧ documents (database example_world) !! 99 = None
  ∧ ∃ e,
      process_document_task (FL := unit_vectors) string example_convert
        (λ doc, doc) example_chunker embed_unit "job-1" 99 example_path "c.pdf" 512
        example_world
      = (Raise (PendingRollbackError (str e)), example_world)
      ∧ Exists (λ data, check_chunk (database example_world) (new_chunk 99 data) = Some e)
          (task_batch (FL := unit_vectors) example_chunks [basis 1 0; basis 1 0]).
Proof.
  assert (Hchunks : example_chunks ≠ []) by discriminate.
  assert (Hvectors : [basis 1 0; basis 1 0] ≠ []) by discriminate.
  assert (Hd : documents (database example_world) !! 99 = None)
    by (vm_compute; reflexivity).
  split_and!; [reflexivity..|exact Hchunks|exact Hvectors|exact Hd|].
  apply (task_for_missing_document (FL := unit_vectors) string example_convert
           (λ doc, doc) example_chunker embed_unit example_world "job-1" 99
           example_path "c.pdf" 512 "# Notes" example_chunks [basis 1 0; basis 1 0]
           eq_refl eq_refl eq_refl Hchunks Hvectors Hd).
Defined.
